(** * apodmgr: the APOD record, the remote client and the local archive

    A shallow embedding of [src/apodmgr/apod.py] and [src/apodmgr/mgrcfg.py].

    - Python [str] is [string]; one [ascii] stands for one code point.
    - The dataclasses are records whose fields follow the annotations;
      [url] is optional because [_validate_data] tests it against [None].
    - Exceptions are values of [exn]; a computation that touches the file
      system or the network is a function from a [world] to a result and
      the world it leaves behind (also when it raises).
    - The file system maps a directory path to the files directly inside it
      ([gmap] from file name to content); the network is a log of the
      requests made so far together with an oracle that answers them.
    - [json], [requests] and [datetime.strftime] are library code: the JSON
      codec, the remote, the clock and the host's rule for file names are
      the fields of the class [Host], over which everything is stated.
      Directories hold files only, and a write the host refuses (a name with
      a path separator, say) raises. *)

From Stdlib Require Import ZArith Ascii String List Bool Lia.
From stdpp Require Import gmap strings list fin_maps.

Set Warnings "-register-all".
Local Open Scope string_scope.

(** ** Regular expressions, as far as the patterns of the program go *)

Module Re.

Inductive regex : Type :=
| Eps                          (* the empty pattern *)
| Chr (c : ascii)              (* a literal character *)
| Digit                        (* [0-9] *)
| Dot                          (* .  : any character but a newline *)
| Seq (r1 r2 : regex)          (* r1 r2 *)
| Alt (r1 r2 : regex)          (* r1|r2 *)
| Rep (n : nat) (r : regex).   (* r{n} *)

Definition is_digit (c : ascii) : bool :=
  let n := nat_of_ascii c in (48 <=? n)%nat && (n <=? 57)%nat.

Definition is_newline (c : ascii) : bool := Ascii.eqb c "010"%char.

Definition eat (p : ascii -> bool) (s : string) : list string :=
  match s with
  | String c t => if p c then [t] else []
  | EmptyString => []
  end.

(** [residuals r s]: what is left of [s] after each way of matching [r]
    at its start. *)
Fixpoint residuals (r : regex) : string -> list string :=
  match r with
  | Eps => fun s => [s]
  | Chr c => eat (Ascii.eqb c)
  | Digit => eat is_digit
  | Dot => eat (fun c => negb (is_newline c))
  | Seq r1 r2 => fun s => flat_map (residuals r2) (residuals r1 s)
  | Alt r1 r2 => fun s => (residuals r1 s ++ residuals r2 s)%list
  | Rep n r1 => fun s => Nat.iter n (flat_map (residuals r1)) [s]
  end.

(** [re.match(r, s)] as a truth value: the pattern matches at the start
    of [s]; what follows the match is not looked at. *)
Definition re_match (r : regex) (s : string) : bool :=
  match residuals r s with
  | [] => false
  | _ :: _ => true
  end.

(** The literal [s] as a pattern. *)
Fixpoint lit (s : string) : regex :=
  match s with
  | EmptyString => Eps
  | String c t => Seq (Chr c) (lit t)
  end.

End Re.
Import Re.

(** ** Exceptions and results *)

Inductive type_error : Type :=
| UnexpectedKeyword (k : string)   (* __init__() got an unexpected keyword argument *)
| MultipleValues (k : string)      (* __init__() got multiple values for argument *)
| MissingArgument (k : string)     (* __init__() missing a required argument *)
| NotAMapping                      (* argument after ** must be a mapping *)
| NotIterable                      (* argument of type ... is not iterable *)
| ExpectedString                   (* expected string or bytes-like object *)
| Message (msg : string).          (* raised by the program with this text *)

Inductive exn : Type :=
| ValueError (msg : string)
| TypeError (why : type_error)
| AttributeError
| HTTPError (status_code : Z)
| FileNotFoundError
| FileExistsError
| OSError
| JSONDecodeError
| ConnectionError
| Untyped (field : string).

Inductive result (A : Type) : Type :=
| Ok (a : A)
| Raise (e : exn).
Arguments Ok {A} a.
Arguments Raise {A} e.

Definition is_ok {A} (r : result A) : bool :=
  match r with Ok _ => true | Raise _ => false end.

Definition rbind {A B} (r : result A) (f : A -> result B) : result B :=
  match r with
  | Ok a => f a
  | Raise e => Raise e
  end.

(** ** Python strings *)

Module Py.

(** [s.rindex(c)]: the highest index of [c] in [s], [None] for the
    [ValueError] of a character that does not occur. *)
Fixpoint rindex (c : ascii) (s : string) : option nat :=
  match s with
  | EmptyString => None
  | String a t =>
      match rindex c t with
      | Some i => Some (S i)
      | None => if Ascii.eqb a c then Some 0%nat else None
      end
  end.

(** [s[n:]] *)
Fixpoint slice_from (n : nat) (s : string) : string :=
  match n, s with
  | O, _ => s
  | S _, EmptyString => EmptyString
  | S m, String _ t => slice_from m t
  end.

(** [s[:n]] *)
Fixpoint slice_to (n : nat) (s : string) : string :=
  match n, s with
  | O, _ => EmptyString
  | S _, EmptyString => EmptyString
  | S m, String a t => String a (slice_to m t)
  end.

(** [s.endswith(suffix)] *)
Definition endswith (suffix s : string) : bool :=
  (String.length suffix <=? String.length s)%nat
  && String.eqb (slice_from (String.length s - String.length suffix) s) suffix.

(** [c.isspace()] on the code points below 256. *)
Definition isspace (c : ascii) : bool :=
  let n := nat_of_ascii c in
  ((9 <=? n)%nat && (n <=? 13)%nat) || ((28 <=? n)%nat && (n <=? 32)%nat)
  || (n =? 133)%nat || (n =? 160)%nat.

Fixpoint lstrip (s : string) : string :=
  match s with
  | String c t => if isspace c then lstrip t else s
  | EmptyString => EmptyString
  end.

Fixpoint rstrip (s : string) : string :=
  match s with
  | EmptyString => EmptyString
  | String c t =>
      match rstrip t with
      | EmptyString => if isspace c then EmptyString else String c EmptyString
      | t' => String c t'
      end
  end.

(** [s.strip()] *)
Definition strip (s : string) : string := rstrip (lstrip s).

(** [needle in s] for strings *)
Fixpoint contains (needle s : string) : bool :=
  String.prefix needle s
  || match s with
     | EmptyString => false
     | String _ t => contains needle t
     end.

(** Truth value of an optional string: [None] and [''] are false. *)
Definition truthy (v : option string) : bool :=
  match v with
  | None => false
  | Some s => negb (String.eqb s "")
  end.

(** [a or b] *)
Definition or_ (a b : option string) : option string :=
  if truthy a then a else b.

End Py.

(** ** JSON documents, as [json.loads] returns them *)

Inductive json : Type :=
| JNull
| JBool (b : bool)
| JNum (literal : string)
| JStr (s : string)
| JArr (items : list json)
| JObj (members : list (string * json)).

(** A [dict] with string keys, in insertion order. *)
Definition dict := list (string * json).

Fixpoint dict_get (k : string) (d : dict) : option json :=
  match d with
  | [] => None
  | (k', v) :: d' => if String.eqb k k' then Some v else dict_get k d'
  end.

Definition dict_has (k : string) (d : dict) : bool :=
  match dict_get k d with Some _ => true | None => false end.

Definition is_jstr (k : string) (v : json) : bool :=
  match v with JStr s => String.eqb s k | _ => false end.

(** [k in data] for whatever [json.loads] returned: a key of a dict, an
    element of a list, a substring of a string; the other values are not
    iterable. *)
Definition py_in (k : string) (data : json) : result bool :=
  match data with
  | JObj d => Ok (dict_has k d)
  | JArr l => Ok (existsb (is_jstr k) l)
  | JStr s => Ok (Py.contains k s)
  | _ => Raise (TypeError NotIterable)
  end.

(** ** The host: libraries, clock, remote and file-name rules *)

Inductive param : Type :=
| PStr (s : string)
| PInt (n : Z).

(** One [requests.get(url, params=...)]. *)
Record request : Type := mkRequest {
  req_url : string;
  req_params : list (string * param)
}.

Record response (blob : Type) : Type := mkResponse {
  status_code : Z;
  content : blob
}.
Arguments mkResponse {blob} _ _.
Arguments status_code {blob} _.
Arguments content {blob} _.

(** [response.ok] of [requests]: [raise_for_status()] does not raise,
    which it does for a status from 400 to 599 and for no other. *)
Definition ok {blob} (r : response blob) : bool :=
  negb ((400 <=? status_code r)%Z && (status_code r <? 600)%Z).

Class Host : Type := {
  (** what a file or a response body holds *)
  blob : Type;
  (** [json.dumps(v, indent=4)] written out, and [json.loads] of what was
      read; [None] is its [JSONDecodeError] *)
  json_dumps : json -> blob;
  json_loads : blob -> option json;
  (** [datetime], [datetime.now()] and [strftime('%Y-%m-%d')] *)
  datetime : Type;
  now : datetime;
  strftime : datetime -> string;
  (** the answer of the network to a request, given the requests made
      before it (latest first); [Raise] is an exception of [requests.get] *)
  http_get : list request -> request -> result (response blob);
  (** whether the host takes the string as the name of a file directly
      inside a directory (no path separator, no forbidden character) *)
  valid_name : string -> bool;
  (** [str(Path.home())], [os.name] and the path separator *)
  home : string;
  os_name : string;
  sep : string;
  (** [str(Path(path).parent)] *)
  parent : string -> string
}.

(** [json.loads(json.dumps(v))] gives [v] back. *)
Definition codec_round_trip `{Host} : Prop :=
  forall v : json, json_loads (json_dumps v) = Some v.

Section World.
Context `{Host}.

(** Directories by path, each a map from file name to content; the log of
    requests, latest first. A path names a directory or nothing; a file is
    named by its directory and its name. *)
Record world : Type := mkWorld {
  fs : gmap string (gmap string blob);
  net : list request
}.

Definition M (A : Type) : Type := world -> result A * world.

Definition ret {A} (a : A) : M A := fun w => (Ok a, w).

Definition raise {A} (e : exn) : M A := fun w => (Raise e, w).

Definition bind {A B} (c : M A) (k : A -> M B) : M B :=
  fun w =>
    match c w with
    | (Ok a, w') => k a w'
    | (Raise e, w') => (Raise e, w')
    end.

Definition lift {A} (r : result A) : M A := fun w => (r, w).

(** [os.listdir(path)]; the order is that of the host. *)
Definition listdir (path : string) : M (list string) :=
  fun w =>
    match fs w !! path with
    | Some d => (Ok (map fst (map_to_list d)), w)
    | None => (Raise FileNotFoundError, w)
    end.

(** [Path(path).exists()] *)
Definition path_exists (path : string) : M bool :=
  fun w => (Ok (bool_decide (is_Some (fs w !! path))), w).

(** [Path(path).mkdir()], neither with [parents] nor with [exist_ok]:
    the path must be free and its parent must be there. *)
Definition mkdir (path : string) : M unit :=
  fun w =>
    if bool_decide (is_Some (fs w !! path))
    then (Raise FileExistsError, w)
    else if bool_decide (is_Some (fs w !! parent path))
    then (Ok tt, mkWorld (<[path := ∅]> (fs w)) (net w))
    else (Raise FileNotFoundError, w).

(** [(Path(path) / name).is_file()] *)
Definition is_file (path name : string) : M bool :=
  fun w => (Ok (bool_decide (is_Some (fs w !! path ≫= (.!! name)))), w).

(** [open(Path(path) / name, 'r').read()] *)
Definition read_file (path name : string) : M blob :=
  fun w =>
    match fs w !! path ≫= (.!! name) with
    | Some c => (Ok c, w)
    | None => (Raise FileNotFoundError, w)
    end.

(** [open(Path(path) / name, 'w').write(c)]: creates or replaces. *)
Definition write_file (path name : string) (c : blob) : M unit :=
  fun w =>
    match fs w !! path with
    | Some d =>
        if valid_name name
        then (Ok tt, mkWorld (<[path := <[name := c]> d]> (fs w)) (net w))
        else (Raise OSError, w)
    | None => (Raise FileNotFoundError, w)
    end.

(** [requests.get]: the request is logged, the network answers. *)
Definition requests_get (rq : request) : M (response blob) :=
  fun w => (http_get (net w) rq, mkWorld (fs w) (rq :: net w)).

(** [response.json()] *)
Definition response_json (r : response blob) : result json :=
  match json_loads (content r) with
  | Some v => Ok v
  | None => Raise JSONDecodeError
  end.

End World.

Declare Scope io_scope.
Delimit Scope io_scope with io.
Notation "'let*' x ':=' c 'in' k" := (bind c (fun x => k))
  (at level 10, x pattern, c at level 100, k at level 200) : io_scope.
Notation "c ';;' k" := (bind c (fun _ => k))
  (at level 100, k at level 200, right associativity) : io_scope.

(** ** Keyword arguments of a dataclass constructor *)

Definition mem (k : string) (l : list string) : bool := existsb (String.eqb k) l.

(** What [__init__] answers to a keyword that is none of its fields:
    [self] is its first parameter and already holds the new object, any
    other name it does not know. *)
Definition refused_keyword (k : string) : type_error :=
  if String.eqb k "self" then MultipleValues k else UnexpectedKeyword k.

(** A constructor called with [**data]: [data] must be a mapping, every
    key a field (the first that is not is reported), every field without a
    default present. *)
Definition bind_kwargs (params required : list string) (data : json) : result dict :=
  match data with
  | JObj d =>
      match find (fun kv => negb (mem (fst kv) params)) d with
      | Some (k, _) => Raise (TypeError (refused_keyword k))
      | None =>
          match find (fun k => negb (dict_has k d)) required with
          | Some k => Raise (TypeError (MissingArgument k))
          | None => Ok d
          end
      end
  | _ => Raise (TypeError NotAMapping)
  end.

(** Reading an argument at the type of its annotation. Python stores any
    value unchecked, so a JSON value of another type gives an object that
    the records below, typed as the annotations are, cannot hold. [Untyped]
    marks such an argument: it is no exception of the program but the end
    of what these records describe, and no statement below is about it. *)
Definition as_str (field : string) (v : option json) : result string :=
  match v with
  | Some (JStr s) => Ok s
  | _ => Raise (Untyped field)
  end.

(** The date is the one field whose type the program itself checks: it is
    the first thing [_validate_data] looks at, with [re.match], which
    raises this TypeError for whatever is not text, null included. *)
Definition as_matched (v : option json) : result string :=
  match v with
  | Some (JStr s) => Ok s
  | _ => Raise (TypeError ExpectedString)
  end.

Definition as_opt_str (field : string) (v : option json) : result (option string) :=
  match v with
  | None | Some JNull => Ok None
  | Some (JStr s) => Ok (Some s)
  | _ => Raise (Untyped field)
  end.

Definition as_opt_dict (field : string) (v : option json) : result (option dict) :=
  match v with
  | None | Some JNull => Ok None
  | Some (JObj d) => Ok (Some d)
  | _ => Raise (Untyped field)
  end.

Definition of_opt_str (v : option string) : json :=
  match v with Some s => JStr s | None => JNull end.

Definition of_opt_dict (v : option dict) : json :=
  match v with Some d => JObj d | None => JNull end.

(** Sequencing of results over a list, the first exception wins. *)
Fixpoint map_result {A B} (f : A -> result B) (l : list A) : result (list B) :=
  match l with
  | [] => Ok []
  | a :: l' =>
      rbind (f a) (fun b => rbind (map_result f l') (fun bs => Ok (b :: bs)))
  end.

Fixpoint chars (s : string) : list json :=
  match s with
  | EmptyString => []
  | String c t => JStr (String c EmptyString) :: chars t
  end.

(** [for data in v]: the items of a list, the keys of a dict, the
    characters of a string. *)
Definition json_iter (v : json) : result (list json) :=
  match v with
  | JArr l => Ok l
  | JObj d => Ok (map (fun kv => JStr (fst kv)) d)
  | JStr s => Ok (chars s)
  | _ => Raise (TypeError NotIterable)
  end.

(** A date as the callers pass it: text or a [datetime]. *)
Inductive date_arg `{Host} : Type :=
| DStr (s : string)
| DTime (t : datetime).

(** ** apod.py: class APOD *)

Module APOD.

Definition API_ENDPOINT : string := "https://api.nasa.gov/planetary/apod".
Definition APOD_DATE_FORMAT : string := "YYYY-MM-DD".

(** [r'[0-9]{4}-[0-9]{2}-[0-9]{2}']: as a pattern, and as the text the
    messages quote. *)
Definition APOD_DATE_FORMAT_RE : regex :=
  Seq (Rep 4 Digit) (Seq (Chr "-") (Seq (Rep 2 Digit) (Seq (Chr "-") (Rep 2 Digit)))).
Definition APOD_DATE_FORMAT_RE_text : string := "[0-9]{4}-[0-9]{2}-[0-9]{2}".

Record t : Type := mk {
  date : string;
  title : string;
  explanation : string;
  url : option string;
  media_type : string;
  hdurl : option string;
  concepts : option string;
  thumbnail_url : option string;
  copyright : option string;
  resources : option dict;
  service_version : option string
}.

Definition fields : list string :=
  ["date"; "title"; "explanation"; "url"; "media_type"; "hdurl"; "concepts";
   "thumbnail_url"; "copyright"; "resources"; "service_version"].

(** the fields without a default *)
Definition required : list string :=
  ["date"; "title"; "explanation"; "url"; "media_type"].

Definition format_message (what : string) : string :=
  what ++ " must follow format " ++ APOD_DATE_FORMAT
       ++ "(" ++ APOD_DATE_FORMAT_RE_text ++ ")".

Definition _validate_data (self : t) : result unit :=
  if negb (re_match APOD_DATE_FORMAT_RE (date self))
  then Raise (ValueError (format_message "date"))
  else if String.eqb (title self) ""
  then Raise (ValueError "APOD must have title")
  else if negb (bool_decide (is_Some (url self)))
          && negb (bool_decide (is_Some (hdurl self)))
  then Raise (ValueError "APOD must have at least url or hdurl")
  else Ok tt.

(** The generated [__init__] has stored the fields in [self];
    [__post_init__] validates. *)
Definition __post_init__ (self : t) : result t :=
  rbind (_validate_data self) (fun _ => Ok self).

(** [APOD( **data)] *)
Definition of_kwargs (data : json) : result t :=
  rbind (bind_kwargs fields required data) (fun d =>
  rbind (as_matched (dict_get "date" d)) (fun date =>
  rbind (as_str "title" (dict_get "title" d)) (fun title =>
  rbind (as_str "explanation" (dict_get "explanation" d)) (fun explanation =>
  rbind (as_opt_str "url" (dict_get "url" d)) (fun url =>
  rbind (as_str "media_type" (dict_get "media_type" d)) (fun media_type =>
  rbind (as_opt_str "hdurl" (dict_get "hdurl" d)) (fun hdurl =>
  rbind (as_opt_str "concepts" (dict_get "concepts" d)) (fun concepts =>
  rbind (as_opt_str "thumbnail_url" (dict_get "thumbnail_url" d)) (fun thumbnail_url =>
  rbind (as_opt_str "copyright" (dict_get "copyright" d)) (fun copyright =>
  rbind (as_opt_dict "resources" (dict_get "resources" d)) (fun resources =>
  rbind (as_opt_str "service_version" (dict_get "service_version" d)) (fun service_version =>
  __post_init__
    (mk date title explanation url media_type hdurl concepts thumbnail_url
        copyright resources service_version))))))))))))).

(** [dataclasses.asdict(self)] *)
Definition asdict (self : t) : json :=
  JObj [("date", JStr (date self));
        ("title", JStr (title self));
        ("explanation", JStr (explanation self));
        ("url", of_opt_str (url self));
        ("media_type", JStr (media_type self));
        ("hdurl", of_opt_str (hdurl self));
        ("concepts", of_opt_str (concepts self));
        ("thumbnail_url", of_opt_str (thumbnail_url self));
        ("copyright", of_opt_str (copyright self));
        ("resources", of_opt_dict (resources self));
        ("service_version", of_opt_str (service_version self))].

Definition __eq__ (self other : t) : bool :=
  String.eqb (date self) (date other).

Definition best_url (self : t) : option string :=
  Py.or_ (hdurl self) (url self).

Definition is_image (self : t) : bool :=
  String.eqb (media_type self) "image".

Definition media_extension (self : t) : result string :=
  match best_url self with
  | None => Raise AttributeError
  | Some u =>
      match Py.rindex "." u with
      | None => Raise (ValueError "substring not found")
      | Some i =>
          let ext := Py.slice_from (i + 1) u in
          Ok (if (4 <? String.length ext)%nat then "jpg" else ext)
      end
  end.

Definition __str__ (self : t) : string :=
  date self ++ " - " ++ media_type self ++ " - " ++ title self.

Section Remote.
Context `{Host}.

(** [APOD( **json.loads(text))] *)
Definition loads (text : blob) : result t :=
  match json_loads text with
  | Some v => of_kwargs v
  | None => Raise JSONDecodeError
  end.

Definition load_from (dir name : string) : M t :=
  (let* text := read_file dir name in lift (loads text))%io.

(** [None] is now; a [datetime] is formatted. *)
Definition date_text (date : option date_arg) : string :=
  match date with
  | None => strftime now
  | Some (DTime d) => strftime d
  | Some (DStr s) => s
  end.

Definition single_request (api_key date : string) : request :=
  mkRequest API_ENDPOINT [("api_key", PStr api_key); ("date", PStr date)].

Definition fetch_single (api_key : string) (date : option date_arg) : M t :=
  let date := date_text date in
  if negb (re_match APOD_DATE_FORMAT_RE date)
  then raise (ValueError (format_message "date"))
  else
    (let* response := requests_get (single_request api_key date) in
     if negb (ok response)
     then raise (HTTPError (status_code response))
     else lift (rbind (response_json response) of_kwargs))%io.

Definition random_request (api_key : string) (count : Z) : request :=
  mkRequest API_ENDPOINT [("api_key", PStr api_key); ("count", PInt count)].

Definition fetch_random (api_key : string) (count : Z) : M (list t) :=
  if negb ((1 <=? count)%Z && (count <=? 100)%Z)
  then raise (ValueError "`count` must be between (0, 100]")
  else
    (let* response := requests_get (random_request api_key count) in
     if negb (ok response)
     then raise (HTTPError (status_code response))
     else lift (rbind (response_json response) (fun v =>
                rbind (json_iter v) (map_result of_kwargs))))%io.

Definition range_request (api_key start_date end_date : string) : request :=
  mkRequest API_ENDPOINT
    [("api_key", PStr api_key); ("start_date", PStr start_date);
     ("end_date", PStr end_date)].

Definition fetch_range (api_key : string) (start_date end_date : option date_arg)
  : M (list t) :=
  let start_date := date_text start_date in
  if negb (re_match APOD_DATE_FORMAT_RE start_date)
  then raise (ValueError (format_message "start_date"))
  else
    let end_date := date_text end_date in
    if negb (re_match APOD_DATE_FORMAT_RE end_date)
    then raise (ValueError (format_message "end_date"))
    else
      (let* response := requests_get (range_request api_key start_date end_date) in
       if negb (ok response)
       then raise (HTTPError (status_code response))
       else lift (rbind (response_json response) (fun v =>
                  rbind (json_iter v) (map_result of_kwargs))))%io.

End Remote.

End APOD.

(** ** mgrcfg.py *)

Section Defaults.
Context `{Host}.

(** A drive of Windows alone, as [C:]. *)
Definition bare_drive (a : string) : bool :=
  String.eqb os_name "nt"
  && (String.length a =? 2)%nat && String.eqb (Py.slice_from 1 a) ":".

(** [str(Path(a) / b)], for [a] as [str(Path(...))] writes a path and [b]
    empty or a plain name. Joining the empty path changes nothing; joined
    to the current directory [.] the name stays alone; a path that ends
    with the separator (a root) or is a drive alone takes the name without
    another separator. *)
Definition joinpath (a b : string) : string :=
  if String.eqb b "" then a
  else if String.eqb a "." then b
  else if Py.endswith sep a || bare_drive a then a ++ b
  else a ++ sep ++ b.

Definition pictures : string :=
  if String.eqb os_name "nt" then "Pictures" else "".

Definition default_apods_dir : string :=
  joinpath (joinpath home pictures) "apods".

Definition default_apods_media_dir : string :=
  joinpath (joinpath (joinpath home pictures) "apods") "images".

(** directory and name of the configuration file *)
Definition default_manager_configuration_path : string * string :=
  (default_apods_dir, "apodmgr.cfg.json").

End Defaults.

Module ManagerConfiguration.

Record t : Type := mk {
  api_key : string;
  apods_path : string;
  apods_media_path : string
}.

Definition fields : list string := ["api_key"; "apods_path"; "apods_media_path"].
Definition required : list string := ["api_key"].

(** [f'{APOD.APOD_DATE_FORMAT_RE}.json'] *)
Definition apod_file_name_pattern : regex :=
  Seq APOD.APOD_DATE_FORMAT_RE (Seq Dot (lit "json")).

(** [f'{APOD.APOD_DATE_FORMAT_RE}.(jpg|png|mp4)'] *)
Definition media_file_name_pattern : regex :=
  Seq APOD.APOD_DATE_FORMAT_RE
      (Seq Dot (Alt (lit "jpg") (Alt (lit "png") (lit "mp4")))).

Section Archive.
Context `{Host}.

Definition or_default (field : string) (v : option json) (default : string)
  : result string :=
  match v with
  | None => Ok default
  | Some _ => as_str field v
  end.

(** [ManagerConfiguration( **data)] *)
Definition of_kwargs (data : json) : result t :=
  rbind (bind_kwargs fields required data) (fun d =>
  rbind (as_str "api_key" (dict_get "api_key" d)) (fun api_key =>
  rbind (or_default "apods_path" (dict_get "apods_path" d) default_apods_dir)
    (fun apods_path =>
  rbind (or_default "apods_media_path" (dict_get "apods_media_path" d)
           default_apods_media_dir) (fun apods_media_path =>
  Ok (mk api_key apods_path apods_media_path))))).

Definition ensure_dir (path : string) : M unit :=
  (let* there := path_exists path in
   if negb there then mkdir path else ret tt)%io.

Definition _validate_data (self : t) : M t :=
  if String.eqb (Py.strip (api_key self)) ""
  then raise (ValueError "API key must not be blank")
  else (ensure_dir (apods_path self);;
        ensure_dir (apods_media_path self);;
        ret self)%io.

(** [file] is given by its directory and its name. The message of the
    source quotes the class and the file object; here it is the fixed
    part of that text. *)
Definition load_from (dir name : string) : M t :=
  (let* there := is_file dir name in
   if negb there then raise FileNotFoundError
   else
     let* text := read_file dir name in
     match json_loads text with
     | None => raise JSONDecodeError
     | Some data =>
         let* has_key := lift (py_in "api_key" data) in
         if negb has_key
         then raise (ValueError "does not contain required `api_key`")
         else
           let* self := lift (of_kwargs data) in
           _validate_data self
     end)%io.

Definition store_apod (self : t) (apod : APOD.t) : M APOD.t :=
  (write_file (apods_path self) (APOD.date apod ++ ".json")
              (json_dumps (APOD.asdict apod));;
   ret apod)%io.

Fixpoint store_each (self : t) (apods : list APOD.t) : M unit :=
  match apods with
  | [] => ret tt
  | apod :: rest => (store_apod self apod;; store_each self rest)%io
  end.

Definition store_apods (self : t) (apods : list APOD.t) : M (list APOD.t) :=
  (store_each self apods;; ret apods)%io.

(** The generator, run to its end: the names in listing order. *)
Definition stored_apods (self : t) : M (list string) :=
  (let* files := listdir (apods_path self) in
   ret (filter (fun file => re_match apod_file_name_pattern file) files))%io.

Definition stored_media (self : t) : M (list string) :=
  (let* files := listdir (apods_path self) in
   ret (filter (fun file => re_match media_file_name_pattern file) files))%io.

Definition stored_apod_file (self : t) (date : date_arg) : M (option string) :=
  let date := APOD.date_text (Some date) in
  if negb (re_match APOD.APOD_DATE_FORMAT_RE date)
  then raise (ValueError (APOD.format_message "date"))
  else
    let file_name := date ++ ".json" in
    (let* files := listdir (apods_path self) in
     ret (find (String.eqb file_name) files))%io.

Definition fetch_single (self : t) (date : option date_arg) : M APOD.t :=
  match date with
  | Some d =>
      (let* found := stored_apod_file self d in
       match found with
       | Some file_name =>
           let* text := read_file (apods_path self) file_name in
           lift (APOD.loads text)
       | None =>
           let* apod := APOD.fetch_single (api_key self) date in
           store_apod self apod
       end)%io
  | None =>
      (let* apod := APOD.fetch_single (api_key self) date in
       store_apod self apod)%io
  end.

Definition fetch_random (self : t) (count : Z) : M (list APOD.t) :=
  (let* apods := APOD.fetch_random (api_key self) count in
   store_apods self apods)%io.

Definition fetch_range (self : t) (start_date end_date : option date_arg)
  : M (list APOD.t) :=
  (let* apods := APOD.fetch_range (api_key self) start_date end_date in
   store_apods self apods)%io.

Definition media_request (url : string) : request := mkRequest url [].

Definition save_media_for (self : t) (apod : APOD.t) : M unit :=
  (let* extension := lift (APOD.media_extension apod) in
   let file_name := APOD.date apod ++ "." ++ extension in
   let* files := listdir (apods_media_path self) in
   if existsb (String.eqb file_name) files
   then ret tt
   else if negb (APOD.is_image apod)
   then raise (TypeError (Message (APOD.__str__ apod ++ " is not a savable image")))
   else
     match APOD.best_url apod with
     | None => raise (ValueError "Invalid URL")
     | Some url =>
         let* response := requests_get (media_request url) in
         if negb (ok response)
         then raise (HTTPError (status_code response))
         else write_file (apods_media_path self) file_name (content response)
     end)%io.

End Archive.

End ManagerConfiguration.

(** ** A host to run the definitions on *)

Module Sample.

(** A file holds a JSON document or other bytes. *)
Inductive file : Type :=
| Document (v : json)
| Bytes (b : string).

Definition parse (f : file) : option json :=
  match f with
  | Document v => Some v
  | Bytes _ => None
  end.

Definition param_text (p : option param) : string :=
  match p with
  | Some (PStr s) => s
  | _ => ""
  end.

Fixpoint param_get (k : string) (ps : list (string * param)) : option param :=
  match ps with
  | [] => None
  | (k', p) :: ps' => if String.eqb k k' then Some p else param_get k ps'
  end.

Definition picture (date : string) : json :=
  JObj [("date", JStr date);
        ("title", JStr "A Picture");
        ("explanation", JStr "What it shows");
        ("url", JStr "https://apod.nasa.gov/apod/image/pic.jpg");
        ("media_type", JStr "image");
        ("service_version", JStr "v1")].

(** The API answers a dated request with the record of that date, and
    any other address with a few bytes. *)
Definition answer (log : list request) (rq : request)
  : result (response file) :=
  if String.eqb (req_url rq) APOD.API_ENDPOINT
  then Ok (mkResponse 200 (Document (picture (param_text (param_get "date" (req_params rq))))))
  else Ok (mkResponse 200 (Bytes "JFIF")).

Definition posix_name (s : string) : bool :=
  negb (String.eqb s "") && negb (Py.contains "/" s).

(** The parent of a path of POSIX without a separator at its end. *)
Definition posix_parent (path : string) : string :=
  match Py.rindex "/" path with
  | None => "."
  | Some O => "/"
  | Some i => Py.slice_to i path
  end.

#[export] Instance host : Host := {|
  blob := file;
  json_dumps := Document;
  json_loads := parse;
  datetime := string;
  now := "2024-03-05";
  strftime := fun d => d;
  http_get := answer;
  valid_name := posix_name;
  home := "/home/u";
  os_name := "posix";
  sep := "/";
  parent := posix_parent
|}.

Definition config : ManagerConfiguration.t :=
  ManagerConfiguration.mk "KEY" "/home/u/apods" "/home/u/apods/images".

(** Both directories exist and are empty; nothing was requested yet. *)
Definition fresh : world :=
  mkWorld (<["/home/u/apods" := ∅]> (<["/home/u/apods/images" := ∅]> ∅)) [].

(** Only the home directory is there. *)
Definition moved_in : world := mkWorld (<["/home/u" := ∅]> ∅) [].

(** Not even the home directory is there. *)
Definition nowhere : world := mkWorld ∅ [].

(** The media directory lies under a directory that does not exist. *)
Definition far_media : ManagerConfiguration.t :=
  ManagerConfiguration.mk "KEY" "/home/u/apods" "/mnt/disk/images".

Definition apod (date : string) (media_type : string)
           (url hdurl : option string) : APOD.t :=
  APOD.mk date "A Picture" "What it shows" url media_type hdurl
          None None None None (Some "v1").

(** What the API answers for a date. *)
Definition of_the_day (date : string) : APOD.t :=
  apod date "image" (Some "https://apod.nasa.gov/apod/image/pic.jpg") None.

(** [hdurl] is the empty string and [url] is null. *)
Definition no_link : APOD.t := apod "2024-01-01" "image" None (Some "").

(** [hdurl] is the empty string and [url] is given. *)
Definition empty_hd : APOD.t :=
  apod "2024-01-01" "image" (Some "https://apod.nasa.gov/apod/image/pic.jpg") (Some "").

(** The address has no dot. *)
Definition undotted : APOD.t :=
  apod "2024-01-01" "image" (Some "https://localhost/picture") None.

Definition both_links : APOD.t :=
  apod "2024-01-01" "image" (Some "https://apod.nasa.gov/apod/image/pic.jpg")
       (Some "https://apod.nasa.gov/apod/image/pic_big.jpeg?download=true").

Definition clip : APOD.t :=
  apod "2024-01-01" "video" (Some "https://example.org/clips/clip.mp4") None.

(** The media directory already holds [2024-01-01.mp4]. *)
Definition with_clip : world :=
  mkWorld (<["/home/u/apods" := ∅]>
           (<["/home/u/apods/images" := {["2024-01-01.mp4" := Bytes "ftyp"]}]> ∅)) [].

(** A picture lies in the records directory, another in the media
    directory. *)
Definition mixed : world :=
  mkWorld (<["/home/u/apods" := {["2024-01-01.jpg" := Bytes "JFIF"]}]>
           (<["/home/u/apods/images" := {["2024-02-02.png" := Bytes "PNG"]}]> ∅)) [].

(** A configuration file with a key the dataclass does not know. *)
Definition settings : dict :=
  [("api_key", JStr "KEY"); ("colour", JStr "red")].

Definition with_settings : world :=
  mkWorld (<["/home/u/apods" := {["apodmgr.cfg.json" := Document (JObj settings)]}]> ∅) [].

End Sample.

(** ** __main__.py and set_bg.py: the commands *)

(** A line break. *)
Definition nl : string := String "010"%char EmptyString.

(** What a command can raise: an exception of the record or the archive,
    or one of its own. *)
Inductive failure : Type :=
| Core (e : exn)
| IndexError                 (* list index out of range, pop from empty list *)
| EOFError                   (* input() at the end of the input *)
| SystemError (os : string). (* set_bg on a host it has no setter for *)

Inductive outcome (A : Type) : Type :=
| Done (a : A)
| Failed (f : failure).
Arguments Done {A} a.
Arguments Failed {A} f.

(** The process: [sys.argv], the one list that every command reads and
    shortens; what was written to the terminal, in order; the lines still to
    be read from it; the images handed to the desktop, latest first. *)
Record console : Type := mkConsole {
  argv : list string;
  stdout : list string;
  stdin : list string;
  desktop : list string
}.

(** Library code of the commands: [int(text)], [None] for its ValueError,
    and [str(Path(dir) / name)]. *)
Class Shell : Type := {
  int_of_str : string -> option Z;
  path_text : string -> string -> string
}.

Section Commands.
Context `{Host} `{Shell}.

Definition Cmd (A : Type) : Type := console -> world -> outcome A * console * world.

Definition cret {A} (a : A) : Cmd A := fun c w => (Done a, c, w).

Definition cfail {A} (f : failure) : Cmd A := fun c w => (Failed f, c, w).

Definition cbind {A B} (m : Cmd A) (k : A -> Cmd B) : Cmd B :=
  fun c w =>
    match m c w with
    | (Done a, c', w') => k a c' w'
    | (Failed f, c', w') => (Failed f, c', w')
    end.

(** A computation of the archive, run by a command. *)
Definition run {A} (m : M A) : Cmd A :=
  fun c w =>
    match m w with
    | (Ok a, w') => (Done a, c, w')
    | (Raise e, w') => (Failed (Core e), c, w')
    end.

Definition write (text : string) : Cmd unit :=
  fun c w =>
    (Done tt, mkConsole (argv c) (stdout c ++ [text]) (stdin c) (desktop c), w).

(** [print(text)] *)
Definition print (text : string) : Cmd unit := write (text ++ nl).

(** [input(prompt)] *)
Definition input (prompt : string) : Cmd string :=
  fun c w =>
    let c' := mkConsole (argv c) (stdout c ++ [prompt]) (stdin c) (desktop c) in
    match stdin c with
    | line :: rest =>
        (Done line, mkConsole (argv c) (stdout c ++ [prompt]) rest (desktop c), w)
    | [] => (Failed EOFError, c', w)
    end.

(** [argv.pop(0)] *)
Definition argv_pop0 : Cmd string :=
  fun c w =>
    match argv c with
    | a :: rest => (Done a, mkConsole rest (stdout c) (stdin c) (desktop c), w)
    | [] => (Failed IndexError, c, w)
    end.

(** [argv[i]], read when the expression is evaluated. *)
Definition argv_get (i : nat) : Cmd string :=
  fun c w =>
    match nth_error (argv c) i with
    | Some a => (Done a, c, w)
    | None => (Failed IndexError, c, w)
    end.

End Commands.

Declare Scope cmd_scope.
Delimit Scope cmd_scope with cmd.
Notation "'let!' x ':=' c 'in' k" := (cbind c (fun x => k))
  (at level 10, x pattern, c at level 100, k at level 200) : cmd_scope.
Notation "c ';;' k" := (cbind c (fun _ => k))
  (at level 100, k at level 200, right associativity) : cmd_scope.

Section Main.
Context `{Host} `{Shell}.

Definition int_or_none (text : string) : option Z := int_of_str text.

Definition FETCH_HELP_MSG : string :=
  nl ++ "Must specify either:" ++ nl
     ++ "<date: " ++ APOD.APOD_DATE_FORMAT ++ ">" ++ nl
     ++ "<count: int>" ++ nl
     ++ "<start_date: " ++ APOD.APOD_DATE_FORMAT ++ "> <end_date: "
     ++ APOD.APOD_DATE_FORMAT ++ ">'" ++ nl
     ++ "today" ++ nl.

Definition DOWNLOAD_MEDIA_HELP_MSG : string :=
  nl ++ "Must specify either:" ++ nl
     ++ "<date: " ++ APOD.APOD_DATE_FORMAT ++ ">" ++ nl
     ++ "today" ++ nl.

(** What a fetcher returns: one record or a list. *)
Inductive fetched : Type :=
| One (apod : APOD.t)
| Many (apods : list APOD.t).

(** [if isinstance(apods, APOD): apods = [apods]] *)
Definition as_list (f : fetched) : list APOD.t :=
  match f with
  | One apod => [apod]
  | Many apods => apods
  end.

(** [for apod in apods: print(apod)] *)
Fixpoint print_each (apods : list APOD.t) : Cmd unit :=
  match apods with
  | [] => cret tt
  | apod :: rest => (print (APOD.__str__ apod);; print_each rest)%cmd
  end.

(** The three fetchers. Each is a [lambda] without parameters: where its
    body names [argv], the list is read when the fetcher is called, not
    when it is made. *)
Definition fetcher_single (config : ManagerConfiguration.t) : Cmd fetched :=
  (let! date := argv_get 0 in
   let! apod := run (ManagerConfiguration.fetch_single config (Some (DStr date))) in
   cret (One apod))%cmd.

Definition fetcher_random (config : ManagerConfiguration.t) (count : Z)
  : Cmd fetched :=
  (let! apods := run (ManagerConfiguration.fetch_random config count) in
   cret (Many apods))%cmd.

Definition fetcher_today (config : ManagerConfiguration.t) : Cmd fetched :=
  (let! apod := run (ManagerConfiguration.fetch_single config None) in
   cret (One apod))%cmd.

Definition fetcher_range (config : ManagerConfiguration.t) : Cmd fetched :=
  (let! start_date := argv_get 0 in
   let! end_date := argv_get 1 in
   let! apods := run (ManagerConfiguration.fetch_range config
                        (Some (DStr start_date)) (Some (DStr end_date))) in
   cret (Many apods))%cmd.

(** [apods = fetcher()] and the two statements after it. *)
Definition call_and_print (fetcher : Cmd fetched) : Cmd unit :=
  (let! apods := fetcher in print_each (as_list apods))%cmd.

Definition fetch (config : ManagerConfiguration.t) : Cmd unit :=
  fun c w =>
    match argv c with
    | [] => print FETCH_HELP_MSG c w
    | [a] =>
        if re_match APOD.APOD_DATE_FORMAT_RE a
        then (argv_pop0;; call_and_print (fetcher_single config))%cmd c w
        else
          match int_or_none a with
          | Some count =>
              (argv_pop0;; call_and_print (fetcher_random config count))%cmd c w
          | None =>
              if String.eqb a "today"
              then (argv_pop0;; call_and_print (fetcher_today config))%cmd c w
              else print FETCH_HELP_MSG c w
          end
    | a :: b :: _ =>
        if re_match APOD.APOD_DATE_FORMAT_RE a && re_match APOD.APOD_DATE_FORMAT_RE b
        then (argv_pop0;; argv_pop0;; call_and_print (fetcher_range config))%cmd c w
        else print FETCH_HELP_MSG c w
    end.

Fixpoint print_files (config : ManagerConfiguration.t) (names : list string)
  : Cmd unit :=
  match names with
  | [] => cret tt
  | apod_file_name :: rest =>
      (let! apod := run (APOD.load_from (ManagerConfiguration.apods_path config)
                                        apod_file_name) in
       print (APOD.__str__ apod);;
       print_files config rest)%cmd
  end.

Definition list_apods (config : ManagerConfiguration.t) : Cmd unit :=
  (let! names := run (ManagerConfiguration.stored_apods config) in
   print_files config names)%cmd.

(** ['today'] stands for the date of now. *)
Definition today_or (date : string) : string :=
  if String.eqb date "today" then strftime now else date.

Definition download_media (config : ManagerConfiguration.t) : Cmd unit :=
  fun c w =>
    match argv c with
    | [] => print DOWNLOAD_MEDIA_HELP_MSG c w
    | _ :: _ =>
        (let! date := argv_pop0 in
         let date := today_or date in
         let file_name := date ++ ".json" in
         let! names := run (ManagerConfiguration.stored_apods config) in
         if negb (mem file_name names)
         then print ("Haven't fetched " ++ date ++ " yet...")
         else
           let! apod := run (ManagerConfiguration.fetch_single config
                               (Some (DStr date))) in
           run (ManagerConfiguration.save_media_for config apod);;
           let! extension := run (lift (APOD.media_extension apod)) in
           print (path_text (ManagerConfiguration.apods_media_path config)
                            (APOD.date apod ++ "." ++ extension)))%cmd c w
    end.

(** [ManagerConfiguration] has no [path_for_media]: looking the attribute
    up raises before its argument is evaluated, and the statements after
    that line (the test that the media file exists, [set_bg], the last
    [print]) are never reached. *)
Definition set_background (config : ManagerConfiguration.t) : Cmd unit :=
  fun c w =>
    match argv c with
    | [] => print DOWNLOAD_MEDIA_HELP_MSG c w
    | _ :: _ =>
        (let! date := argv_pop0 in
         let date := today_or date in
         let! apod_file_name :=
           run (ManagerConfiguration.stored_apod_file config (DStr date)) in
         match apod_file_name with
         | None => print ("Haven't fetched " ++ date ++ " yet...")
         | Some _ => cfail (Core AttributeError)
         end)%cmd c w
    end.

(** [asdict] of a configuration *)
Definition config_asdict (self : ManagerConfiguration.t) : json :=
  JObj [("api_key", JStr (ManagerConfiguration.api_key self));
        ("apods_path", JStr (ManagerConfiguration.apods_path self));
        ("apods_media_path", JStr (ManagerConfiguration.apods_media_path self))].

(** [ManagerConfiguration('')] *)
Definition blank_configuration : ManagerConfiguration.t :=
  ManagerConfiguration.mk "" default_apods_dir default_apods_media_dir.

Definition mkcfg : Cmd unit :=
  let (dir, name) := default_manager_configuration_path in
  let path := path_text dir name in
  let create : Cmd unit :=
    (let! parent_exists := run (path_exists dir) in
     (if negb parent_exists then run (mkdir dir) else cret tt);;
     run (write_file dir name (json_dumps (config_asdict blank_configuration)));;
     print ("Configuration created in " ++ path))%cmd in
  (let! there := run (is_file dir name) in
   if there
   then
     let! answer := input ("Configuration " ++ path
                           ++ " already exists, overwrite? (Y/n)") in
     if negb (String.eqb answer "Y") then cret tt else create
   else create)%cmd.

(** [set_bg.py]: only the host named [nt] has a setter. *)
Definition set_bg_nt (image : string) : Cmd unit :=
  fun c w =>
    (Done tt, mkConsole (argv c) (stdout c) (stdin c) (image :: desktop c), w).

Definition set_bg (image : string) : Cmd unit :=
  if negb (String.eqb os_name "nt")
  then cfail (SystemError os_name)
  else set_bg_nt image.

Definition main : Cmd unit :=
  (argv_pop0;;
   fun c w =>
     match argv c with
     | [] => print "Must specify a command" c w
     | _ :: _ =>
         (let! command := argv_pop0 in
          if String.eqb command "mkcfg" then mkcfg
          else
            let (dir, name) := default_manager_configuration_path in
            let! there := run (is_file dir name) in
            if negb there
            then print (path_text dir name ++ " not found")
            else
              let! config := run (ManagerConfiguration.load_from dir name) in
              if String.eqb command "fetch" then fetch config
              else if String.eqb command "list" then list_apods config
              else if String.eqb command "download" then download_media config
              else if String.eqb command "set-bg" then set_background config
              else
                (print "Must specify a valid command:";;
                 print "mkcfg";;
                 print "fetch";;
                 print "list";;
                 print "download";;
                 print "set-bg"))%cmd c w
     end)%cmd.

End Main.

(** ** A shell to run the commands in *)

Module SampleShell.
Import Sample.

(** Decimal digits only, which is all the examples need of [int]. *)
Fixpoint digits (s : string) (value : Z) : option Z :=
  match s with
  | EmptyString => Some value
  | String c t =>
      if is_digit c
      then digits t (10 * value + Z.of_nat (nat_of_ascii c) - 48)%Z
      else None
  end.

Definition read_int (s : string) : option Z :=
  match s with
  | EmptyString => None
  | _ => digits s 0%Z
  end.

#[export] Instance shell : Shell := {|
  int_of_str := read_int;
  path_text := fun dir name => dir ++ "/" ++ name
|}.

(** A process started with these arguments. *)
Definition started (args : list string) : console := mkConsole args [] [] [].

(** A records directory that holds the record of 2024-01-01. *)
Definition shelf : gmap string file :=
  {["2024-01-01.json" := Document (APOD.asdict (of_the_day "2024-01-01"))]}.

(** The record of 2024-01-01 is cached. *)
Definition cached : world :=
  mkWorld (<["/home/u/apods" :=
              {["2024-01-01.json" := Document (APOD.asdict (of_the_day "2024-01-01"))]}]>
           (<["/home/u/apods/images" := ∅]> ∅)) [].

(** The configuration file holds [config]; the record of 2024-01-01 is
    cached. *)
Definition configured : world :=
  mkWorld (<["/home/u/apods" :=
              <["apodmgr.cfg.json" := Document (config_asdict config)]>
                {["2024-01-01.json" := Document (APOD.asdict (of_the_day "2024-01-01"))]}]>
           (<["/home/u/apods/images" := ∅]> ∅)) [].

(** The same picture under another title. *)
Definition retitled (date : string) : APOD.t :=
  APOD.mk date "Another Title" "What it shows"
          (Some "https://apod.nasa.gov/apod/image/pic.jpg") "image" None
          None None None None (Some "v1").

End SampleShell.

(** ** A host whose API answers with lists *)

Module SampleLists.

(** A request with a count, or with a start date, is answered with the
    records of two days; any other request as on the first host. *)
Definition answer (log : list request) (rq : request)
  : result (response Sample.file) :=
  match Sample.param_get "start_date" (req_params rq),
        Sample.param_get "count" (req_params rq) with
  | None, None => Sample.answer log rq
  | _, _ =>
      Ok (mkResponse 200
            (Sample.Document
               (JArr [Sample.picture "2024-02-01"; Sample.picture "2024-02-02"])))
  end.

Definition host : Host := {|
  blob := Sample.file;
  json_dumps := Sample.Document;
  json_loads := Sample.parse;
  datetime := string;
  now := "2024-03-05";
  strftime := fun d => d;
  http_get := answer;
  valid_name := Sample.posix_name;
  home := "/home/u";
  os_name := "posix";
  sep := "/";
  parent := Sample.posix_parent
|}.

(** Both directories exist and are empty; nothing was requested yet. *)
Definition fresh : @world host :=
  @mkWorld host (<["/home/u/apods" := ∅]> (<["/home/u/apods/images" := ∅]> ∅)) [].

(** A server that refuses every request. *)
Definition refuse (log : list request) (rq : request)
  : result (response Sample.file) :=
  Ok (mkResponse 503 (Sample.Bytes "Service Unavailable")).

Definition down : Host := {|
  blob := Sample.file;
  json_dumps := Sample.Document;
  json_loads := Sample.parse;
  datetime := string;
  now := "2024-03-05";
  strftime := fun d => d;
  http_get := refuse;
  valid_name := Sample.posix_name;
  home := "/home/u";
  os_name := "posix";
  sep := "/";
  parent := Sample.posix_parent
|}.

Definition cut_off : @world down :=
  @mkWorld down (<["/home/u/apods" := ∅]> (<["/home/u/apods/images" := ∅]> ∅)) [].

(** A server that sends the record of 2024-01-01 under the status 600,
    which is outside the classes of HTTP. *)
Definition unclassed (log : list request) (rq : request)
  : result (response Sample.file) :=
  Ok (mkResponse 600 (Sample.Document (Sample.picture "2024-01-01"))).

Definition odd : Host := {|
  blob := Sample.file;
  json_dumps := Sample.Document;
  json_loads := Sample.parse;
  datetime := string;
  now := "2024-03-05";
  strftime := fun d => d;
  http_get := unclassed;
  valid_name := Sample.posix_name;
  home := "/home/u";
  os_name := "posix";
  sep := "/";
  parent := Sample.posix_parent
|}.

Definition at_odds : @world odd :=
  @mkWorld odd (<["/home/u/apods" := ∅]> (<["/home/u/apods/images" := ∅]> ∅)) [].

End SampleLists.

(** ** Vocabulary of the statements *)

(** The three invariants of a record. *)
Definition invariant (r : APOD.t) : Prop :=
  re_match APOD.APOD_DATE_FORMAT_RE (APOD.date r) = true
  /\ APOD.title r <> ""
  /\ (is_Some (APOD.url r) \/ is_Some (APOD.hdurl r)).

(** The text begins with four digits, a dash, two digits, a dash and two
    digits; what comes after them is free. *)
Definition starts_with_date (s : string) : bool :=
  match s with
  | String y1 (String y2 (String y3 (String y4 (String h1
      (String m1 (String m2 (String h2 (String d1 (String d2 _))))))))) =>
      is_digit y1 && is_digit y2 && is_digit y3 && is_digit y4
      && Ascii.eqb "-" h1 && is_digit m1 && is_digit m2
      && Ascii.eqb "-" h2 && is_digit d1 && is_digit d2
  | _ => false
  end.

(** The canonical form of a date in the words of the specification,
    [YYYY-MM-DD]: four digits, a dash, two digits, a dash, two digits, and
    nothing more. *)
Definition canonical_date (s : string) : bool :=
  starts_with_date s && (String.length s =? 10)%nat.

(** A message names a field when the field's name occurs in it. *)
Definition names (msg field : string) : bool := Py.contains field msg.

(** What [_validate_data] found wrong, by field. *)
Definition violated (field : string) (r : APOD.t) : Prop :=
  (field = "date" /\ re_match APOD.APOD_DATE_FORMAT_RE (APOD.date r) = false)
  \/ (field = "title" /\ APOD.title r = "")
  \/ (field = "url" /\ APOD.url r = None /\ APOD.hdurl r = None).

(** The last record of a list that is written to the file [name]. *)
Fixpoint latest (name : string) (apods : list APOD.t) : option APOD.t :=
  match apods with
  | [] => None
  | r :: rest =>
      match latest name rest with
      | Some r' => Some r'
      | None => if String.eqb (APOD.date r ++ ".json") name then Some r else None
      end
  end.

(** What the file [n] of the records directory holds, if it is there. *)
Abbreviation record_file self w n :=
  (fs w !! ManagerConfiguration.apods_path self ≫= (.!! n)).

(** What the file [n] of the media directory holds, if it is there. *)
Abbreviation media_file self w n :=
  (fs w !! ManagerConfiguration.apods_media_path self ≫= (.!! n)).

(** The directory is there, or its parent is and [mkdir] can make it. *)
Definition at_hand `{Host} (w : world) (path : string) : Prop :=
  is_Some (fs w !! path) \/ is_Some (fs w !! parent path).

(** The console with another list of arguments. *)
Definition set_argv (c : console) (args : list string) : console :=
  mkConsole args (stdout c) (stdin c) (desktop c).

(** The console after these lines were printed. *)
Definition printed (c : console) (lines : list string) : console :=
  mkConsole (argv c) (stdout c ++ map (fun line => line ++ nl) lines)
            (stdin c) (desktop c).

(** * Properties *)

(** ** Results and strings *)

Lemma rbind_ok {A B} (x : result A) (f : A -> result B) (b : B) :
  rbind x f = Ok b -> exists a, x = Ok a /\ f a = Ok b.
Proof. destruct x as [a|e]; simpl; intros E; [eauto | discriminate]. Qed.

Lemma map_result_ok {A B} (f : A -> result B) (l : list A) (bs : list B) :
  map_result f l = Ok bs -> Forall (fun b => exists a, f a = Ok b) bs.
Proof.
  revert bs. induction l as [|a l IH]; simpl; intros bs E.
  - injection E as <-. constructor.
  - apply rbind_ok in E as (b & Eb & E).
    apply rbind_ok in E as (bs' & Ebs & E).
    injection E as <-. constructor; eauto.
Qed.

Lemma append_dot (pre suf : string) :
  pre ++ "." ++ suf = pre ++ String "." suf.
Proof. reflexivity. Qed.

Lemma rindex_absent (c : ascii) (s : string) :
  Py.rindex c s = None <-> ~ In c (list_ascii_of_string s).
Proof.
  induction s as [|a s IH]; simpl.
  - tauto.
  - destruct (Py.rindex c s) as [i|].
    + split; [discriminate|]. intros N.
      assert (E : Some i = None) by (apply IH; tauto). discriminate.
    + destruct (Ascii.eqb_spec a c) as [->|Ne].
      * split; [discriminate|]. intros N. exfalso. apply N. now left.
      * split; [|reflexivity]. intros _ [E|I]; [congruence|].
        now apply IH in I.
Qed.

Lemma rindex_last (c : ascii) (pre suf : string) :
  ~ In c (list_ascii_of_string suf) ->
  Py.rindex c (pre ++ String c suf) = Some (String.length pre).
Proof.
  intros N. induction pre as [|a pre IH]; simpl.
  - apply rindex_absent in N. rewrite N. now rewrite Ascii.eqb_refl.
  - now rewrite IH.
Qed.

Lemma slice_from_after (c : ascii) (pre suf : string) :
  Py.slice_from (String.length pre + 1) (pre ++ String c suf) = suf.
Proof.
  induction pre as [|a pre IH]; simpl.
  - now destruct suf.
  - exact IH.
Qed.

(** ** The date pattern *)

Ltac split_tests :=
  repeat (match goal with
          | |- context [if ?b then _ else _] =>
              lazymatch type of b with bool => destruct b; cbn end
          end).

Local Opaque Ascii.eqb is_digit.

(** What [re.match] of the date pattern accepts: a text that begins with a
    date, whatever follows. *)
Lemma date_pattern_prefix (s : string) :
  re_match APOD.APOD_DATE_FORMAT_RE s = starts_with_date s.
Proof.
  unfold re_match.
  do 10 (destruct s as [|? s]; cbn; [split_tests; reflexivity|]).
  split_tests; reflexivity.
Qed.

Local Transparent Ascii.eqb is_digit.

Example date_pattern_exact : re_match APOD.APOD_DATE_FORMAT_RE "2024-01-01" = true.
Proof. reflexivity. Qed.

Example date_pattern_short : re_match APOD.APOD_DATE_FORMAT_RE "2024-1-1" = false.
Proof. reflexivity. Qed.

Example date_pattern_trailing :
  re_match APOD.APOD_DATE_FORMAT_RE "2024-01-01T12:00" = true.
Proof. reflexivity. Qed.

Example media_pattern_names :
  map (re_match ManagerConfiguration.media_file_name_pattern)
      ["2024-01-01.jpg"; "2024-01-01.png"; "2024-01-01.mp4"; "2024-01-01.json";
       "2024-01-01.gif"; "notes.jpg"]
  = [true; true; true; false; false; false].
Proof. reflexivity. Qed.

(** ** The record *)

Section RecordFacts.
Import APOD.

Lemma validate_ok (r : APOD.t) : _validate_data r = Ok tt <-> invariant r.
Proof.
  unfold _validate_data, invariant.
  destruct (re_match APOD_DATE_FORMAT_RE (date r)); simpl;
    [|split; [discriminate | intros [? _]; discriminate]].
  destruct (String.eqb_spec (title r) "") as [->|Ne]; simpl;
    [split; [discriminate | intros (_ & N & _); congruence]|].
  destruct (url r), (hdurl r); simpl; split; try discriminate; try reflexivity;
    intros; repeat split; eauto.
  destruct H as (_ & _ & [[? ?]|[? ?]]); discriminate.
Qed.

Lemma post_init_ok (self r : APOD.t) :
  __post_init__ self = Ok r -> r = self /\ invariant r.
Proof.
  unfold __post_init__. intros E. apply rbind_ok in E as ([] & V & E).
  injection E as <-. split; [reflexivity | now apply validate_ok].
Qed.

Lemma of_kwargs_ok (data : json) (r : APOD.t) :
  of_kwargs data = Ok r -> invariant r.
Proof.
  unfold of_kwargs. intros E.
  do 12 (apply rbind_ok in E as (? & _ & E)).
  now apply post_init_ok in E.
Qed.

Lemma validate_raises (r : APOD.t) (e : exn) :
  _validate_data r = Raise e ->
  exists msg field,
    e = ValueError msg /\ names msg field = true /\ violated field r.
Proof.
  unfold _validate_data, violated.
  destruct (re_match APOD_DATE_FORMAT_RE (date r)) eqn:D; simpl.
  - destruct (String.eqb_spec (title r) "") as [T|T]; simpl.
    + intros [= <-]. exists "APOD must have title", "title". tauto.
    + destruct (url r) eqn:U, (hdurl r) eqn:Hd; simpl; try discriminate.
      intros [= <-].
      exists "APOD must have at least url or hdurl", "url". tauto.
  - intros [= <-]. exists (format_message "date"), "date". tauto.
Qed.

Lemma validate_total (r : APOD.t) :
  _validate_data r = Ok tt \/ exists msg, _validate_data r = Raise (ValueError msg).
Proof.
  destruct (_validate_data r) as [[]|e] eqn:V; [now left | right].
  destruct (validate_raises _ _ V) as (msg & _ & -> & _). eauto.
Qed.

End RecordFacts.

(** ** Computations in a world *)

Section WorldFacts.
Context `{Host}.

Lemma bind_ok {A B} (c : M A) (k : A -> M B) (w w' : world) (b : B) :
  bind c k w = (Ok b, w') ->
  exists a w1, c w = (Ok a, w1) /\ k a w1 = (Ok b, w').
Proof.
  unfold bind. destruct (c w) as [[a|e] w1]; intros E; [eauto | discriminate].
Qed.

Lemma lift_ok {A} (r : result A) (w w' : world) (a : A) :
  lift r w = (Ok a, w') -> r = Ok a /\ w' = w.
Proof. unfold lift. now intros [= -> ->]. Qed.

(** A name is listed exactly when the directory has it. *)
Lemma listed (d : gmap string blob) (name : string) :
  existsb (String.eqb name) (map fst (map_to_list d))
  = bool_decide (is_Some (d !! name)).
Proof.
  apply eq_true_iff_eq. rewrite existsb_exists, bool_decide_eq_true. split.
  - intros (x & I & E). apply String.eqb_eq in E as <-.
    apply in_map_iff in I as ((k & c) & <- & I).
    apply list_elem_of_In, elem_of_map_to_list in I. eauto.
  - intros (c & L). exists name. split; [|apply String.eqb_refl].
    apply in_map_iff. exists (name, c). split; [reflexivity|].
    now apply list_elem_of_In, elem_of_map_to_list.
Qed.

Lemma found (d : gmap string blob) (name : string) :
  find (String.eqb name) (map fst (map_to_list d))
  = if bool_decide (is_Some (d !! name)) then Some name else None.
Proof.
  rewrite <- listed.
  induction (map fst (map_to_list d)) as [|x l IH]; simpl; [reflexivity|].
  destruct (String.eqb_spec name x) as [->|Ne]; simpl; [reflexivity | exact IH].
Qed.

End WorldFacts.

(** ** Claims about the record *)

Section RecordClaims.
Import APOD.

(** C3, as the code has it. For every record that satisfies the validation
    invariant: [best_url] is [hdurl] when [hdurl] is present and not the
    empty string; it is [url], and not null, when [hdurl] is absent; and it
    is [url] when [hdurl] is the empty string and [url] is present. *)
Theorem best_url_spec (r : APOD.t) :
  invariant r ->
  (forall h, hdurl r = Some h -> h <> "" -> best_url r = Some h)
  /\ (hdurl r = None -> best_url r = url r /\ is_Some (best_url r))
  /\ (forall u, hdurl r = Some "" -> url r = Some u -> best_url r = Some u).
Proof.
  intros (_ & _ & P). unfold best_url, Py.or_, Py.truthy.
  split; [|split].
  - intros h -> Ne. now destruct (String.eqb_spec h "").
  - intros E. rewrite E in *. split; [reflexivity|].
    destruct P as [P|[? ?]]; [exact P | discriminate].
  - now intros u -> ->.
Qed.

(** C5, as the code has it. Whenever [media_extension] returns, the
    result has at most 4 characters; when [best_url] is [pre.suf] with no
    dot in [suf], it returns [suf], or ["jpg"] when [suf] is longer than 4
    characters; when [best_url] has no dot at all it raises a ValueError,
    and when [best_url] is null an AttributeError. *)
Theorem media_extension_spec (r : APOD.t) :
  (forall ext, media_extension r = Ok ext -> (String.length ext <= 4)%nat)
  /\ (forall pre suf,
        best_url r = Some (pre ++ "." ++ suf) ->
        ~ In "."%char (list_ascii_of_string suf) ->
        media_extension r
        = Ok (if (4 <? String.length suf)%nat then "jpg" else suf))
  /\ (forall u,
        best_url r = Some u ->
        ~ In "."%char (list_ascii_of_string u) ->
        exists msg, media_extension r = Raise (ValueError msg))
  /\ (best_url r = None -> media_extension r = Raise AttributeError).
Proof.
  unfold media_extension. split; [|split; [|split]].
  - intros ext. destruct (best_url r) as [u|]; [|discriminate].
    destruct (Py.rindex "." u) as [i|]; [|discriminate].
    intros [= <-].
    destruct (Nat.ltb_spec 4 (String.length (Py.slice_from (i + 1) u)));
      [simpl|]; lia.
  - intros pre suf -> N. rewrite append_dot.
    now rewrite (rindex_last _ _ _ N), slice_from_after.
  - intros u -> N. apply rindex_absent in N. rewrite N. eauto.
  - now intros ->.
Qed.

End RecordClaims.

(** ** Claims about construction and the remote client *)

Section RemoteClaims.
Context `{Host}.
Import APOD.

Lemma loads_ok (text : blob) (r : APOD.t) : loads text = Ok r -> invariant r.
Proof.
  unfold loads. destruct (json_loads text); [apply of_kwargs_ok | discriminate].
Qed.

Lemma answered_ok {A} (f : json -> result A) (rq : request) (w w' : world) (a : A) :
  bind (requests_get rq)
       (fun response =>
          if negb (ok response)
          then raise (HTTPError (status_code response))
          else lift (rbind (response_json response) f)) w = (Ok a, w') ->
  exists v, f v = Ok a.
Proof.
  intros E. apply bind_ok in E as (response & w1 & _ & E).
  destruct (negb (ok response)); [discriminate|].
  apply lift_ok in E as [E _]. apply rbind_ok in E as (v & _ & E). eauto.
Qed.

Lemma records_ok (v : json) (rs : list APOD.t) :
  rbind (json_iter v) (map_result of_kwargs) = Ok rs -> Forall invariant rs.
Proof.
  intros E. apply rbind_ok in E as (l & _ & E). apply map_result_ok in E.
  eapply Forall_impl; [exact E|]. intros r (a & Ea). now apply of_kwargs_ok in Ea.
Qed.

Lemma remote_single_valid (api_key : string) (d : option date_arg)
      (w w' : world) (r : APOD.t) :
  fetch_single api_key d w = (Ok r, w') -> invariant r.
Proof.
  unfold fetch_single. destruct (negb (re_match _ _)); [discriminate|].
  intros E. apply answered_ok in E as (v & E). now apply of_kwargs_ok in E.
Qed.

(** C8, as the code has it. Validation fails, with a ValueError, exactly
    when the date does not begin like a date, or the title is empty, or url
    and hdurl are both absent; the message names the violated field; and
    every record that a construction returns (the constructor itself, the
    keyword call, loading a file, each remote fetch) satisfies the three
    invariants in that form. Matching is that of [re.match]: the pattern is
    looked for at the start of the date, so a date matches exactly when it
    begins with four digits, a dash, two digits, a dash and two digits,
    whatever follows them. The records are those whose fields hold text,
    or null where the field is optional or is [url]. *)
Theorem validation_exact :
  (forall r : APOD.t,
      (exists msg, _validate_data r = Raise (ValueError msg))
      <-> (re_match APOD_DATE_FORMAT_RE (date r) = false
           \/ title r = ""
           \/ (url r = None /\ hdurl r = None)))
  /\ (forall (r : APOD.t) e,
        _validate_data r = Raise e ->
        exists msg field,
          e = ValueError msg /\ names msg field = true /\ violated field r)
  /\ (forall s, re_match APOD_DATE_FORMAT_RE s = starts_with_date s)
  /\ (forall r : APOD.t, _validate_data r = Ok tt <-> invariant r)
  /\ (forall self r : APOD.t, __post_init__ self = Ok r -> r = self /\ invariant r)
  /\ (forall data r, of_kwargs data = Ok r -> invariant r)
  /\ (forall dir name w r w', load_from dir name w = (Ok r, w') -> invariant r)
  /\ (forall api_key d w r w',
        fetch_single api_key d w = (Ok r, w') -> invariant r)
  /\ (forall api_key count w rs w',
        fetch_random api_key count w = (Ok rs, w') -> Forall invariant rs)
  /\ (forall api_key d1 d2 w rs w',
        fetch_range api_key d1 d2 w = (Ok rs, w') -> Forall invariant rs).
Proof.
  repeat apply conj.
  - intros r. split.
    + intros (msg & E). destruct (validate_raises _ _ E) as (_ & f & _ & _ & V).
      unfold violated in V. tauto.
    + intros V. destruct (validate_total r) as [E|E]; [|exact E].
      apply validate_ok in E as (D & T & U). exfalso.
      destruct V as [V|[V|[V1 V2]]]; [congruence | congruence |].
      rewrite V1, V2 in U. destruct U as [[? ?]|[? ?]]; discriminate.
  - exact validate_raises.
  - exact date_pattern_prefix.
  - exact validate_ok.
  - exact post_init_ok.
  - exact of_kwargs_ok.
  - intros dir name w r w' E. unfold load_from in E.
    apply bind_ok in E as (text & w1 & _ & E).
    apply lift_ok in E as [E _]. now apply loads_ok in E.
  - intros api_key d w r w'. apply remote_single_valid.
  - intros api_key count w rs w'. unfold fetch_random.
    destruct (negb _); [discriminate|].
    intros E. apply answered_ok in E as (v & E). now apply records_ok in E.
  - intros api_key d1 d2 w rs w'. unfold fetch_range.
    destruct (negb (re_match _ (date_text d1))); [discriminate|].
    destruct (negb (re_match _ (date_text d2))); [discriminate|].
    intros E. apply answered_ok in E as (v & E). now apply records_ok in E.
Qed.

(** C7. [fetch_random] raises a ValueError and leaves the world as it
    was (no request is made) whenever [count] is below 1 or above 100; for
    every [count] from 1 to 100 it makes exactly one request, the one that
    carries the key and the count, and touches no file. *)
Theorem fetch_random_bounds (api_key : string) (count : Z) (w : world) :
  ((count < 1 \/ 100 < count)%Z ->
     exists msg, fetch_random api_key count w = (Raise (ValueError msg), w))
  /\ ((1 <= count <= 100)%Z ->
        net (snd (fetch_random api_key count w))
        = random_request api_key count :: net w
        /\ fs (snd (fetch_random api_key count w)) = fs w).
Proof.
  unfold fetch_random. split.
  - intros B.
    replace ((1 <=? count)%Z && (count <=? 100)%Z) with false
      by (symmetry; apply andb_false_iff; lia).
    simpl. eauto.
  - intros B.
    replace ((1 <=? count)%Z && (count <=? 100)%Z) with true
      by (symmetry; apply andb_true_iff; lia).
    simpl. unfold bind, requests_get.
    destruct (http_get (net w) (random_request api_key count)) as [rsp|e];
      [|now simpl].
    destruct (negb (ok rsp)); now simpl.
Qed.

End RemoteClaims.

(** ** Claims about the archive *)

Section ArchiveClaims.
Context `{Host}.
Import ManagerConfiguration.

Lemma asdict_of_kwargs (r : APOD.t) :
  APOD.of_kwargs (APOD.asdict r) = APOD.__post_init__ r.
Proof.
  destruct r as [date title explanation url media_type hdurl concepts
                   thumbnail_url copyright resources service_version].
  destruct url, hdurl, concepts, thumbnail_url, copyright, resources,
    service_version; reflexivity.
Qed.

Lemma post_init_valid (r : APOD.t) : invariant r -> APOD.__post_init__ r = Ok r.
Proof.
  intros V. apply validate_ok in V. unfold APOD.__post_init__. now rewrite V.
Qed.

Lemma store_apod_inv (self : t) (r r' : APOD.t) (w w' : world) :
  store_apod self r w = (Ok r', w') ->
  r' = r
  /\ exists dir,
      fs w !! apods_path self = Some dir
      /\ valid_name (APOD.date r ++ ".json") = true
      /\ w' = mkWorld (<[apods_path self :=
                         <[APOD.date r ++ ".json" := json_dumps (APOD.asdict r)]> dir]>
                         (fs w))
                      (net w).
Proof.
  unfold store_apod, bind, write_file, ret.
  destruct (fs w !! apods_path self) as [dir|]; [|discriminate].
  destruct (valid_name (APOD.date r ++ ".json")); [|discriminate].
  intros [= <- <-]. eauto.
Qed.

Lemma store_apod_succeeds (self : t) (r : APOD.t) (w : world) dir :
  fs w !! apods_path self = Some dir ->
  valid_name (APOD.date r ++ ".json") = true ->
  store_apod self r w
  = (Ok r, mkWorld (<[apods_path self :=
                       <[APOD.date r ++ ".json" := json_dumps (APOD.asdict r)]> dir]>
                       (fs w))
                   (net w)).
Proof.
  intros D V. unfold store_apod, bind, write_file, ret. now rewrite D, V.
Qed.

Lemma read_file_some (p n : string) (w : world) (dir : gmap string blob)
      (c : blob) :
  fs w !! p = Some dir -> dir !! n = Some c -> read_file p n w = (Ok c, w).
Proof. intros P F. unfold read_file. rewrite P. simpl. now rewrite F. Qed.

Lemma read_written (p n : string) (c : blob) (dir : gmap string blob)
      (files : gmap string (gmap string blob)) (log : list request) :
  read_file p n (mkWorld (<[p := <[n := c]> dir]> files) log)
  = (Ok c, mkWorld (<[p := <[n := c]> dir]> files) log).
Proof.
  unfold read_file. simpl. rewrite lookup_insert_eq. simpl.
  now rewrite lookup_insert_eq.
Qed.

(** C6. With a JSON codec that reads back what it wrote: for every
    record [r] that satisfies the invariants, when the records directory
    exists and the host takes [{r.date}.json] as a file name, [store_apod]
    writes that file and returns [r], and loading the file gives a record
    with all fields of [r], equal to [r] under [__eq__]. *)
Theorem store_load_round_trip (self : t) (r : APOD.t) (w : world)
        (dir : gmap string blob) :
  codec_round_trip ->
  invariant r ->
  fs w !! apods_path self = Some dir ->
  valid_name (APOD.date r ++ ".json") = true ->
  exists w',
    store_apod self r w = (Ok r, w')
    /\ fs w' !! apods_path self ≫= (.!! (APOD.date r ++ ".json"))
       = Some (json_dumps (APOD.asdict r))
    /\ exists loaded,
        APOD.load_from (apods_path self) (APOD.date r ++ ".json") w' = (Ok loaded, w')
        /\ loaded = r
        /\ APOD.__eq__ loaded r = true.
Proof.
  intros C V P N. eexists. split; [exact (store_apod_succeeds _ _ _ _ P N)|].
  split.
  - cbn [fs]. rewrite lookup_insert_eq. simpl. apply lookup_insert_eq.
  - exists r. split; [|split; [reflexivity|]].
    + unfold APOD.load_from, bind. rewrite read_written.
      unfold lift, APOD.loads. rewrite C, asdict_of_kwargs.
      now rewrite post_init_valid.
    + apply String.eqb_refl.
Qed.

(** [stored_media] reads the records directory only. *)
Lemma stored_media_reads (self : t) (w : world) :
  stored_media self w
  = match fs w !! apods_path self with
    | Some d =>
        (Ok (filter (fun file => re_match media_file_name_pattern file)
                    (map fst (map_to_list d))), w)
    | None => (Raise FileNotFoundError, w)
    end.
Proof.
  unfold stored_media, bind, listdir, ret.
  now destruct (fs w !! apods_path self).
Qed.

Lemma find_unknown (d : dict) (k : string) :
  In k (map fst d) -> ~ In k fields ->
  exists k' v,
    find (fun kv => negb (mem (fst kv) fields)) d = Some (k', v)
    /\ In k' (map fst d) /\ ~ In k' fields.
Proof.
  intros I N.
  destruct (find (fun kv => negb (mem (fst kv) fields)) d) as [[k' v]|] eqn:F.
  - apply find_some in F as [I' U]. exists k', v. split; [reflexivity|]. split.
    + apply in_map_iff. now exists (k', v).
    + intros I''. apply negb_true_iff in U. cbn [fst] in U.
      assert (T : mem k' fields = true)
        by (apply existsb_exists; exists k'; split;
            [exact I'' | apply String.eqb_refl]).
      congruence.
  - exfalso. apply in_map_iff in I as ((k0 & v) & E & I). simpl in E. subst k0.
    apply (find_none _ _ F) in I. apply negb_false_iff in I. cbn [fst] in I.
    apply existsb_exists in I as (x & Ix & Ex).
    apply String.eqb_eq in Ex as <-. now apply N.
Qed.

(** C10. When the configuration file exists and its body is a JSON
    object that has the key [api_key] and also a key that is none of
    [api_key], [apods_path], [apods_media_path], [load_from] raises the
    TypeError of an unexpected keyword argument, for such a key, and
    changes nothing. (For the key [self] the TypeError is that of a second
    value for the first parameter.) *)
Theorem load_from_unknown_key (dir name : string) (w : world) (text : blob)
        (d : dict) (k : string) :
  fs w !! dir ≫= (.!! name) = Some text ->
  json_loads text = Some (JObj d) ->
  dict_has "api_key" d = true ->
  In k (map fst d) ->
  ~ In k fields ->
  exists k',
    In k' (map fst d) /\ ~ In k' fields
    /\ load_from dir name w = (Raise (TypeError (refused_keyword k')), w).
Proof.
  intros F J A I N.
  destruct (find_unknown d k I N) as (k' & v & U & I' & N').
  exists k'. split; [exact I'|]. split; [exact N'|].
  unfold load_from, bind, is_file, read_file. rewrite F.
  rewrite bool_decide_eq_true_2 by eauto. simpl. rewrite F, J.
  unfold lift, py_in. rewrite A. simpl.
  unfold of_kwargs, bind_kwargs. now rewrite U.
Qed.

Lemma stored_apod_file_listed (self : t) (d : date_arg) (w : world)
      (dir : gmap string blob) :
  re_match APOD.APOD_DATE_FORMAT_RE (APOD.date_text (Some d)) = true ->
  fs w !! apods_path self = Some dir ->
  stored_apod_file self d w
  = (Ok (if bool_decide (is_Some (dir !! (APOD.date_text (Some d) ++ ".json")))
         then Some (APOD.date_text (Some d) ++ ".json") else None), w).
Proof.
  intros D P. unfold stored_apod_file. rewrite D. simpl.
  unfold bind, listdir, ret. rewrite P. now rewrite found.
Qed.

Lemma remote_single_inv (key : string) (date : option date_arg)
      (w w1 : world) (r : APOD.t) :
  APOD.fetch_single key date w = (Ok r, w1) ->
  re_match APOD.APOD_DATE_FORMAT_RE (APOD.date_text date) = true
  /\ invariant r
  /\ w1 = mkWorld (fs w) (APOD.single_request key (APOD.date_text date) :: net w).
Proof.
  intros E. split; [|split].
  - unfold APOD.fetch_single in E.
    now destruct (re_match APOD.APOD_DATE_FORMAT_RE (APOD.date_text date)).
  - eapply remote_single_valid, E.
  - unfold APOD.fetch_single in E.
    destruct (negb (re_match _ _)); [discriminate|].
    unfold bind, requests_get in E.
    destruct (http_get _ _) as [rsp|e]; [|discriminate].
    destruct (negb (ok rsp)); [discriminate|].
    unfold lift in E. now injection E as _ <-.
Qed.

(** A remote call happens as soon as the date has the right form. *)
Lemma remote_single_calls (key : string) (date : option date_arg) (w : world) :
  re_match APOD.APOD_DATE_FORMAT_RE (APOD.date_text date) = true ->
  net (snd (APOD.fetch_single key date w))
  = APOD.single_request key (APOD.date_text date) :: net w
  /\ fs (snd (APOD.fetch_single key date w)) = fs w.
Proof.
  intros D. unfold APOD.fetch_single. rewrite D. simpl.
  unfold bind, requests_get.
  destruct (http_get _ _) as [rsp|e]; [|now simpl].
  destruct (negb (ok rsp)); now simpl.
Qed.

Lemma store_keeps_log (self : t) (r : APOD.t) (w : world) :
  net (snd (store_apod self r w)) = net w.
Proof.
  unfold store_apod, bind, write_file, ret.
  destruct (fs w !! apods_path self); [|reflexivity].
  now destruct (valid_name _).
Qed.

(** C1. [fetch_single] of the archive is cache-first. For a date of the
    right form whose file [{date}.json] is in the records directory, it
    returns what deserialising that file gives and leaves the world as it
    was (no request, no write). When the directory has no such file, and on
    every call without a date, it is the remote [fetch_single] followed by
    [store_apod]: on success exactly one request was made and the returned
    record is in the file [{record.date}.json]. Hence, with a codec that
    reads back what it wrote and a remote that answers with the record of
    the requested date, a second call for a date that was not cached
    returns the same record without a request; and a call without a date
    makes a request whatever the directory holds, the text of now having
    the form of a date. *)
Theorem fetch_single_cache_first (self : t) (w : world) :
  (forall d dir text,
      re_match APOD.APOD_DATE_FORMAT_RE (APOD.date_text (Some d)) = true ->
      fs w !! apods_path self = Some dir ->
      dir !! (APOD.date_text (Some d) ++ ".json") = Some text ->
      fetch_single self (Some d) w = (APOD.loads text, w))
  /\ (forall d dir,
        fs w !! apods_path self = Some dir ->
        dir !! (APOD.date_text (Some d) ++ ".json") = None ->
        fetch_single self (Some d) w
        = bind (APOD.fetch_single (api_key self) (Some d)) (store_apod self) w)
  /\ fetch_single self None w
     = bind (APOD.fetch_single (api_key self) None) (store_apod self) w
  /\ (forall date r w',
        bind (APOD.fetch_single (api_key self) date) (store_apod self) w
        = (Ok r, w') ->
        net w' = APOD.single_request (api_key self) (APOD.date_text date) :: net w
        /\ exists dir,
            fs w !! apods_path self = Some dir
            /\ fs w' = <[apods_path self :=
                          <[APOD.date r ++ ".json" := json_dumps (APOD.asdict r)]> dir]>
                         (fs w))
  /\ (codec_round_trip ->
      forall d dir r w1,
        fs w !! apods_path self = Some dir ->
        dir !! (APOD.date_text (Some d) ++ ".json") = None ->
        fetch_single self (Some d) w = (Ok r, w1) ->
        APOD.date r = APOD.date_text (Some d) ->
        net w1 = APOD.single_request (api_key self) (APOD.date_text (Some d)) :: net w
        /\ fetch_single self (Some d) w1 = (Ok r, w1))
  /\ (re_match APOD.APOD_DATE_FORMAT_RE (strftime now) = true ->
      net (snd (fetch_single self None w))
      = APOD.single_request (api_key self) (strftime now) :: net w).
Proof.
  assert (Hit : forall w d dir text,
      re_match APOD.APOD_DATE_FORMAT_RE (APOD.date_text (Some d)) = true ->
      fs w !! apods_path self = Some dir ->
      dir !! (APOD.date_text (Some d) ++ ".json") = Some text ->
      fetch_single self (Some d) w = (APOD.loads text, w)).
  { intros w0 d dir text D P F. unfold fetch_single, bind at 1.
    rewrite (stored_apod_file_listed _ _ _ _ D P).
    rewrite bool_decide_eq_true_2 by eauto.
    unfold bind. now rewrite (read_file_some _ _ _ _ _ P F). }
  assert (Miss : forall d dir,
      fs w !! apods_path self = Some dir ->
      dir !! (APOD.date_text (Some d) ++ ".json") = None ->
      fetch_single self (Some d) w
      = bind (APOD.fetch_single (api_key self) (Some d)) (store_apod self) w).
  { intros d dir P F. unfold fetch_single, bind at 1.
    destruct (re_match APOD.APOD_DATE_FORMAT_RE (APOD.date_text (Some d))) eqn:D.
    - rewrite (stored_apod_file_listed _ _ _ _ D P).
      rewrite bool_decide_eq_false_2 by (rewrite F; intros [? ?]; discriminate).
      reflexivity.
    - unfold stored_apod_file, APOD.fetch_single, bind. now rewrite D. }
  assert (Through : forall date r w',
      bind (APOD.fetch_single (api_key self) date) (store_apod self) w
      = (Ok r, w') ->
      invariant r
      /\ re_match APOD.APOD_DATE_FORMAT_RE (APOD.date_text date) = true
      /\ net w' = APOD.single_request (api_key self) (APOD.date_text date) :: net w
      /\ exists dir,
          fs w !! apods_path self = Some dir
          /\ w' = mkWorld
                    (<[apods_path self :=
                        <[APOD.date r ++ ".json" := json_dumps (APOD.asdict r)]> dir]>
                       (fs w))
                    (net w')).
  { intros date r w' E. apply bind_ok in E as (r0 & w1 & R & S).
    apply remote_single_inv in R as (D & V & ->).
    apply store_apod_inv in S as (-> & dir & P & _ & ->).
    cbn [fs net] in P |- *.
    split; [exact V|]. split; [exact D|]. split; [reflexivity|].
    exists dir. split; [exact P | reflexivity]. }
  split; [apply Hit|]. split; [exact Miss|]. split; [reflexivity|].
  split; [|split].
  - intros date r w' E. apply Through in E as (_ & _ & L & dir & P & ->).
    split; [exact L|]. eauto.
  - intros C d dir r w1 P F E Same. rewrite (Miss _ _ P F) in E.
    apply Through in E as (V & D & L & dir' & P' & E).
    split; [exact L|]. rewrite E at 1.
    rewrite (Hit _ d (<[APOD.date r ++ ".json" := json_dumps (APOD.asdict r)]> dir')
               (json_dumps (APOD.asdict r)) D).
    + unfold APOD.loads. rewrite C, asdict_of_kwargs, (post_init_valid _ V).
      now rewrite <- E.
    + simpl. apply lookup_insert_eq.
    + rewrite <- Same. apply lookup_insert_eq.
  - intros D. unfold fetch_single.
    pose proof (remote_single_calls (api_key self) None w D) as [L _].
    unfold bind.
    destruct (APOD.fetch_single (api_key self) None w) as [[r|e] w1];
      simpl in *; [|exact L].
    now rewrite store_keeps_log.
Qed.

(** [save_media_for] once the extension is known and the media directory
    is there, case by case. *)
Lemma save_media_for_cases (self : t) (apod : APOD.t) (w : world)
      (ext : string) (dir : gmap string blob) :
  APOD.media_extension apod = Ok ext ->
  fs w !! apods_media_path self = Some dir ->
  let file_name := APOD.date apod ++ "." ++ ext in
  save_media_for self apod w
  = if bool_decide (is_Some (dir !! file_name)) then (Ok tt, w)
    else if negb (APOD.is_image apod)
    then (Raise (TypeError (Message (APOD.__str__ apod ++ " is not a savable image"))), w)
    else
      match APOD.best_url apod with
      | None => (Raise (ValueError "Invalid URL"), w)
      | Some url =>
          let w1 := mkWorld (fs w) (media_request url :: net w) in
          match http_get (net w) (media_request url) with
          | Raise e => (Raise e, w1)
          | Ok response =>
              if negb (ok response)
              then (Raise (HTTPError (status_code response)), w1)
              else if valid_name file_name
              then (Ok tt,
                    mkWorld (<[apods_media_path self :=
                                <[file_name := content response]> dir]> (fs w))
                            (media_request url :: net w))
              else (Raise OSError, w1)
          end
      end.
Proof.
  intros X P file_name. unfold save_media_for, bind at 1, lift. rewrite X.
  unfold bind at 1, listdir. rewrite P. rewrite listed.
  fold file_name. destruct (bool_decide (is_Some (dir !! file_name))); [reflexivity|].
  destruct (negb (APOD.is_image apod)); [reflexivity|].
  destruct (APOD.best_url apod) as [url|]; [|reflexivity].
  unfold bind, requests_get. destruct (http_get _ _) as [rsp|e]; [|reflexivity].
  destruct (negb (ok rsp)); [reflexivity|].
  unfold write_file. cbn [fs net]. rewrite P. reflexivity.
Qed.

Lemma save_media_for_started (self : t) (apod : APOD.t) (w w1 : world) :
  save_media_for self apod w = (Ok tt, w1) ->
  exists ext dir,
    APOD.media_extension apod = Ok ext
    /\ fs w !! apods_media_path self = Some dir.
Proof.
  unfold save_media_for, bind at 1, lift.
  destruct (APOD.media_extension apod) as [ext|e]; [|discriminate].
  unfold bind at 1, listdir.
  destruct (fs w !! apods_media_path self) as [dir|]; [|discriminate]. eauto.
Qed.

Lemma save_media_for_raised (self : t) (apod : APOD.t) (w w1 : world) (e : exn) :
  save_media_for self apod w = (Raise e, w1) -> fs w1 = fs w.
Proof.
  destruct (APOD.media_extension apod) as [ext|e0] eqn:X.
  - destruct (fs w !! apods_media_path self) as [dir|] eqn:P.
    + rewrite (save_media_for_cases _ _ _ _ _ X P).
      destruct (bool_decide _); [discriminate|].
      destruct (negb (APOD.is_image apod)); [now intros [= _ <-]|].
      destruct (APOD.best_url apod) as [url|]; [|now intros [= _ <-]].
      destruct (http_get _ _) as [rsp|e1]; [|now intros [= _ <-]].
      destruct (negb (ok rsp)); [now intros [= _ <-]|].
      destruct (valid_name _); [discriminate | now intros [= _ <-]].
    + unfold save_media_for, bind at 1, lift. rewrite X.
      unfold bind, listdir. rewrite P. now intros [= _ <-].
  - unfold save_media_for, bind, lift. rewrite X. now intros [= _ <-].
Qed.

(** C9. When the media directory already holds the file
    [{date}.{extension}] of a record, [save_media_for] returns and leaves
    the world as it was: no request, no write. A call that returned
    normally made at most one request and left that file in the media
    directory, so that calling it again for the same record returns and
    changes nothing: two calls make at most one request. A call that
    raised wrote no file. *)
Theorem save_media_idempotent (self : t) (apod : APOD.t) (w : world) :
  (forall ext dir,
      APOD.media_extension apod = Ok ext ->
      fs w !! apods_media_path self = Some dir ->
      is_Some (dir !! (APOD.date apod ++ "." ++ ext)) ->
      save_media_for self apod w = (Ok tt, w))
  /\ (forall w1,
        save_media_for self apod w = (Ok tt, w1) ->
        save_media_for self apod w1 = (Ok tt, w1)
        /\ (length (net w1) <= length (net w) + 1)%nat
        /\ exists ext dir1,
            APOD.media_extension apod = Ok ext
            /\ fs w1 !! apods_media_path self = Some dir1
            /\ is_Some (dir1 !! (APOD.date apod ++ "." ++ ext)))
  /\ (forall e w1, save_media_for self apod w = (Raise e, w1) -> fs w1 = fs w).
Proof.
  assert (Held : forall w ext dir,
      APOD.media_extension apod = Ok ext ->
      fs w !! apods_media_path self = Some dir ->
      is_Some (dir !! (APOD.date apod ++ "." ++ ext)) ->
      save_media_for self apod w = (Ok tt, w)).
  { intros w0 ext dir X P F. rewrite (save_media_for_cases _ _ _ _ _ X P).
    now rewrite bool_decide_eq_true_2. }
  split; [apply Held|].
  split; [|intros e w1; apply save_media_for_raised].
  intros w1 E. destruct (save_media_for_started _ _ _ _ E) as (ext & dir & X & P).
  rewrite (save_media_for_cases _ _ _ _ _ X P) in E.
  destruct (bool_decide (is_Some (dir !! (APOD.date apod ++ "." ++ ext)))) eqn:F.
  - injection E as <-. apply bool_decide_eq_true in F.
    split; [now apply (Held w ext dir)|]. split; [lia|]. eauto.
  - destruct (negb (APOD.is_image apod)); [discriminate|].
    destruct (APOD.best_url apod) as [url|]; [|discriminate].
    destruct (http_get _ _) as [rsp|e]; [|discriminate].
    destruct (negb (ok rsp)); [discriminate|].
    destruct (valid_name _); [|discriminate].
    injection E as <-.
    assert (P1 : fs (mkWorld (<[apods_media_path self :=
                                 <[APOD.date apod ++ "." ++ ext := content rsp]> dir]>
                                (fs w))
                             (media_request url :: net w))
                 !! apods_media_path self
                 = Some (<[APOD.date apod ++ "." ++ ext := content rsp]> dir))
      by apply lookup_insert_eq.
    assert (F1 : is_Some (<[APOD.date apod ++ "." ++ ext := content rsp]> dir
                            !! (APOD.date apod ++ "." ++ ext)))
      by (rewrite lookup_insert_eq; eauto).
    split; [now apply (Held _ ext _ X P1)|].
    split; [cbn [net length]; lia|]. eauto.
Qed.

(** C4, as the code has it. For every record that is not an image,
    [save_media_for] leaves the world as it was (no request, no file
    written). When the extension of the record is defined and the media
    directory holds no file [{date}.{extension}], it raises the TypeError
    that says the record is not a savable image; when that file is already
    there, it returns without an error. *)
Theorem save_media_not_image (self : t) (apod : APOD.t) (w : world) :
  APOD.is_image apod = false ->
  snd (save_media_for self apod w) = w
  /\ (forall ext dir,
        APOD.media_extension apod = Ok ext ->
        fs w !! apods_media_path self = Some dir ->
        dir !! (APOD.date apod ++ "." ++ ext) = None ->
        save_media_for self apod w
        = (Raise (TypeError (Message (APOD.__str__ apod ++ " is not a savable image"))), w))
  /\ (forall ext dir,
        APOD.media_extension apod = Ok ext ->
        fs w !! apods_media_path self = Some dir ->
        is_Some (dir !! (APOD.date apod ++ "." ++ ext)) ->
        save_media_for self apod w = (Ok tt, w)).
Proof.
  intros V. split; [|split].
  - destruct (APOD.media_extension apod) as [ext|e] eqn:X.
    + destruct (fs w !! apods_media_path self) as [dir|] eqn:P.
      * rewrite (save_media_for_cases _ _ _ _ _ X P), V.
        now destruct (bool_decide _).
      * unfold save_media_for, bind at 1, lift. rewrite X.
        unfold bind, listdir. now rewrite P.
    + unfold save_media_for, bind, lift. now rewrite X.
  - intros ext dir X P F. rewrite (save_media_for_cases _ _ _ _ _ X P), V.
    rewrite bool_decide_eq_false_2; [reflexivity|].
    rewrite F. intros [? ?]; discriminate.
  - intros ext dir X P F. rewrite (save_media_for_cases _ _ _ _ _ X P).
    now rewrite bool_decide_eq_true_2.
Qed.

End ArchiveClaims.

(** ** The claims on the sample host *)

Section Evaluation.
Import Sample.

Lemma sample_codec : codec_round_trip.
Proof. intros v. reflexivity. Qed.

(** C2, where the code departs from it. The records directory holds
    [2024-01-01.jpg] and the media directory holds [2024-02-02.png]:
    [stored_media] yields the name from the records directory and not the
    one from the media directory. *)
Theorem stored_media_lists_records_directory :
  ManagerConfiguration.stored_media config mixed = (Ok ["2024-01-01.jpg"], mixed)
  /\ listdir (ManagerConfiguration.apods_media_path config) mixed
     = (Ok ["2024-02-02.png"], mixed).
Proof. split; vm_compute; reflexivity. Qed.

(** C3 fails as stated: a record that passes validation and whose [hdurl]
    is present (the empty string), yet whose [best_url] is [url] and not
    [hdurl]; and, with [url] null as well, a record that passes validation
    and whose [best_url] is null. *)
Lemma best_url_empty_hdurl :
  (APOD._validate_data empty_hd = Ok tt
   /\ APOD.hdurl empty_hd = Some ""
   /\ APOD.best_url empty_hd = APOD.url empty_hd
   /\ APOD.best_url empty_hd <> APOD.hdurl empty_hd)
  /\ (APOD._validate_data no_link = Ok tt
      /\ APOD.hdurl no_link = Some ""
      /\ APOD.best_url no_link = None).
Proof.
  split.
  - split; [reflexivity|]. split; [reflexivity|].
    split; [reflexivity | discriminate].
  - split; [reflexivity|]. split; reflexivity.
Qed.

Lemma best_url_spec_witness :
  invariant both_links
  /\ APOD.best_url both_links
     = Some "https://apod.nasa.gov/apod/image/pic_big.jpeg?download=true"
  /\ APOD.best_url (of_the_day "2024-01-01") = APOD.url (of_the_day "2024-01-01")
  /\ APOD.best_url empty_hd = Some "https://apod.nasa.gov/apod/image/pic.jpg".
Proof.
  assert (V1 : invariant both_links) by (apply validate_ok; reflexivity).
  assert (V2 : invariant (of_the_day "2024-01-01")) by (apply validate_ok; reflexivity).
  assert (V3 : invariant empty_hd) by (apply validate_ok; reflexivity).
  split; [exact V1|]. split; [|split].
  - apply (proj1 (best_url_spec both_links V1)); [reflexivity | discriminate].
  - apply (proj1 (proj2 (best_url_spec (of_the_day "2024-01-01") V2))). reflexivity.
  - apply (proj2 (proj2 (best_url_spec empty_hd V3))); reflexivity.
Defined.

(** C5 fails as stated: a record that passes validation and for which
    [media_extension] raises instead of returning a string. *)
Lemma media_extension_no_dot :
  APOD._validate_data undotted = Ok tt
  /\ APOD.media_extension undotted = Raise (ValueError "substring not found").
Proof. split; reflexivity. Qed.

Lemma media_extension_spec_witness :
  APOD.media_extension both_links = Ok "jpg"
  /\ APOD.media_extension (of_the_day "2024-01-01") = Ok "jpg"
  /\ APOD.media_extension clip = Ok "mp4".
Proof.
  split; [|split].
  - apply (proj1 (proj2 (media_extension_spec both_links))
             "https://apod.nasa.gov/apod/image/pic_big" "jpeg?download=true");
      [reflexivity|].
    vm_compute. intuition discriminate.
  - apply (proj1 (proj2 (media_extension_spec (of_the_day "2024-01-01")))
             "https://apod.nasa.gov/apod/image/pic" "jpg");
      [reflexivity|].
    vm_compute. intuition discriminate.
  - apply (proj1 (proj2 (media_extension_spec clip))
             "https://example.org/clips/clip" "mp4");
      [reflexivity|].
    vm_compute. intuition discriminate.
Defined.

(** C8 fails as stated: the date [2024-01-01T12:00] is not of the
    canonical form, and neither is [2024-01-01/../x]; yet validation does
    not fail for a record with such a date, and the keyword call builds the
    record, which so does not satisfy the invariant of the date as the
    specification words it. The code accepts every canonical date, and with
    it every text that begins with one. *)
Lemma validation_accepts_longer_date :
  (canonical_date "2024-01-01T12:00" = false
   /\ APOD._validate_data (of_the_day "2024-01-01T12:00") = Ok tt
   /\ APOD.of_kwargs (picture "2024-01-01T12:00")
      = Ok (of_the_day "2024-01-01T12:00"))
  /\ (canonical_date "2024-01-01/../x" = false
      /\ APOD._validate_data (of_the_day "2024-01-01/../x") = Ok tt
      /\ APOD.of_kwargs (picture "2024-01-01/../x")
         = Ok (of_the_day "2024-01-01/../x"))
  /\ (forall s rest,
        canonical_date s = true ->
        re_match APOD.APOD_DATE_FORMAT_RE (s ++ rest) = true).
Proof.
  split; [|split].
  - split; [reflexivity|]. split; reflexivity.
  - split; [reflexivity|]. split; reflexivity.
  - intros s rest C. rewrite date_pattern_prefix.
    unfold canonical_date in C. apply andb_true_iff in C as [C _].
    do 10 (destruct s as [|? s]; [discriminate|]). exact C.
Qed.

Lemma validation_exact_witness :
  (exists msg, APOD._validate_data (apod "2024-1-1" "image" (Some "u") None)
               = Raise (ValueError msg))
  /\ invariant (of_the_day "2024-01-01").
Proof.
  split.
  - apply (proj2 (proj1 validation_exact (apod "2024-1-1" "image" (Some "u") None))).
    left. reflexivity.
  - apply (proj1 (proj2 (proj2 (proj2 (proj2 (proj2 validation_exact)))))
             (Sample.picture "2024-01-01")).
    reflexivity.
Defined.

Lemma fetch_random_bounds_witness :
  (exists msg, APOD.fetch_random "KEY" 0 fresh = (Raise (ValueError msg), fresh))
  /\ (exists msg, APOD.fetch_random "KEY" 101 fresh = (Raise (ValueError msg), fresh))
  /\ net (snd (APOD.fetch_random "KEY" 1 fresh)) = [APOD.random_request "KEY" 1]
  /\ net (snd (APOD.fetch_random "KEY" 100 fresh)) = [APOD.random_request "KEY" 100].
Proof.
  split; [|split; [|split]].
  - apply (proj1 (fetch_random_bounds "KEY" 0 fresh)). lia.
  - apply (proj1 (fetch_random_bounds "KEY" 101 fresh)). lia.
  - apply (proj2 (fetch_random_bounds "KEY" 1 fresh)). lia.
  - apply (proj2 (fetch_random_bounds "KEY" 100 fresh)). lia.
Defined.

(** C4 fails as stated: a video record whose media file is already in
    the media directory; [save_media_for] returns without an error. *)
Lemma save_media_video_already_there :
  APOD.media_type clip = "video"
  /\ APOD.is_image clip = false
  /\ ManagerConfiguration.save_media_for config clip with_clip = (Ok tt, with_clip).
Proof. repeat split; vm_compute; reflexivity. Qed.

Lemma save_media_not_image_witness :
  APOD.is_image clip = false
  /\ ManagerConfiguration.save_media_for config clip fresh
     = (Raise (TypeError (Message "2024-01-01 - video - A Picture is not a savable image")),
        fresh)
  /\ snd (ManagerConfiguration.save_media_for config clip with_clip) = with_clip.
Proof.
  assert (V : APOD.is_image clip = false) by reflexivity.
  split; [exact V|]. split.
  - apply (proj1 (proj2 (save_media_not_image config clip fresh V)) "mp4" ∅);
      vm_compute; reflexivity.
  - apply (proj1 (save_media_not_image config clip with_clip V)).
Defined.

Lemma store_load_round_trip_witness :
  let r := of_the_day "2024-01-01" in
  exists w',
    ManagerConfiguration.store_apod config r fresh = (Ok r, w')
    /\ fs w' !! "/home/u/apods" ≫= (.!! "2024-01-01.json")
       = Some (Document (APOD.asdict r))
    /\ exists loaded,
        APOD.load_from "/home/u/apods" "2024-01-01.json" w' = (Ok loaded, w')
        /\ loaded = r
        /\ APOD.__eq__ loaded r = true.
Proof.
  intros r.
  assert (V : invariant r) by (apply validate_ok; reflexivity).
  apply (store_load_round_trip config r fresh ∅ sample_codec V);
    vm_compute; reflexivity.
Defined.

Lemma fetch_single_cache_first_witness :
  let d := DStr "2024-01-01" in
  let w1 := snd (ManagerConfiguration.fetch_single config (Some d) fresh) in
  net w1 = [APOD.single_request "KEY" "2024-01-01"]
  /\ ManagerConfiguration.fetch_single config (Some d) w1
     = (Ok (of_the_day "2024-01-01"), w1).
Proof.
  intros d w1.
  apply (proj1 (proj2 (proj2 (proj2 (proj2
           (fetch_single_cache_first config fresh)))))
           sample_codec d ∅ (of_the_day "2024-01-01") w1);
    vm_compute; reflexivity.
Defined.

Lemma save_media_idempotent_witness :
  let r := of_the_day "2024-01-01" in
  let w1 := snd (ManagerConfiguration.save_media_for config r fresh) in
  ManagerConfiguration.save_media_for config r w1 = (Ok tt, w1)
  /\ (length (net w1) <= length (net fresh) + 1)%nat
  /\ exists ext dir1,
      APOD.media_extension r = Ok ext
      /\ fs w1 !! "/home/u/apods/images" = Some dir1
      /\ is_Some (dir1 !! ("2024-01-01" ++ "." ++ ext)).
Proof.
  intros r w1.
  apply (proj1 (proj2 (save_media_idempotent config r fresh)) w1).
  vm_compute. reflexivity.
Defined.

Lemma load_from_unknown_key_witness :
  exists k',
    In k' (map fst settings)
    /\ ~ In k' ManagerConfiguration.fields
    /\ ManagerConfiguration.load_from "/home/u/apods" "apodmgr.cfg.json" with_settings
       = (Raise (TypeError (refused_keyword k')), with_settings).
Proof.
  apply (load_from_unknown_key "/home/u/apods" "apodmgr.cfg.json" with_settings
           (Document (JObj settings)) settings "colour").
  - vm_compute. reflexivity.
  - reflexivity.
  - reflexivity.
  - right. left. reflexivity.
  - vm_compute. intuition discriminate.
Defined.

End Evaluation.


(** * Further properties of the archive *)

(** ** File names and the date pattern *)

Local Opaque Ascii.eqb is_digit.

Lemma residuals_date (s : string) :
  residuals APOD.APOD_DATE_FORMAT_RE s
  = if starts_with_date s then [Py.slice_from 10 s] else [].
Proof.
  do 10 (destruct s as [|? s]; cbn; [split_tests; reflexivity|]).
  split_tests; reflexivity.
Qed.

Lemma starts_with_date_app (d t : string) :
  starts_with_date d = true -> starts_with_date (d ++ t) = true.
Proof.
  do 10 (destruct d as [|? d]; [discriminate|]). exact (fun E => E).
Qed.

Local Transparent Ascii.eqb is_digit.

Lemma slice_from_length (d t : string) :
  Py.slice_from (String.length d) (d ++ t) = t.
Proof. induction d as [|a d IH]; simpl; [now destruct t | exact IH]. Qed.

(** The file name of a record whose date is a date and nothing more is one
    that [stored_apods] looks for. *)
Lemma record_file_name_matches (d : string) :
  starts_with_date d = true ->
  String.length d = 10%nat ->
  re_match ManagerConfiguration.apod_file_name_pattern (d ++ ".json") = true.
Proof.
  intros S L. unfold re_match, ManagerConfiguration.apod_file_name_pattern.
  cbn [residuals]. rewrite residuals_date, (starts_with_date_app _ _ S).
  rewrite <- L, slice_from_length. reflexivity.
Qed.

Example record_file_name_trailing :
  re_match APOD.APOD_DATE_FORMAT_RE "2024-01-01T12:00" = true
  /\ re_match ManagerConfiguration.apod_file_name_pattern "2024-01-01T12:00.json"
     = false.
Proof. split; reflexivity. Qed.

(** ** Looking into the records directory *)

Section LookupExtras.
Context `{Host}.
Import ManagerConfiguration.

Lemma listing_keys (d : gmap string blob) :
  map fst (map_to_list d) = (map_to_list d).*1.
Proof. reflexivity. Qed.

Lemma listing_elem (d : gmap string blob) (n : string) :
  n ∈ map fst (map_to_list d) <-> is_Some (d !! n).
Proof.
  rewrite listing_keys, list_elem_of_fmap. split.
  - intros ((k & c) & -> & I). apply elem_of_map_to_list in I. eauto.
  - intros (c & L). exists (n, c). split; [reflexivity|].
    now apply elem_of_map_to_list.
Qed.

(** X1. [stored_apod_file] never changes anything. A date that does not
    begin like a date raises the ValueError before the directory is looked
    at; a missing records directory raises FileNotFoundError; otherwise the
    answer is [{date}.json] exactly when the directory holds a file of that
    name, and the no-file signal when it does not. *)
Theorem stored_apod_file_exact (self : t) (d : date_arg) (w : world) :
  snd (stored_apod_file self d w) = w
  /\ (re_match APOD.APOD_DATE_FORMAT_RE (APOD.date_text (Some d)) = false ->
      stored_apod_file self d w
      = (Raise (ValueError (APOD.format_message "date")), w))
  /\ (re_match APOD.APOD_DATE_FORMAT_RE (APOD.date_text (Some d)) = true ->
      (fs w !! apods_path self = None ->
       stored_apod_file self d w = (Raise FileNotFoundError, w))
      /\ (forall dir,
            fs w !! apods_path self = Some dir ->
            (is_Some (dir !! (APOD.date_text (Some d) ++ ".json")) ->
             stored_apod_file self d w
             = (Ok (Some (APOD.date_text (Some d) ++ ".json")), w))
            /\ (dir !! (APOD.date_text (Some d) ++ ".json") = None ->
                stored_apod_file self d w = (Ok None, w)))).
Proof.
  split; [|split].
  - unfold stored_apod_file. destruct (negb _); [reflexivity|].
    unfold bind, listdir, ret. now destruct (fs w !! apods_path self).
  - intros D. unfold stored_apod_file. now rewrite D.
  - intros D. split.
    + intros P. unfold stored_apod_file. rewrite D. simpl.
      unfold bind, listdir. now rewrite P.
    + intros dir P. rewrite (stored_apod_file_listed _ _ _ _ D P). split.
      * intros F. now rewrite bool_decide_eq_true_2.
      * intros F. rewrite bool_decide_eq_false_2; [reflexivity|].
        rewrite F. intros [? ?]; discriminate.
Qed.

Lemma stored_apods_listing (self : t) (w : world) (dir : gmap string blob) :
  fs w !! apods_path self = Some dir ->
  exists names,
    stored_apods self w = (Ok names, w)
    /\ NoDup names
    /\ forall n,
        n ∈ names
        <-> (is_Some (dir !! n) /\ re_match apod_file_name_pattern n = true).
Proof.
  intros P. eexists. split; [|split].
  - unfold stored_apods, bind, listdir, ret. rewrite P. reflexivity.
  - apply NoDup_filter. rewrite listing_keys. apply NoDup_fst_map_to_list.
  - intros n. rewrite list_elem_of_filter, listing_elem.
    rewrite Is_true_true. tauto.
Qed.

(** X2. [stored_apods] never changes anything. A missing records
    directory raises FileNotFoundError; otherwise it yields, each once, the
    names of the directory that match the pattern of a record file, and no
    other name. *)
Theorem stored_apods_exact (self : t) (w : world) :
  (fs w !! apods_path self = None ->
   stored_apods self w = (Raise FileNotFoundError, w))
  /\ (forall dir,
        fs w !! apods_path self = Some dir ->
        exists names,
          stored_apods self w = (Ok names, w)
          /\ NoDup names
          /\ forall n,
              n ∈ names
              <-> (is_Some (dir !! n) /\ re_match apod_file_name_pattern n = true)).
Proof.
  split.
  - intros P. unfold stored_apods, bind, listdir. now rewrite P.
  - intros dir P. now apply stored_apods_listing.
Qed.

End LookupExtras.

(** ** Storing records *)

Lemma length_append (a b : string) :
  String.length (a ++ b) = (String.length a + String.length b)%nat.
Proof. induction a as [|c a IH]; simpl; [reflexivity | now rewrite IH]. Qed.

Lemma append_cancel_r (a b t : string) : a ++ t = b ++ t -> a = b.
Proof.
  revert b. induction a as [|c a IH]; intros [|c' b] E; simpl in E.
  - reflexivity.
  - exfalso. apply (f_equal String.length) in E. simpl in E.
    rewrite !length_append in E. simpl in E. lia.
  - exfalso. apply (f_equal String.length) in E. simpl in E.
    rewrite !length_append in E. simpl in E. lia.
  - injection E as -> E. f_equal. now apply IH.
Qed.

Section StoreExtras.
Context `{Host}.
Import ManagerConfiguration.

Lemma latest_date (n : string) (l : list APOD.t) (r : APOD.t) :
  latest n l = Some r -> In r l /\ APOD.date r ++ ".json" = n.
Proof.
  induction l as [|a l IH]; simpl; [discriminate|].
  destruct (latest n l) as [r'|].
  - intros [= <-]. destruct (IH eq_refl). tauto.
  - destruct (String.eqb_spec (APOD.date a ++ ".json") n); [|discriminate].
    intros [= <-]. tauto.
Qed.

Lemma latest_some (l : list APOD.t) (r : APOD.t) :
  In r l -> exists r', latest (APOD.date r ++ ".json") l = Some r'.
Proof.
  induction l as [|a l IH]; simpl; [tauto|]. intros [->|I].
  - destruct (latest _ l); [eauto|]. rewrite String.eqb_refl. eauto.
  - destruct (IH I) as (r' & ->). eauto.
Qed.

Lemma store_each_inv (self : t) (l : list APOD.t) (w w' : world) :
  store_each self l w = (Ok tt, w') ->
  net w' = net w
  /\ (forall q, q <> apods_path self -> fs w' !! q = fs w !! q)
  /\ forall n,
      record_file self w' n
      = match latest n l with
        | Some r => Some (json_dumps (APOD.asdict r))
        | None => record_file self w n
        end.
Proof.
  revert w. induction l as [|r l IH]; intros w; simpl.
  - unfold ret. intros [= <-]. auto.
  - intros E. apply bind_ok in E as (r0 & w1 & S & E).
    apply store_apod_inv in S as (-> & dir & P & _ & ->).
    apply IH in E as (N & O & F). cbn [fs net] in *.
    split; [exact N|]. split.
    + intros q Q. rewrite (O q Q). now apply lookup_insert_ne.
    + intros n. rewrite F. destruct (latest n l); [reflexivity|].
      rewrite lookup_insert_eq, P. simpl.
      destruct (String.eqb_spec (APOD.date r ++ ".json") n) as [->|Ne].
      * apply lookup_insert_eq.
      * now apply lookup_insert_ne.
Qed.

Lemma store_each_succeeds (self : t) (l : list APOD.t) (w : world) :
  is_Some (fs w !! apods_path self) ->
  Forall (fun r => valid_name (APOD.date r ++ ".json") = true) l ->
  exists w', store_each self l w = (Ok tt, w').
Proof.
  intros P V. revert w P. induction V as [|r l Vr V IH]; intros w [dir P]; simpl.
  - unfold ret. eauto.
  - unfold bind. rewrite (store_apod_succeeds _ _ _ _ P Vr).
    apply IH. cbn [fs]. rewrite lookup_insert_eq. eauto.
Qed.

Lemma load_stored (self : t) (r : APOD.t) (w : world) (n : string) :
  codec_round_trip ->
  invariant r ->
  record_file self w n = Some (json_dumps (APOD.asdict r)) ->
  APOD.load_from (apods_path self) n w = (Ok r, w).
Proof.
  intros C V F. unfold APOD.load_from, bind, read_file. rewrite F.
  unfold lift, APOD.loads. rewrite C, asdict_of_kwargs.
  now rewrite post_init_valid.
Qed.

(** X3. [store_apods] hands back the list it was given. When it
    returns, no request was made and no other directory changed; a file of
    the records directory holds the text of the last record of the list
    that has its name, and is as before when the list has no such record.
    So, with a codec that reads back what it wrote, each record of a valid
    list can be loaded back from [{date}.json], up to the equality of
    records: of two records with one date the later one stays. And it does
    return when the records directory exists and the host takes every file
    name. *)
Theorem store_apods_last_wins (self : t) (apods : list APOD.t) (w : world) :
  (forall rs w',
      store_apods self apods w = (Ok rs, w') ->
      rs = apods
      /\ net w' = net w
      /\ (forall q, q <> apods_path self -> fs w' !! q = fs w !! q)
      /\ (forall n,
            record_file self w' n
            = match latest n apods with
              | Some r => Some (json_dumps (APOD.asdict r))
              | None => record_file self w n
              end)
      /\ (codec_round_trip ->
          Forall invariant apods ->
          forall r, In r apods ->
            exists r',
              latest (APOD.date r ++ ".json") apods = Some r'
              /\ APOD.load_from (apods_path self) (APOD.date r ++ ".json") w'
                 = (Ok r', w')
              /\ APOD.__eq__ r' r = true))
  /\ (is_Some (fs w !! apods_path self) ->
      Forall (fun r => valid_name (APOD.date r ++ ".json") = true) apods ->
      exists w', store_apods self apods w = (Ok apods, w')).
Proof.
  split.
  - intros rs w' E. unfold store_apods in E.
    apply bind_ok in E as ([] & w1 & E & R). unfold ret in R.
    injection R as <- <-. destruct (store_each_inv _ _ _ _ E) as (N & O & F).
    split; [reflexivity|]. split; [exact N|]. split; [exact O|].
    split; [exact F|]. intros C V r I.
    destruct (latest_some _ _ I) as (r' & L). exists r'.
    split; [exact L|]. destruct (latest_date _ _ _ L) as [I' D]. split.
    + apply load_stored; [exact C | | now rewrite F, L].
      rewrite Forall_forall in V. apply V. now apply list_elem_of_In.
    + unfold APOD.__eq__. apply String.eqb_eq.
      symmetry. now apply (append_cancel_r _ _ ".json").
  - intros P V. destruct (store_each_succeeds _ _ _ P V) as (w' & E).
    exists w'. unfold store_apods, bind. now rewrite E.
Qed.

(** X4. A record that was stored is found again: after [store_apod]
    has returned for a record that satisfies the invariants,
    [stored_apod_file] answers [{date}.json] for its date, and
    [stored_apods] lists that name when the date is a date and nothing more
    (ten characters). *)
Theorem stored_after_store (self : t) (r : APOD.t) (w w' : world) :
  invariant r ->
  store_apod self r w = (Ok r, w') ->
  stored_apod_file self (DStr (APOD.date r)) w'
  = (Ok (Some (APOD.date r ++ ".json")), w')
  /\ (String.length (APOD.date r) = 10%nat ->
      exists names,
        stored_apods self w' = (Ok names, w')
        /\ APOD.date r ++ ".json" ∈ names).
Proof.
  intros (D & _) S. apply store_apod_inv in S as (_ & dir & P & _ & ->).
  assert (P' : fs (mkWorld (<[apods_path self :=
                               <[APOD.date r ++ ".json" := json_dumps (APOD.asdict r)]> dir]>
                              (fs w)) (net w)) !! apods_path self
               = Some (<[APOD.date r ++ ".json" := json_dumps (APOD.asdict r)]> dir))
    by apply lookup_insert_eq.
  assert (F : is_Some (<[APOD.date r ++ ".json" := json_dumps (APOD.asdict r)]> dir
                         !! (APOD.date r ++ ".json")))
    by (rewrite lookup_insert_eq; eauto).
  split.
  - rewrite (stored_apod_file_listed self (DStr (APOD.date r)) _ _ D P').
    cbn [APOD.date_text]. now rewrite bool_decide_eq_true_2.
  - intros L.
    destruct (stored_apods_listing self _ _ P') as (names & E & _ & In_names).
    exists names. split; [exact E|]. apply In_names. split; [exact F|].
    apply record_file_name_matches; [|exact L]. now rewrite <- date_pattern_prefix.
Qed.

(** X5. Storing a second record with the date of a first one replaces
    it: with a codec that reads back what it wrote, loading [{date}.json]
    then gives the second record; every other file of the records
    directory, every other directory and the log of requests are as they
    were before the two calls. *)
Theorem store_apod_replaces (self : t) (a b : APOD.t) (w w1 w2 : world) :
  codec_round_trip ->
  invariant b ->
  APOD.__eq__ a b = true ->
  store_apod self a w = (Ok a, w1) ->
  store_apod self b w1 = (Ok b, w2) ->
  APOD.load_from (apods_path self) (APOD.date a ++ ".json") w2 = (Ok b, w2)
  /\ (forall n, n <> APOD.date a ++ ".json" ->
                record_file self w2 n = record_file self w n)
  /\ (forall q, q <> apods_path self -> fs w2 !! q = fs w !! q)
  /\ net w2 = net w.
Proof.
  intros C V Q Sa Sb. apply String.eqb_eq in Q.
  apply store_apod_inv in Sa as (_ & dir & P & _ & ->).
  apply store_apod_inv in Sb as (_ & dir1 & P1 & _ & ->).
  cbn [fs net] in P1. rewrite lookup_insert_eq in P1. injection P1 as <-.
  rewrite Q. split; [|split; [|split]].
  - apply load_stored; [exact C | exact V |].
    cbn [fs]. rewrite lookup_insert_eq. simpl. apply lookup_insert_eq.
  - intros n Ne. cbn [fs]. rewrite lookup_insert_eq, P. simpl.
    rewrite lookup_insert_ne by congruence. now apply lookup_insert_ne.
  - intros q Ne. cbn [fs]. rewrite lookup_insert_ne by congruence.
    now apply lookup_insert_ne.
  - reflexivity.
Qed.

End StoreExtras.

(** ** Fetching *)

Section FetchExtras.
Context `{Host}.
Import ManagerConfiguration.

Lemma answered (A : Type) (f : json -> result A) (rq : request) (w : world) :
  bind (requests_get rq)
       (fun response =>
          if negb (ok response)
          then raise (HTTPError (status_code response))
          else lift (rbind (response_json response) f)) w
  = (match http_get (net w) rq with
     | Raise e => Raise e
     | Ok response =>
         if ok response
         then match json_loads (content response) with
              | Some v => f v
              | None => Raise JSONDecodeError
              end
         else Raise (HTTPError (status_code response))
     end, mkWorld (fs w) (rq :: net w)).
Proof.
  unfold bind, requests_get. destruct (http_get (net w) rq) as [rsp|e];
    [|reflexivity].
  unfold raise, lift, response_json.
  destruct (ok rsp); simpl; [|reflexivity].
  now destruct (json_loads (content rsp)).
Qed.

Lemma ok_refused (rsp : response blob) :
  (400 <= status_code rsp < 600)%Z -> ok rsp = false.
Proof.
  intros B. unfold ok.
  rewrite (proj2 (Z.leb_le _ _) (proj1 B)), (proj2 (Z.ltb_lt _ _) (proj2 B)).
  reflexivity.
Qed.

Lemma ok_passed (rsp : response blob) :
  (status_code rsp < 400 \/ 600 <= status_code rsp)%Z -> ok rsp = true.
Proof.
  intros B. unfold ok. apply negb_true_iff, andb_false_iff.
  destruct B as [B|B]; [left; apply Z.leb_gt | right; apply Z.ltb_ge]; exact B.
Qed.

(** X6. The remote [fetch_single]: a date that does not begin like a
    date raises the ValueError and no request is made. Otherwise exactly one
    request is made, for that date with the key, and no file is touched: an
    exception of the network is passed on; a status from 400 to 599 raises
    HTTPError with that status, whatever the body; with any other status,
    below 400 or from 600 on, the body is read: one that is not JSON raises
    JSONDecodeError, and a JSON body is handed to the constructor. *)
Theorem remote_fetch_single_outcomes (api_key : string) (date : option date_arg)
        (w : world) :
  (re_match APOD.APOD_DATE_FORMAT_RE (APOD.date_text date) = false ->
   APOD.fetch_single api_key date w
   = (Raise (ValueError (APOD.format_message "date")), w))
  /\ (re_match APOD.APOD_DATE_FORMAT_RE (APOD.date_text date) = true ->
      let rq := APOD.single_request api_key (APOD.date_text date) in
      let w1 := mkWorld (fs w) (rq :: net w) in
      snd (APOD.fetch_single api_key date w) = w1
      /\ (forall e, http_get (net w) rq = Raise e ->
                    APOD.fetch_single api_key date w = (Raise e, w1))
      /\ (forall rsp,
            http_get (net w) rq = Ok rsp ->
            ((400 <= status_code rsp < 600)%Z ->
             APOD.fetch_single api_key date w
             = (Raise (HTTPError (status_code rsp)), w1))
            /\ ((status_code rsp < 400 \/ 600 <= status_code rsp)%Z ->
                json_loads (content rsp) = None ->
                APOD.fetch_single api_key date w = (Raise JSONDecodeError, w1))
            /\ ((status_code rsp < 400 \/ 600 <= status_code rsp)%Z ->
                forall v, json_loads (content rsp) = Some v ->
                  APOD.fetch_single api_key date w = (APOD.of_kwargs v, w1)))).
Proof.
  split.
  - intros D. unfold APOD.fetch_single. now rewrite D.
  - intros D rq w1. unfold APOD.fetch_single. rewrite D. cbn [negb].
    rewrite answered. fold rq. fold w1. split; [reflexivity|]. split.
    + now intros e ->.
    + intros rsp ->. split; [|split].
      * intros B. now rewrite (ok_refused _ B).
      * intros B J. now rewrite (ok_passed _ B), J.
      * intros B v J. now rewrite (ok_passed _ B), J.
Qed.

(** X7. The remote [fetch_range] checks the start date first and the
    end date second, each against the date pattern, and raises the
    ValueError that names the one that fails before any request; with both
    of the right form it makes exactly one request, which carries the key
    and the two dates, and touches no file. A missing date is now. *)
Theorem remote_fetch_range_checks (api_key : string)
        (start_date end_date : option date_arg) (w : world) :
  (re_match APOD.APOD_DATE_FORMAT_RE (APOD.date_text start_date) = false ->
   APOD.fetch_range api_key start_date end_date w
   = (Raise (ValueError (APOD.format_message "start_date")), w))
  /\ (re_match APOD.APOD_DATE_FORMAT_RE (APOD.date_text start_date) = true ->
      re_match APOD.APOD_DATE_FORMAT_RE (APOD.date_text end_date) = false ->
      APOD.fetch_range api_key start_date end_date w
      = (Raise (ValueError (APOD.format_message "end_date")), w))
  /\ (re_match APOD.APOD_DATE_FORMAT_RE (APOD.date_text start_date) = true ->
      re_match APOD.APOD_DATE_FORMAT_RE (APOD.date_text end_date) = true ->
      snd (APOD.fetch_range api_key start_date end_date w)
      = mkWorld (fs w)
          (APOD.range_request api_key (APOD.date_text start_date)
                              (APOD.date_text end_date) :: net w))
  /\ APOD.fetch_range api_key None None w
     = APOD.fetch_range api_key (Some (DTime now)) (Some (DTime now)) w.
Proof.
  unfold APOD.fetch_range. split; [|split; [|split]].
  - now intros ->.
  - now intros -> ->.
  - intros -> ->. cbn [negb]. now rewrite answered.
  - reflexivity.
Qed.

Lemma store_each_log (self : t) (l : list APOD.t) (w : world) :
  net (snd (store_each self l w)) = net w.
Proof.
  revert w. induction l as [|r l IH]; intros w; simpl; [reflexivity|].
  unfold bind. pose proof (store_keeps_log self r w) as K.
  destruct (store_apod self r w) as [[r0|e] w1]; simpl in K; [|exact K].
  now rewrite IH.
Qed.

Lemma store_apods_log (self : t) (l : list APOD.t) (w : world) :
  net (snd (store_apods self l w)) = net w.
Proof.
  unfold store_apods, bind. pose proof (store_each_log self l w) as K.
  now destruct (store_each self l w) as [[[]|e] w1].
Qed.

Lemma stored_all (self : t) (rs rs' : list APOD.t) (w w' : world) :
  store_apods self rs w = (Ok rs', w') ->
  rs' = rs
  /\ (forall q, q <> apods_path self -> fs w' !! q = fs w !! q)
  /\ forall n,
      record_file self w' n
      = match latest n rs with
        | Some r => Some (json_dumps (APOD.asdict r))
        | None => record_file self w n
        end.
Proof.
  intros E. unfold store_apods in E.
  apply bind_ok in E as ([] & w1 & E & R). unfold ret in R.
  injection R as <- <-. destruct (store_each_inv _ _ _ _ E) as (_ & O & F).
  auto.
Qed.

Lemma remote_random_refused (key : string) (count : Z) (w : world) :
  (count < 1 \/ 100 < count)%Z ->
  APOD.fetch_random key count w
  = (Raise (ValueError "`count` must be between (0, 100]"), w).
Proof.
  intros B. unfold APOD.fetch_random.
  replace ((1 <=? count)%Z && (count <=? 100)%Z) with false
    by (symmetry; apply andb_false_iff; lia).
  reflexivity.
Qed.

Lemma remote_random_asked (key : string) (count : Z) (w : world) :
  (1 <= count <= 100)%Z ->
  snd (APOD.fetch_random key count w)
  = mkWorld (fs w) (APOD.random_request key count :: net w).
Proof.
  intros B. unfold APOD.fetch_random.
  replace ((1 <=? count)%Z && (count <=? 100)%Z) with true
    by (symmetry; apply andb_true_iff; lia).
  cbn [negb]. now rewrite answered.
Qed.

(** X8. [fetch_random] of the archive looks at no cached file before it
    asks: a count below 1 or above 100 raises the ValueError and nothing
    happens; for a count from 1 to 100 exactly one request is made, whatever
    the records directory holds. When it returns, every record it returns
    satisfies the invariants and has been written: a file of the records
    directory holds the text of the last returned record that has its name,
    and is as before when no returned record has it; no other directory has
    changed. *)
Theorem archive_fetch_random (self : t) (count : Z) (w : world) :
  ((count < 1 \/ 100 < count)%Z ->
   exists msg, fetch_random self count w = (Raise (ValueError msg), w))
  /\ ((1 <= count <= 100)%Z ->
      net (snd (fetch_random self count w))
      = APOD.random_request (api_key self) count :: net w)
  /\ (forall rs w',
        fetch_random self count w = (Ok rs, w') ->
        Forall invariant rs
        /\ (forall q, q <> apods_path self -> fs w' !! q = fs w !! q)
        /\ forall n,
            record_file self w' n
            = match latest n rs with
              | Some r => Some (json_dumps (APOD.asdict r))
              | None => record_file self w n
              end).
Proof.
  split; [|split].
  - intros B. eexists. unfold fetch_random, bind.
    now rewrite (remote_random_refused _ _ _ B).
  - intros B. pose proof (remote_random_asked (api_key self) count w B) as L.
    unfold fetch_random, bind.
    destruct (APOD.fetch_random (api_key self) count w) as [[rs|e] w1];
      simpl in L; [|now rewrite L].
    rewrite store_apods_log. now rewrite L.
  - intros rs w' E. unfold fetch_random in E.
    apply bind_ok in E as (rs0 & w1 & R & S).
    apply stored_all in S as (-> & O & F).
    assert (V : Forall invariant rs0 /\ fs w1 = fs w).
    { unfold APOD.fetch_random in R.
      destruct (negb _); [discriminate|]. rewrite answered in R.
      injection R as R <-. split; [|reflexivity].
      destruct (http_get _ _) as [rsp|e]; [|discriminate].
      destruct (ok rsp); [|discriminate].
      destruct (json_loads (content rsp)) as [v|]; [|discriminate].
      now apply records_ok in R. }
    destruct V as [V Fs]. rewrite Fs in O, F. auto.
Qed.

(** X9. [fetch_range] of the archive looks at no cached file before it
    asks: with two dates of the right form exactly one request is made,
    whatever the records directory holds; with a date of another form the
    ValueError is raised and nothing happens. When it returns, every record
    it returns satisfies the invariants and has been written, the last one
    of a date staying, and no other directory has changed. *)
Theorem archive_fetch_range (self : t) (start_date end_date : option date_arg)
        (w : world) :
  (re_match APOD.APOD_DATE_FORMAT_RE (APOD.date_text start_date)
   && re_match APOD.APOD_DATE_FORMAT_RE (APOD.date_text end_date) = false ->
   exists msg, fetch_range self start_date end_date w = (Raise (ValueError msg), w))
  /\ (re_match APOD.APOD_DATE_FORMAT_RE (APOD.date_text start_date) = true ->
      re_match APOD.APOD_DATE_FORMAT_RE (APOD.date_text end_date) = true ->
      net (snd (fetch_range self start_date end_date w))
      = APOD.range_request (api_key self) (APOD.date_text start_date)
                           (APOD.date_text end_date) :: net w)
  /\ (forall rs w',
        fetch_range self start_date end_date w = (Ok rs, w') ->
        Forall invariant rs
        /\ (forall q, q <> apods_path self -> fs w' !! q = fs w !! q)
        /\ forall n,
            record_file self w' n
            = match latest n rs with
              | Some r => Some (json_dumps (APOD.asdict r))
              | None => record_file self w n
              end).
Proof.
  split; [|split].
  - intros B. unfold fetch_range, bind, APOD.fetch_range.
    destruct (re_match _ (APOD.date_text start_date)); [|simpl; eauto].
    simpl in B. rewrite B. simpl. eauto.
  - intros D1 D2. unfold fetch_range, bind.
    assert (L : snd (APOD.fetch_range (api_key self) start_date end_date w)
                = mkWorld (fs w)
                    (APOD.range_request (api_key self) (APOD.date_text start_date)
                                        (APOD.date_text end_date) :: net w)).
    { unfold APOD.fetch_range. rewrite D1, D2. cbn [negb]. now rewrite answered. }
    destruct (APOD.fetch_range (api_key self) start_date end_date w)
      as [[rs|e] w1]; simpl in L; [|now rewrite L].
    rewrite store_apods_log. now rewrite L.
  - intros rs w' E. unfold fetch_range in E.
    apply bind_ok in E as (rs0 & w1 & R & S).
    apply stored_all in S as (-> & O & F).
    assert (V : Forall invariant rs0 /\ fs w1 = fs w).
    { unfold APOD.fetch_range in R.
      destruct (negb (re_match _ (APOD.date_text start_date))); [discriminate|].
      destruct (negb (re_match _ (APOD.date_text end_date))); [discriminate|].
      rewrite answered in R. injection R as R <-. split; [|reflexivity].
      destruct (http_get _ _) as [rsp|e]; [|discriminate].
      destruct (ok rsp); [|discriminate].
      destruct (json_loads (content rsp)) as [v|]; [|discriminate].
      now apply records_ok in R. }
    destruct V as [V Fs]. rewrite Fs in O, F. auto.
Qed.

Lemma remote_single_world (key : string) (date : option date_arg) (w : world) :
  fs (snd (APOD.fetch_single key date w)) = fs w
  /\ (length (net (snd (APOD.fetch_single key date w))) <= length (net w) + 1)%nat.
Proof.
  unfold APOD.fetch_single. destruct (negb _).
  - simpl. split; [reflexivity | lia].
  - rewrite answered. simpl. split; [reflexivity | lia].
Qed.

Lemma store_apod_raised (self : t) (r : APOD.t) (w w' : world) (e : exn) :
  store_apod self r w = (Raise e, w') -> w' = w.
Proof.
  unfold store_apod, bind, write_file, ret.
  destruct (fs w !! apods_path self); [|now intros [= _ <-]].
  destruct (valid_name _); [discriminate | now intros [= _ <-]].
Qed.

Lemma stored_apod_file_world (self : t) (d : date_arg) (w : world) :
  snd (stored_apod_file self d w) = w.
Proof.
  unfold stored_apod_file. destruct (negb _); [reflexivity|].
  unfold bind, listdir, ret. now destruct (fs w !! apods_path self).
Qed.

Lemma through_frame (self : t) (date : option date_arg) (w w' : world)
      (out : result APOD.t) :
  bind (APOD.fetch_single (api_key self) date) (store_apod self) w = (out, w') ->
  (length (net w') <= length (net w) + 1)%nat
  /\ (forall q, q <> apods_path self -> fs w' !! q = fs w !! q)
  /\ (forall e, out = Raise e -> fs w' = fs w)
  /\ (forall r, out = Ok r ->
        invariant r
        /\ forall n, n <> APOD.date r ++ ".json" ->
                     record_file self w' n = record_file self w n).
Proof.
  unfold bind. destruct (remote_single_world (api_key self) date w) as [Fs L].
  destruct (APOD.fetch_single (api_key self) date w) as [[r|e] w1] eqn:R;
    simpl in Fs, L.
  - destruct (store_apod self r w1) as [[r'|e] w2] eqn:S; intros [= <- <-].
    + apply remote_single_inv in R as (_ & V & _).
      apply store_apod_inv in S as (-> & dir & P & _ & ->). cbn [fs net].
      rewrite Fs in *. split; [exact L|]. split; [|split].
      * intros q Q. now apply lookup_insert_ne.
      * discriminate.
      * intros r0 [= <-]. split; [exact V|]. intros n Ne.
        rewrite lookup_insert_eq, P. simpl. now apply lookup_insert_ne.
    + apply store_apod_raised in S as ->. rewrite Fs.
      split; [exact L|]. split; [reflexivity|]. split; [reflexivity|].
      discriminate.
  - intros [= <- <-]. rewrite Fs. split; [exact L|].
    split; [reflexivity|]. split; [reflexivity | discriminate].
Qed.

(** X10. Whatever [fetch_single] of the archive does, it makes at most
    one request and leaves every directory but the records directory as it
    was. When it raises, no file has changed at all. When it returns a
    record, the record satisfies the invariants and no file of the records
    directory other than [{record.date}.json] has changed. *)
Theorem archive_fetch_single_frame (self : t) (date : option date_arg)
        (w w' : world) (out : result APOD.t) :
  fetch_single self date w = (out, w') ->
  (length (net w') <= length (net w) + 1)%nat
  /\ (forall q, q <> apods_path self -> fs w' !! q = fs w !! q)
  /\ (forall e, out = Raise e -> fs w' = fs w)
  /\ (forall r, out = Ok r ->
        invariant r
        /\ forall n, n <> APOD.date r ++ ".json" ->
                     record_file self w' n = record_file self w n).
Proof.
  destruct date as [d|]; [|apply through_frame].
  unfold fetch_single, bind at 1.
  pose proof (stored_apod_file_world self d w) as W.
  destruct (stored_apod_file self d w) as [[[file_name|]|e] w0]; simpl in W;
    subst w0.
  - unfold bind, read_file, lift.
    destruct (fs w !! apods_path self ≫= lookup file_name) as [text|];
      intros [= <- <-].
    + split; [lia|]. split; [reflexivity|]. split; [reflexivity|].
      intros r E. split; [now apply loads_ok in E | reflexivity].
    + split; [lia|]. split; [reflexivity|]. split; [reflexivity|]. discriminate.
  - apply through_frame.
  - intros [= <- <-]. split; [lia|]. split; [reflexivity|].
    split; [reflexivity | discriminate].
Qed.

End FetchExtras.

(** ** The configuration *)

Lemma lstrip_head (s : string) (c : ascii) (t : string) :
  Py.lstrip s = String c t -> Py.isspace c = false.
Proof.
  induction s as [|a s IH]; simpl; [discriminate|].
  destruct (Py.isspace a) eqn:A; [exact IH|]. now intros [= <- _].
Qed.

Lemma lstrip_blank (s : string) :
  Py.lstrip s = "" <-> forallb Py.isspace (list_ascii_of_string s) = true.
Proof.
  induction s as [|a s IH]; simpl; [tauto|].
  destruct (Py.isspace a); simpl; [exact IH|]. split; discriminate.
Qed.

Lemma rstrip_blank (s : string) :
  Py.rstrip s = "" <-> forallb Py.isspace (list_ascii_of_string s) = true.
Proof.
  induction s as [|a s IH]; simpl; [tauto|].
  destruct (Py.rstrip s) as [|b t].
  - destruct (Py.isspace a); simpl.
    + split; [intros _; now apply IH | reflexivity].
    + split; discriminate.
  - split; [discriminate|]. intros E. apply andb_true_iff in E as [_ E].
    apply IH in E. discriminate.
Qed.

(** A key is blank for [strip] exactly when it is made of white space. *)
Lemma strip_blank (s : string) :
  Py.strip s = "" <-> forallb Py.isspace (list_ascii_of_string s) = true.
Proof.
  unfold Py.strip. rewrite rstrip_blank. split.
  - intros E. apply lstrip_blank.
    destruct (Py.lstrip s) as [|c t] eqn:L; [reflexivity|].
    apply lstrip_head in L. simpl in E. rewrite L in E. discriminate.
  - intros E. apply lstrip_blank in E. now rewrite E.
Qed.

Section ConfigurationExtras.
Context `{Host} `{Shell}.
Import ManagerConfiguration.

Lemma ensure_dir_cases (p : string) (w : world) :
  ensure_dir p w
  = if bool_decide (is_Some (fs w !! p))
    then (Ok tt, w)
    else if bool_decide (is_Some (fs w !! parent p))
    then (Ok tt, mkWorld (<[p := ∅]> (fs w)) (net w))
    else (Raise FileNotFoundError, w).
Proof.
  unfold ensure_dir, bind, path_exists, mkdir, ret.
  destruct (bool_decide (is_Some (fs w !! p))) eqn:P; cbn [negb];
    [reflexivity|].
  now rewrite P.
Qed.

Lemma ensure_dir_refused (p : string) (w : world) :
  fs w !! p = None -> fs w !! parent p = None ->
  ensure_dir p w = (Raise FileNotFoundError, w).
Proof.
  intros P Q. rewrite ensure_dir_cases.
  rewrite !bool_decide_eq_false_2; [reflexivity | |];
    intros [? ?]; congruence.
Qed.

Lemma ensure_dir_spec (p : string) (w : world) :
  at_hand w p ->
  exists w',
    ensure_dir p w = (Ok tt, w')
    /\ net w' = net w
    /\ is_Some (fs w' !! p)
    /\ (forall q d, fs w !! q = Some d -> fs w' !! q = Some d)
    /\ (forall q, fs w !! q = None ->
                  fs w' !! q = if decide (q = p) then Some ∅ else None)
    /\ (is_Some (fs w !! p) -> w' = w).
Proof.
  intros A. rewrite ensure_dir_cases.
  destruct (fs w !! p) as [d|] eqn:P.
  - rewrite bool_decide_eq_true_2 by eauto. exists w.
    split; [reflexivity|]. split; [reflexivity|]. split; [rewrite P; eauto|].
    split; [auto|]. split; [|reflexivity].
    intros q Q. destruct (decide (q = p)) as [->|]; [congruence | exact Q].
  - rewrite bool_decide_eq_false_2 by (intros [? ?]; discriminate).
    destruct A as [A|A]; [rewrite P in A; destruct A; discriminate|].
    rewrite bool_decide_eq_true_2 by exact A.
    eexists. split; [reflexivity|]. cbn [fs net]. split; [reflexivity|].
    split; [rewrite lookup_insert_eq; eauto|]. split; [|split].
    + intros q d Q. rewrite lookup_insert_ne by congruence. exact Q.
    + intros q Q. destruct (decide (q = p)) as [->|Ne].
      * apply lookup_insert_eq.
      * rewrite lookup_insert_ne by congruence. exact Q.
    + intros [? ?]; discriminate.
Qed.

(** X11. [_validate_data] of a configuration: a key made of white space
    only (the empty key too) raises the ValueError and nothing is created.
    For any other key the two directories are made sure of, the records
    directory first, each by a [mkdir] that does not make parents. When the
    records directory is missing and so is its parent, FileNotFoundError is
    raised and nothing is created. When the records directory is there or
    can be made, but the media directory is missing, its parent is missing
    and is not the records directory, FileNotFoundError is raised after the
    records directory was made sure of. When both are there or can be made,
    the media directory also inside the records directory just made, it
    returns the configuration; afterwards both directories exist, a
    directory that existed holds what it held, a directory that did not
    exist is there, empty, only if it is one of the two, and no request
    was made; running it again changes nothing. *)
Theorem configuration_validate (self : t) (w : world) :
  (forallb Py.isspace (list_ascii_of_string (api_key self)) = true ->
   _validate_data self w = (Raise (ValueError "API key must not be blank"), w))
  /\ (forallb Py.isspace (list_ascii_of_string (api_key self)) = false ->
      (fs w !! apods_path self = None ->
       fs w !! parent (apods_path self) = None ->
       _validate_data self w = (Raise FileNotFoundError, w))
      /\ (at_hand w (apods_path self) ->
          fs w !! apods_media_path self = None ->
          fs w !! parent (apods_media_path self) = None ->
          parent (apods_media_path self) <> apods_path self ->
          exists w',
            _validate_data self w = (Raise FileNotFoundError, w')
            /\ net w' = net w
            /\ is_Some (fs w' !! apods_path self)
            /\ (forall q d, fs w !! q = Some d -> fs w' !! q = Some d)
            /\ (forall q, fs w !! q = None ->
                  fs w' !! q
                  = if decide (q = apods_path self) then Some ∅ else None))
      /\ (at_hand w (apods_path self) ->
          at_hand w (apods_media_path self)
          \/ parent (apods_media_path self) = apods_path self
          \/ apods_media_path self = apods_path self ->
          exists w',
            _validate_data self w = (Ok self, w')
            /\ net w' = net w
            /\ is_Some (fs w' !! apods_path self)
            /\ is_Some (fs w' !! apods_media_path self)
            /\ (forall q d, fs w !! q = Some d -> fs w' !! q = Some d)
            /\ (forall q, fs w !! q = None ->
                  fs w' !! q
                  = if decide (q = apods_path self \/ q = apods_media_path self)
                    then Some ∅ else None)
            /\ _validate_data self w' = (Ok self, w'))).
Proof.
  split.
  - intros B. apply strip_blank in B. unfold _validate_data. now rewrite B.
  - intros B.
    assert (K : String.eqb (Py.strip (api_key self)) "" = false).
    { apply String.eqb_neq. intros E. apply strip_blank in E. congruence. }
    unfold _validate_data. rewrite K. split; [|split].
    + intros P Q. unfold bind. now rewrite (ensure_dir_refused _ _ P Q).
    + intros A P Q Ne.
      destruct (ensure_dir_spec (apods_path self) w A)
        as (w1 & E1 & N1 & S1 & K1 & F1 & _).
      assert (P1 : fs w1 !! apods_media_path self = None).
      { rewrite (F1 _ P). apply decide_False. intros E. rewrite E in P, Q.
        destruct A as [[? A]|[? A]]; congruence. }
      assert (Q1 : fs w1 !! parent (apods_media_path self) = None).
      { rewrite (F1 _ Q). now apply decide_False. }
      exists w1. unfold bind. rewrite E1, (ensure_dir_refused _ _ P1 Q1). auto.
    + intros A A'.
      destruct (ensure_dir_spec (apods_path self) w A)
        as (w1 & E1 & N1 & S1 & K1 & F1 & _).
      assert (A1 : at_hand w1 (apods_media_path self)).
      { destruct A' as [[[d D]|[d D]]|[E|E]].
        - left. rewrite (K1 _ _ D). eauto.
        - right. rewrite (K1 _ _ D). eauto.
        - right. now rewrite E.
        - left. now rewrite E. }
      destruct (ensure_dir_spec (apods_media_path self) w1 A1)
        as (w2 & E2 & N2 & S2 & K2 & F2 & _).
      assert (S1' : is_Some (fs w2 !! apods_path self))
        by (destruct S1 as [d S1]; rewrite (K2 _ _ S1); eauto).
      exists w2.
      split; [unfold bind; now rewrite E1, E2|].
      split; [congruence|].
      split; [exact S1'|].
      split; [exact S2|]. split; [auto|]. split.
      * intros q Q. destruct (fs w1 !! q) as [d1|] eqn:Q1.
        -- rewrite (K2 _ _ Q1). rewrite (F1 q Q) in Q1.
           destruct (decide (q = apods_path self)); [|discriminate].
           rewrite decide_True by tauto. now symmetry.
        -- rewrite (F2 q Q1). rewrite (F1 q Q) in Q1.
           destruct (decide (q = apods_path self)); [discriminate|].
           destruct (decide (q = apods_media_path self)).
           ++ rewrite decide_True by tauto. reflexivity.
           ++ rewrite decide_False by tauto. reflexivity.
      * destruct (ensure_dir_spec (apods_path self) w2 (or_introl S1'))
          as (w3 & E3 & _ & _ & _ & _ & I3).
        rewrite (I3 S1') in E3.
        destruct (ensure_dir_spec (apods_media_path self) w2 (or_introl S2))
          as (w4 & E4 & _ & _ & _ & _ & I4).
        rewrite (I4 S2) in E4.
        unfold bind. now rewrite E3, E4.
Qed.

Lemma configuration_load_read (dir name : string) (w : world) (text : blob) :
  fs w !! dir ≫= (.!! name) = Some text ->
  load_from dir name w
  = match json_loads text with
    | None => (Raise JSONDecodeError, w)
    | Some data =>
        match py_in "api_key" data with
        | Raise e => (Raise e, w)
        | Ok has_key =>
            if negb has_key
            then (Raise (ValueError "does not contain required `api_key`"), w)
            else bind (lift (of_kwargs data)) _validate_data w
        end
    end.
Proof.
  intros F. unfold load_from, bind at 1, is_file. rewrite F.
  rewrite bool_decide_eq_true_2 by eauto. cbn [negb].
  unfold bind at 1, read_file. rewrite F.
  destruct (json_loads text) as [data|]; [|reflexivity].
  unfold bind at 1, lift at 1.
  destruct (py_in "api_key" data) as [has_key|e]; [|reflexivity].
  now destruct (negb has_key).
Qed.

(** X12. [load_from] of a configuration fails, and changes nothing,
    when the file is absent (FileNotFoundError), when its body is not JSON
    (JSONDecodeError), when the body is an object without the key
    [api_key] (ValueError), and when the body is an object with only the key
    [api_key], a string of white space (the ValueError of the blank key). *)
Theorem configuration_load_failures (dir name : string) (w : world) :
  (fs w !! dir ≫= (.!! name) = None ->
   load_from dir name w = (Raise FileNotFoundError, w))
  /\ (forall text,
        fs w !! dir ≫= (.!! name) = Some text ->
        (json_loads text = None ->
         load_from dir name w = (Raise JSONDecodeError, w))
        /\ (forall d,
              json_loads text = Some (JObj d) ->
              dict_has "api_key" d = false ->
              exists msg, load_from dir name w = (Raise (ValueError msg), w))
        /\ (forall key,
              json_loads text = Some (JObj [("api_key", JStr key)]) ->
              forallb Py.isspace (list_ascii_of_string key) = true ->
              load_from dir name w
              = (Raise (ValueError "API key must not be blank"), w))).
Proof.
  split.
  - intros F. unfold load_from, bind, is_file. rewrite F.
    rewrite bool_decide_eq_false_2 by (intros [? ?]; discriminate).
    reflexivity.
  - intros text F. rewrite (configuration_load_read _ _ _ _ F).
    split; [|split].
    + now intros ->.
    + intros d -> A. unfold py_in. rewrite A. simpl. eauto.
    + intros key -> B. apply strip_blank in B.
      unfold bind, lift, _validate_data. simpl. now rewrite B.
Qed.

Lemma config_asdict_of_kwargs (c : t) :
  of_kwargs (config_asdict c) = Ok c.
Proof. now destruct c. Qed.

(** X13. A configuration written as [asdict] writes it is read back:
    with a codec that reads back what it wrote, [load_from] of a file that
    holds the text of a configuration whose key is not blank does what
    [_validate_data] does for that configuration, its FileNotFoundError for
    a directory that cannot be made included. When the two directories are
    there or can be made, the media directory also inside the records
    directory, it returns that configuration; both directories then exist,
    and the file and the log of requests are as they were. *)
Theorem configuration_round_trip (c : t) (dir name : string) (w : world) :
  codec_round_trip ->
  forallb Py.isspace (list_ascii_of_string (api_key c)) = false ->
  fs w !! dir ≫= (.!! name) = Some (json_dumps (config_asdict c)) ->
  load_from dir name w = _validate_data c w
  /\ (at_hand w (apods_path c) ->
      at_hand w (apods_media_path c)
      \/ parent (apods_media_path c) = apods_path c
      \/ apods_media_path c = apods_path c ->
      exists w',
        load_from dir name w = (Ok c, w')
        /\ is_Some (fs w' !! apods_path c)
        /\ is_Some (fs w' !! apods_media_path c)
        /\ fs w' !! dir ≫= (.!! name) = Some (json_dumps (config_asdict c))
        /\ net w' = net w).
Proof.
  intros C B F.
  assert (L : load_from dir name w = _validate_data c w).
  { rewrite (configuration_load_read _ _ _ _ F), C.
    change (py_in "api_key" (config_asdict c)) with (Ok true). cbn [negb].
    unfold bind at 1, lift. now rewrite config_asdict_of_kwargs. }
  split; [exact L|]. intros A A'. rewrite L.
  assert (K : String.eqb (Py.strip (api_key c)) "" = false).
  { apply String.eqb_neq. intros E. apply strip_blank in E. congruence. }
  destruct (ensure_dir_spec (apods_path c) w A) as (w1 & E1 & N1 & S1 & K1 & _).
  assert (A1 : at_hand w1 (apods_media_path c)).
  { destruct A' as [[[d D]|[d D]]|[E|E]].
    - left. rewrite (K1 _ _ D). eauto.
    - right. rewrite (K1 _ _ D). eauto.
    - right. now rewrite E.
    - left. now rewrite E. }
  destruct (ensure_dir_spec (apods_media_path c) w1 A1)
    as (w2 & E2 & N2 & S2 & K2 & _).
  exists w2. split; [|split; [|split; [|split]]].
  - unfold _validate_data. rewrite K. unfold bind. now rewrite E1, E2.
  - destruct S1 as [d S1]. rewrite (K2 _ _ S1). eauto.
  - exact S2.
  - destruct (fs w !! dir) as [d|] eqn:D; [|discriminate]. simpl in F.
    rewrite (K2 _ _ (K1 _ _ D)). exact F.
  - congruence.
Qed.

End ConfigurationExtras.

(** ** Building and loading a record *)

Lemma first_unknown (fields : list string) (d : dict) (k : string) :
  In k (map fst d) -> ~ In k fields ->
  exists k' v,
    find (fun kv => negb (mem (fst kv) fields)) d = Some (k', v)
    /\ In k' (map fst d) /\ ~ In k' fields.
Proof.
  intros I N.
  destruct (find (fun kv => negb (mem (fst kv) fields)) d) as [[k' v]|] eqn:F.
  - apply find_some in F as [I' U]. exists k', v. split; [reflexivity|]. split.
    + apply in_map_iff. now exists (k', v).
    + intros I''. apply negb_true_iff in U. cbn [fst] in U.
      assert (T : mem k' fields = true)
        by (apply existsb_exists; exists k'; split;
            [exact I'' | apply String.eqb_refl]).
      congruence.
  - exfalso. apply in_map_iff in I as ((k0 & v) & E & I). simpl in E. subst k0.
    apply (find_none _ _ F) in I. apply negb_false_iff in I. cbn [fst] in I.
    apply existsb_exists in I as (x & Ix & Ex).
    apply String.eqb_eq in Ex as <-. now apply N.
Qed.

Lemma all_known (fields : list string) (d : dict) :
  (forall k, In k (map fst d) -> In k fields) ->
  find (fun kv => negb (mem (fst kv) fields)) d = None.
Proof.
  intros K. destruct (find _ d) as [[k v]|] eqn:F; [|reflexivity].
  apply find_some in F as [I U]. apply negb_true_iff in U. cbn [fst] in U.
  assert (T : mem k fields = true).
  { apply existsb_exists. exists k. split; [|apply String.eqb_refl].
    apply K, in_map_iff. now exists (k, v). }
  congruence.
Qed.

Lemma first_missing (required : list string) (d : dict) (k : string) :
  In k required -> dict_has k d = false ->
  exists k',
    find (fun k => negb (dict_has k d)) required = Some k'
    /\ In k' required /\ dict_has k' d = false.
Proof.
  intros I A. destruct (find _ required) as [k'|] eqn:F.
  - apply find_some in F as [I' U]. apply negb_true_iff in U. eauto.
  - apply (find_none _ _ F) in I. rewrite A in I. discriminate.
Qed.

Section RecordExtras.
Context `{Host}.
Import APOD.

(** X14. The keyword call of the record: a JSON value that is not an
    object is refused (not a mapping); an object with a key that is not one
    of the eleven fields is refused for such a key (unexpected keyword, or
    a second value for [self] when the key is [self]); an
    object with known keys only but without one of [date], [title],
    [explanation], [url], [media_type] is refused for such a field (missing
    argument). A record that is built has null for each optional field the
    object does not have. *)
Theorem record_keywords :
  (forall v, (forall d, v <> JObj d) ->
             of_kwargs v = Raise (TypeError NotAMapping))
  /\ (forall d k,
        In k (map fst d) -> ~ In k fields ->
        exists k',
          In k' (map fst d) /\ ~ In k' fields
          /\ of_kwargs (JObj d) = Raise (TypeError (refused_keyword k')))
  /\ (forall d k,
        (forall k', In k' (map fst d) -> In k' fields) ->
        In k required -> dict_has k d = false ->
        exists k',
          In k' required /\ dict_has k' d = false
          /\ of_kwargs (JObj d) = Raise (TypeError (MissingArgument k')))
  /\ (forall d r,
        of_kwargs (JObj d) = Ok r ->
        (dict_get "hdurl" d = None -> hdurl r = None)
        /\ (dict_get "concepts" d = None -> concepts r = None)
        /\ (dict_get "thumbnail_url" d = None -> thumbnail_url r = None)
        /\ (dict_get "copyright" d = None -> copyright r = None)
        /\ (dict_get "resources" d = None -> resources r = None)
        /\ (dict_get "service_version" d = None -> service_version r = None)).
Proof.
  split; [|split; [|split]].
  - intros v N. destruct v; try reflexivity. now destruct (N members).
  - intros d k I N. destruct (first_unknown fields d k I N) as (k' & v & F & I' & N').
    exists k'. split; [exact I'|]. split; [exact N'|].
    unfold of_kwargs, bind_kwargs. now rewrite F.
  - intros d k K I A. destruct (first_missing required d k I A) as (k' & F & I' & A').
    exists k'. split; [exact I'|]. split; [exact A'|].
    unfold of_kwargs, bind_kwargs. now rewrite (all_known _ _ K), F.
  - intros d r E. unfold of_kwargs in E.
    apply rbind_ok in E as (d' & B & E).
    assert (d' = d) as ->.
    { unfold bind_kwargs in B. destruct (find _ d) as [[? ?]|]; [discriminate|].
      destruct (find _ required); [discriminate|]. now injection B. }
    apply rbind_ok in E as (x1 & _ & E). apply rbind_ok in E as (x2 & _ & E).
    apply rbind_ok in E as (x3 & _ & E). apply rbind_ok in E as (x4 & _ & E).
    apply rbind_ok in E as (x5 & _ & E). apply rbind_ok in E as (x6 & E6 & E).
    apply rbind_ok in E as (x7 & E7 & E). apply rbind_ok in E as (x8 & E8 & E).
    apply rbind_ok in E as (x9 & E9 & E). apply rbind_ok in E as (x10 & E10 & E).
    apply rbind_ok in E as (x11 & E11 & E).
    apply post_init_ok in E as [-> _]. cbn.
    repeat split; intros N;
      match goal with
      | Ex : _ (_ (dict_get ?f d)) = Ok ?x |- ?x = None =>
          rewrite N in Ex; now injection Ex
      | _ => idtac
      end.
    all: try (rewrite N in E6; now injection E6).
    all: try (rewrite N in E7; now injection E7).
    all: try (rewrite N in E8; now injection E8).
    all: try (rewrite N in E9; now injection E9).
    all: try (rewrite N in E10; now injection E10).
    all: try (rewrite N in E11; now injection E11).
Qed.

(** [load_from] of the record reads and changes nothing. An absent file
    raises FileNotFoundError, a body that is not JSON raises
    JSONDecodeError, and a JSON body is handed to the constructor. *)
Lemma record_load_from (dir name : string) (w : world) :
  snd (load_from dir name w) = w
  /\ (fs w !! dir ≫= (.!! name) = None ->
      load_from dir name w = (Raise FileNotFoundError, w))
  /\ (forall text,
        fs w !! dir ≫= (.!! name) = Some text ->
        (json_loads text = None ->
         load_from dir name w = (Raise JSONDecodeError, w))
        /\ (forall v, json_loads text = Some v ->
                      load_from dir name w = (of_kwargs v, w))).
Proof.
  unfold load_from, bind, read_file, lift, loads. split; [|split].
  - now destruct (fs w !! dir ≫= lookup name).
  - now intros ->.
  - intros text ->. split; [now intros -> | now intros v ->].
Qed.

End RecordExtras.

(** ** Downloading media *)

Section MediaExtras.
Context `{Host}.
Import ManagerConfiguration.

(** X15. [save_media_for] for an image whose extension is defined,
    when the media directory exists and has no file [{date}.{extension}]:
    exactly one request is made, for the best address and without
    parameters. An exception of the network is passed on, and a status from
    400 to 599 raises HTTPError with that status; in both cases no file has
    changed. With any other status, below 400 or from 600 on, and a file
    name the host takes, the body of the answer is written to
    [{date}.{extension}] in the media directory, and no other file of that
    directory and no other directory has changed. *)
Theorem save_media_download (self : t) (apod : APOD.t) (w : world)
        (ext url : string) (dir : gmap string blob) :
  APOD.is_image apod = true ->
  APOD.media_extension apod = Ok ext ->
  APOD.best_url apod = Some url ->
  fs w !! apods_media_path self = Some dir ->
  dir !! (APOD.date apod ++ "." ++ ext) = None ->
  let file_name := APOD.date apod ++ "." ++ ext in
  net (snd (save_media_for self apod w)) = media_request url :: net w
  /\ (forall e, http_get (net w) (media_request url) = Raise e ->
        save_media_for self apod w
        = (Raise e, mkWorld (fs w) (media_request url :: net w)))
  /\ (forall rsp,
        http_get (net w) (media_request url) = Ok rsp ->
        ((400 <= status_code rsp < 600)%Z ->
         save_media_for self apod w
         = (Raise (HTTPError (status_code rsp)),
            mkWorld (fs w) (media_request url :: net w)))
        /\ ((status_code rsp < 400 \/ 600 <= status_code rsp)%Z ->
            valid_name file_name = true ->
            exists w',
              save_media_for self apod w = (Ok tt, w')
              /\ media_file self w' file_name = Some (content rsp)
              /\ (forall n, n <> file_name ->
                            media_file self w' n = media_file self w n)
              /\ (forall q, q <> apods_media_path self ->
                            fs w' !! q = fs w !! q))).
Proof.
  intros I X U P F file_name.
  rewrite (save_media_for_cases _ _ _ _ _ X P).
  rewrite bool_decide_eq_false_2 by (rewrite F; intros [? ?]; discriminate).
  fold file_name. rewrite I, U. cbn [negb]. split; [|split].
  - destruct (http_get _ _) as [rsp|e]; [|reflexivity].
    destruct (negb (ok rsp)); [reflexivity|].
    now destruct (valid_name file_name).
  - now intros e ->.
  - intros rsp ->. split.
    + intros B. now rewrite (ok_refused _ B).
    + intros B V. rewrite (ok_passed _ B), V. cbn [negb].
      eexists. split; [reflexivity|]. cbn [fs]. split; [|split].
      * rewrite lookup_insert_eq. simpl. apply lookup_insert_eq.
      * intros n Ne. rewrite lookup_insert_eq, P. simpl.
        now apply lookup_insert_ne.
      * intros q Ne. now apply lookup_insert_ne.
Qed.

End MediaExtras.

(** ** The commands *)

Lemma digit_dot : is_digit "."%char = false.
Proof. reflexivity. Qed.

Lemma dash_dot : Ascii.eqb "-"%char "."%char = false.
Proof. reflexivity. Qed.

Local Opaque Ascii.eqb is_digit.

(** A file name [{date}.json] begins like a date only if [date] does. *)
Lemma starts_with_date_json (d : string) :
  starts_with_date (d ++ ".json") = true -> starts_with_date d = true.
Proof.
  intros E. pose proof digit_dot. pose proof dash_dot.
  do 10 (destruct d as [|? d];
         [cbn in E; try discriminate;
          repeat (apply andb_prop in E; destruct E as [E ?]); congruence|]).
  exact E.
Qed.

Local Transparent Ascii.eqb is_digit.

Lemma date_of_listed (d : string) :
  re_match ManagerConfiguration.apod_file_name_pattern (d ++ ".json") = true ->
  re_match APOD.APOD_DATE_FORMAT_RE d = true.
Proof.
  intros E. rewrite date_pattern_prefix. apply starts_with_date_json.
  unfold re_match, ManagerConfiguration.apod_file_name_pattern in E.
  cbn [residuals] in E. rewrite residuals_date in E.
  now destruct (starts_with_date (d ++ ".json")).
Qed.

Section CommandExtras.
Context `{Host} `{Shell}.

Lemma printed_nil (c : console) : printed c [] = c.
Proof. destruct c. unfold printed. simpl. now rewrite app_nil_r. Qed.

Lemma printed_cons (c : console) (line : string) (lines : list string) :
  printed (printed c [line]) lines = printed c (line :: lines).
Proof. unfold printed. simpl. now rewrite <- app_assoc. Qed.

Lemma print_printed (text : string) (c : console) (w : world) :
  print text c w = (Done tt, printed c [text], w).
Proof. reflexivity. Qed.

Lemma print_each_printed (apods : list APOD.t) (c : console) (w : world) :
  print_each apods c w = (Done tt, printed c (map APOD.__str__ apods), w).
Proof.
  revert c. induction apods as [|r l IH]; intros c; simpl.
  - unfold cret. now rewrite printed_nil.
  - unfold cbind. rewrite print_printed, IH. now rewrite printed_cons.
Qed.

Lemma call_and_print_run (m : M fetched) (c : console) (w : world) :
  call_and_print (run m) c w
  = match m w with
    | (Ok f, w') => (Done tt, printed c (map APOD.__str__ (as_list f)), w')
    | (Raise e, w') => (Failed (Core e), c, w')
    end.
Proof.
  unfold call_and_print, cbind, run.
  destruct (m w) as [[f|e] w']; [apply print_each_printed | reflexivity].
Qed.

(** X16. [fetch] with one argument that has the form of a date never
    fetches it: the fetcher reads [argv[0]] when it is called, after the
    argument has been popped, and the command raises IndexError; nothing is
    requested, written or printed. So it is for [main] with the arguments
    [fetch] and a date, once the configuration has been loaded. *)
Theorem fetch_one_date (config : ManagerConfiguration.t) (a : string)
        (c : console) (w : world) :
  re_match APOD.APOD_DATE_FORMAT_RE a = true ->
  (argv c = [a] ->
   fetch config c w = (Failed IndexError, set_argv c [], w))
  /\ (forall prog w1,
        argv c = [prog; "fetch"; a] ->
        is_Some (fs w !! default_apods_dir ≫= (.!! "apodmgr.cfg.json")) ->
        ManagerConfiguration.load_from default_apods_dir "apodmgr.cfg.json" w
        = (Ok config, w1) ->
        main c w = (Failed IndexError, set_argv c [], w1)).
Proof.
  intros D. split.
  - intros A. unfold fetch. rewrite A, D.
    unfold cbind, argv_pop0. rewrite A. reflexivity.
  - intros prog w1 A F L. unfold main, cbind at 1, argv_pop0 at 1. rewrite A.
    cbn [argv]. unfold cbind at 1, argv_pop0 at 1. cbn [argv String.eqb].
    cbn [Ascii.eqb Bool.eqb andb].
    unfold default_manager_configuration_path.
    unfold cbind at 1, run at 1, is_file. rewrite bool_decide_eq_true_2 by exact F.
    cbn [negb]. unfold cbind at 1, run at 1. rewrite L.
    cbn [String.eqb Ascii.eqb Bool.eqb andb].
    unfold fetch. cbn [argv]. rewrite D. reflexivity.
Qed.

Lemma fetcher_range_at (config : ManagerConfiguration.t) (d1 d2 : string)
      (more : list string) (c : console) (w : world) :
  argv c = d1 :: d2 :: more ->
  fetcher_range config c w
  = match ManagerConfiguration.fetch_range config
            (Some (DStr d1)) (Some (DStr d2)) w with
    | (Ok rs, w') => (Done (Many rs), c, w')
    | (Raise e, w') => (Failed (Core e), c, w')
    end.
Proof.
  intros A. unfold fetcher_range, cbind, argv_get, run, cret. rewrite A.
  cbn [nth_error]. rewrite A.
  now destruct (ManagerConfiguration.fetch_range config _ _ w) as [[rs|e] w'].
Qed.

(** X17. [fetch] with two arguments of the form of a date does not
    fetch their range: the fetcher reads [argv[0]] and [argv[1]] after the
    two have been popped. With fewer than two further arguments it raises
    IndexError and nothing is requested, written or printed; with a third
    and a fourth argument it is the range from the third to the fourth that
    the archive is asked for, and the records it returns are printed, one
    line each. *)
Theorem fetch_two_dates (config : ManagerConfiguration.t) (a b : string)
        (rest : list string) (c : console) (w : world) :
  argv c = a :: b :: rest ->
  re_match APOD.APOD_DATE_FORMAT_RE a = true ->
  re_match APOD.APOD_DATE_FORMAT_RE b = true ->
  ((length rest < 2)%nat ->
   fetch config c w = (Failed IndexError, set_argv c rest, w))
  /\ (forall d1 d2 more,
        rest = d1 :: d2 :: more ->
        (forall rs w',
            ManagerConfiguration.fetch_range config (Some (DStr d1)) (Some (DStr d2)) w
            = (Ok rs, w') ->
            fetch config c w
            = (Done tt, printed (set_argv c rest) (map APOD.__str__ rs), w'))
        /\ (forall e w',
              ManagerConfiguration.fetch_range config (Some (DStr d1)) (Some (DStr d2)) w
              = (Raise e, w') ->
              fetch config c w = (Failed (Core e), set_argv c rest, w'))).
Proof.
  intros A Da Db.
  assert (E : fetch config c w
              = call_and_print (fetcher_range config) (set_argv c rest) w).
  { unfold fetch. rewrite A, Da, Db. cbn [andb].
    unfold cbind at 1, argv_pop0 at 1. rewrite A.
    unfold cbind at 1, argv_pop0 at 1. reflexivity. }
  rewrite E. split.
  - intros L. unfold call_and_print, fetcher_range, cbind, argv_get.
    destruct rest as [|d1 [|d2 more]]; [reflexivity | reflexivity |].
    simpl in L. lia.
  - intros d1 d2 more ->. split.
    + intros rs w' R. unfold call_and_print, cbind at 1.
      rewrite (fetcher_range_at config d1 d2 more) by reflexivity.
      rewrite R. cbn [as_list]. apply print_each_printed.
    + intros e w' R. unfold call_and_print, cbind at 1.
      rewrite (fetcher_range_at config d1 d2 more) by reflexivity.
      now rewrite R.
Qed.

(** X18. [fetch] with one argument that has not the form of a date:
    when [int] reads it as a count, the archive's [fetch_random] is called
    with that count; when [int] refuses it and it is [today], the archive's
    [fetch_single] is called without a date. In both cases the argument is
    consumed, the records returned are printed, one line each, and an
    exception of the archive is passed on with nothing printed. *)
Theorem fetch_count_or_today (config : ManagerConfiguration.t) (a : string)
        (c : console) (w : world) :
  argv c = [a] ->
  re_match APOD.APOD_DATE_FORMAT_RE a = false ->
  (forall count,
      int_of_str a = Some count ->
      (forall rs w',
          ManagerConfiguration.fetch_random config count w = (Ok rs, w') ->
          fetch config c w
          = (Done tt, printed (set_argv c []) (map APOD.__str__ rs), w'))
      /\ (forall e w',
            ManagerConfiguration.fetch_random config count w = (Raise e, w') ->
            fetch config c w = (Failed (Core e), set_argv c [], w')))
  /\ (int_of_str a = None ->
      a = "today" ->
      (forall r w',
          ManagerConfiguration.fetch_single config None w = (Ok r, w') ->
          fetch config c w
          = (Done tt, printed (set_argv c []) [APOD.__str__ r], w'))
      /\ (forall e w',
            ManagerConfiguration.fetch_single config None w = (Raise e, w') ->
            fetch config c w = (Failed (Core e), set_argv c [], w'))).
Proof.
  intros A D. split.
  - intros count I.
    assert (E : fetch config c w
                = call_and_print (fetcher_random config count) (set_argv c []) w).
    { unfold fetch, int_or_none. rewrite A, D, I.
      unfold cbind at 1, argv_pop0 at 1. now rewrite A. }
    rewrite E. unfold call_and_print, fetcher_random, cbind, run, cret. split.
    + intros rs w' ->. cbn [as_list]. apply print_each_printed.
    + intros e w' ->. reflexivity.
  - intros I ->.
    assert (E : fetch config c w
                = call_and_print (fetcher_today config) (set_argv c []) w).
    { unfold fetch, int_or_none. rewrite A, D, I. cbn [String.eqb].
      cbn [Ascii.eqb Bool.eqb andb].
      unfold cbind at 1, argv_pop0 at 1. now rewrite A. }
    rewrite E. unfold call_and_print, fetcher_today, cbind, run, cret. split.
    + intros r w' ->. cbn [as_list]. apply (print_each_printed [r]).
    + intros e w' ->. reflexivity.
Qed.

(** X19. [fetch] prints its help text, and does nothing else (no
    argument is consumed, nothing is requested or written), when there is no
    argument; when the one argument is neither of the form of a date, nor
    read by [int], nor [today]; and when there are two arguments or more
    and the first two are not both of the form of a date. *)
Theorem fetch_help (config : ManagerConfiguration.t) (c : console) (w : world) :
  (argv c = []
   \/ (exists a, argv c = [a]
                 /\ re_match APOD.APOD_DATE_FORMAT_RE a = false
                 /\ int_of_str a = None
                 /\ a <> "today")
   \/ (exists a b rest, argv c = a :: b :: rest
                        /\ re_match APOD.APOD_DATE_FORMAT_RE a
                           && re_match APOD.APOD_DATE_FORMAT_RE b = false)) ->
  fetch config c w = (Done tt, printed c [FETCH_HELP_MSG], w).
Proof.
  intros [A|[(a & A & D & I & T)|(a & b & rest & A & D)]]; unfold fetch.
  - now rewrite A.
  - unfold int_or_none. rewrite A, D, I.
    now rewrite (proj2 (String.eqb_neq _ _) T).
  - now rewrite A, D.
Qed.

Lemma print_files_step (config : ManagerConfiguration.t) (n : string)
      (names : list string) (c : console) (w : world) :
  print_files config (n :: names) c w
  = match APOD.load_from (ManagerConfiguration.apods_path config) n w with
    | (Ok r, w') => print_files config names (printed c [APOD.__str__ r]) w'
    | (Raise e, w') => (Failed (Core e), c, w')
    end.
Proof.
  cbn [print_files]. unfold cbind, run.
  now destruct (APOD.load_from _ n w) as [[r|e] w'].
Qed.

Lemma load_from_world (dir name : string) (w : world) :
  snd (APOD.load_from dir name w) = w.
Proof.
  unfold APOD.load_from, bind, read_file, lift.
  now destruct (fs w !! dir ≫= (.!! name)).
Qed.

Lemma print_files_world (config : ManagerConfiguration.t) (names : list string)
      (c : console) (w : world) :
  snd (print_files config names c w) = w
  /\ exists lines, snd (fst (print_files config names c w)) = printed c lines.
Proof.
  revert c. induction names as [|n names IH]; intros c.
  - split; [reflexivity|]. exists []. simpl. now rewrite printed_nil.
  - rewrite print_files_step.
    pose proof (load_from_world (ManagerConfiguration.apods_path config) n w) as W.
    destruct (APOD.load_from _ n w) as [[r|e] w']; simpl in W; subst w'.
    + destruct (IH (printed c [APOD.__str__ r])) as [W (lines & P)].
      split; [exact W|]. exists (APOD.__str__ r :: lines).
      now rewrite P, printed_cons.
    + split; [reflexivity|]. exists []. simpl. now rewrite printed_nil.
Qed.

Lemma print_files_loaded (config : ManagerConfiguration.t) (names : list string)
      (rs : list APOD.t) (c : console) (w : world) :
  Forall2 (fun n r =>
             APOD.load_from (ManagerConfiguration.apods_path config) n w = (Ok r, w))
          names rs ->
  print_files config names c w = (Done tt, printed c (map APOD.__str__ rs), w).
Proof.
  intros F. revert c. induction F as [|n r names rs L F IH]; intros c.
  - simpl. unfold cret. now rewrite printed_nil.
  - rewrite print_files_step, L, IH. now rewrite printed_cons.
Qed.

(** X20. [list_apods] only reads and prints: whatever it does, no file
    has changed, no request was made, the arguments are as they were and
    what was printed before is still there. When the records directory
    exists and each file that [stored_apods] lists loads as a record, it
    prints the line [{date} - {media_type} - {title}] of each, in the order
    of the listing, and returns. *)
Theorem list_apods_prints (config : ManagerConfiguration.t) (c : console)
        (w : world) :
  snd (list_apods config c w) = w
  /\ (exists lines, snd (fst (list_apods config c w)) = printed c lines)
  /\ (forall names rs,
        ManagerConfiguration.stored_apods config w = (Ok names, w) ->
        Forall2 (fun n r =>
                   APOD.load_from (ManagerConfiguration.apods_path config) n w
                   = (Ok r, w))
                names rs ->
        list_apods config c w
        = (Done tt, printed c (map APOD.__str__ rs), w)).
Proof.
  unfold list_apods, cbind, run.
  assert (W : snd (ManagerConfiguration.stored_apods config w) = w).
  { unfold ManagerConfiguration.stored_apods, bind, listdir, ret.
    now destruct (fs w !! ManagerConfiguration.apods_path config). }
  split; [|split].
  - destruct (ManagerConfiguration.stored_apods config w) as [[names|e] w0];
      simpl in W; subst w0; [|reflexivity].
    apply print_files_world.
  - destruct (ManagerConfiguration.stored_apods config w) as [[names|e] w0];
      simpl in W; subst w0.
    + apply print_files_world.
    + exists []. simpl. now rewrite printed_nil.
  - intros names rs -> F. now apply print_files_loaded.
Qed.

Lemma archive_hit (self : ManagerConfiguration.t) (date : string) (w : world)
      (dir : gmap string blob) (text : blob) :
  re_match APOD.APOD_DATE_FORMAT_RE date = true ->
  fs w !! ManagerConfiguration.apods_path self = Some dir ->
  dir !! (date ++ ".json") = Some text ->
  ManagerConfiguration.fetch_single self (Some (DStr date)) w
  = (APOD.loads text, w).
Proof.
  intros D P F. unfold ManagerConfiguration.fetch_single, bind at 1.
  rewrite (stored_apod_file_listed self (DStr date) _ _ D P).
  cbn [APOD.date_text]. rewrite bool_decide_eq_true_2 by eauto.
  unfold bind. now rewrite (read_file_some _ _ _ _ _ P F).
Qed.

Lemma stored_apods_names (self : ManagerConfiguration.t) (w : world)
      (dir : gmap string blob) (n : string) :
  fs w !! ManagerConfiguration.apods_path self = Some dir ->
  exists names,
    ManagerConfiguration.stored_apods self w = (Ok names, w)
    /\ mem n names
       = bool_decide (is_Some (dir !! n))
         && re_match ManagerConfiguration.apod_file_name_pattern n.
Proof.
  intros P. destruct (stored_apods_listing self w dir P) as (names & E & _ & I).
  exists names. split; [exact E|]. apply eq_true_iff_eq.
  unfold mem. rewrite existsb_exists, andb_true_iff, bool_decide_eq_true. split.
  - intros (x & Ix & Ex). apply String.eqb_eq in Ex as <-.
    now apply I, list_elem_of_In.
  - intros J. exists n. split; [|apply String.eqb_refl].
    now apply list_elem_of_In, I.
Qed.

Lemma save_media_for_world (self : ManagerConfiguration.t) (apod : APOD.t)
      (w : world) :
  (net (snd (ManagerConfiguration.save_media_for self apod w)) = net w
   \/ exists url,
       net (snd (ManagerConfiguration.save_media_for self apod w))
       = ManagerConfiguration.media_request url :: net w)
  /\ forall q, q <> ManagerConfiguration.apods_media_path self ->
               fs (snd (ManagerConfiguration.save_media_for self apod w)) !! q
               = fs w !! q.
Proof.
  destruct (APOD.media_extension apod) as [ext|e] eqn:X.
  - destruct (fs w !! ManagerConfiguration.apods_media_path self) as [dir|] eqn:P.
    + rewrite (save_media_for_cases _ _ _ _ _ X P).
      destruct (bool_decide _); [simpl; auto|].
      destruct (negb (APOD.is_image apod)); [simpl; auto|].
      destruct (APOD.best_url apod) as [url|]; [|simpl; auto].
      destruct (http_get _ _) as [rsp|e]; [|simpl; eauto].
      destruct (negb (ok rsp)); [simpl; eauto|].
      destruct (valid_name _); [|simpl; eauto].
      cbn [snd fs net]. split; [eauto|].
      intros q Q. now apply lookup_insert_ne.
    + unfold ManagerConfiguration.save_media_for, bind at 1, lift. rewrite X.
      unfold bind, listdir. rewrite P. simpl. auto.
  - unfold ManagerConfiguration.save_media_for, bind, lift. rewrite X. simpl. auto.
Qed.

Lemma download_media_step (config : ManagerConfiguration.t) (date : string)
      (rest : list string) (c : console) (w : world) (dir : gmap string blob) :
  argv c = date :: rest ->
  fs w !! ManagerConfiguration.apods_path config = Some dir ->
  download_media config c w
  = if negb (bool_decide (is_Some (dir !! (today_or date ++ ".json")))
             && re_match ManagerConfiguration.apod_file_name_pattern
                         (today_or date ++ ".json"))
    then (Done tt,
          printed (set_argv c rest) ["Haven't fetched " ++ today_or date ++ " yet..."],
          w)
    else
      match ManagerConfiguration.fetch_single config
              (Some (DStr (today_or date))) w with
      | (Raise e, w1) => (Failed (Core e), set_argv c rest, w1)
      | (Ok apod, w1) =>
          match ManagerConfiguration.save_media_for config apod w1 with
          | (Raise e, w2) => (Failed (Core e), set_argv c rest, w2)
          | (Ok _, w2) =>
              match APOD.media_extension apod with
              | Raise e => (Failed (Core e), set_argv c rest, w2)
              | Ok extension =>
                  (Done tt,
                   printed (set_argv c rest)
                     [path_text (ManagerConfiguration.apods_media_path config)
                                (APOD.date apod ++ "." ++ extension)],
                   w2)
              end
          end
      end.
Proof.
  intros A P.
  destruct (stored_apods_names config w dir (today_or date ++ ".json") P)
    as (names & E & Mem).
  unfold download_media. rewrite A. unfold cbind at 1, argv_pop0 at 1. rewrite A.
  unfold cbind at 1, run at 1. rewrite E, Mem.
  destruct (negb _); [reflexivity|].
  unfold cbind at 1, run at 1.
  destruct (ManagerConfiguration.fetch_single config _ w) as [[apod|e] w1];
    [|reflexivity].
  unfold cbind at 1, run at 1.
  destruct (ManagerConfiguration.save_media_for config apod w1) as [[[]|e] w2];
    [|reflexivity].
  unfold cbind, run, lift.
  now destruct (APOD.media_extension apod).
Qed.

Lemma download_media_no_directory (config : ManagerConfiguration.t)
      (date : string) (rest : list string) (c : console) (w : world) :
  argv c = date :: rest ->
  fs w !! ManagerConfiguration.apods_path config = None ->
  download_media config c w
  = (Failed (Core FileNotFoundError), set_argv c rest, w).
Proof.
  intros A P.
  assert (E : ManagerConfiguration.stored_apods config w
              = (Raise FileNotFoundError, w)).
  { unfold ManagerConfiguration.stored_apods, bind, listdir. now rewrite P. }
  unfold download_media. rewrite A.
  unfold cbind at 1, argv_pop0 at 1. rewrite A.
  unfold cbind at 1, run at 1. now rewrite E.
Qed.

(** X21. [download_media] for a date whose record is not listed in the
    records directory (no file [{date}.json], or a file of that name that
    has not the pattern of a record file) prints that the date has not been
    fetched and does nothing else; [today] stands for the date of now. For a
    date that is listed, the record is the one the file holds, read without
    a request: when the file does not load, its exception is passed on and
    nothing else happens. *)
Theorem download_media_cached_only (config : ManagerConfiguration.t)
        (date : string) (rest : list string) (c : console) (w : world)
        (dir : gmap string blob) :
  argv c = date :: rest ->
  fs w !! ManagerConfiguration.apods_path config = Some dir ->
  let file_name := today_or date ++ ".json" in
  ((dir !! file_name = None
    \/ re_match ManagerConfiguration.apod_file_name_pattern file_name = false) ->
   download_media config c w
   = (Done tt,
      printed (set_argv c rest) ["Haven't fetched " ++ today_or date ++ " yet..."],
      w))
  /\ (forall text,
        dir !! file_name = Some text ->
        re_match ManagerConfiguration.apod_file_name_pattern file_name = true ->
        ManagerConfiguration.fetch_single config (Some (DStr (today_or date))) w
        = (APOD.loads text, w)
        /\ (forall e, APOD.loads text = Raise e ->
                      download_media config c w
                      = (Failed (Core e), set_argv c rest, w))).
Proof.
  intros A P file_name. rewrite (download_media_step _ _ _ _ _ _ A P).
  fold file_name. split.
  - intros [F|R].
    + rewrite bool_decide_eq_false_2 by (rewrite F; intros [? ?]; discriminate).
      reflexivity.
    + rewrite R, andb_false_r. reflexivity.
  - intros text F R.
    assert (Hit : ManagerConfiguration.fetch_single config
                    (Some (DStr (today_or date))) w = (APOD.loads text, w))
      by (apply (archive_hit _ _ _ dir); [now apply date_of_listed | exact P | exact F]).
    split; [exact Hit|]. intros e L.
    rewrite bool_decide_eq_true_2 by (rewrite F; eauto).
    rewrite R, Hit, L. reflexivity.
Qed.

(** X22. Whatever [download_media] does, it never asks the API and
    never writes outside the media directory: it makes no request, or one
    request, the download of a media address without parameters, and every
    directory other than the media directory is as it was. *)
Theorem download_media_no_api (config : ManagerConfiguration.t) (c : console)
        (w : world) :
  (net (snd (download_media config c w)) = net w
   \/ exists url,
       net (snd (download_media config c w))
       = ManagerConfiguration.media_request url :: net w)
  /\ forall q, q <> ManagerConfiguration.apods_media_path config ->
               fs (snd (download_media config c w)) !! q = fs w !! q.
Proof.
  destruct (argv c) as [|date rest] eqn:A.
  - assert (E : download_media config c w
                = (Done tt, printed c [DOWNLOAD_MEDIA_HELP_MSG], w))
      by (unfold download_media; now rewrite A).
    rewrite E. simpl. auto.
  - destruct (fs w !! ManagerConfiguration.apods_path config) as [dir|] eqn:P.
    + rewrite (download_media_step _ _ _ _ _ _ A P).
      destruct (bool_decide (is_Some (dir !! (today_or date ++ ".json")))) eqn:F;
        [|simpl; auto].
      destruct (re_match ManagerConfiguration.apod_file_name_pattern
                         (today_or date ++ ".json")) eqn:R; [|simpl; auto].
      cbn [andb negb]. apply bool_decide_eq_true in F as [text F].
      rewrite (archive_hit config (today_or date) w dir text
                 (date_of_listed _ R) P F).
      destruct (APOD.loads text) as [apod|e]; [|simpl; auto].
      pose proof (save_media_for_world config apod w) as S.
      destruct (ManagerConfiguration.save_media_for config apod w)
        as [[[]|e] w2]; [|exact S].
      now destruct (APOD.media_extension apod).
    + rewrite (download_media_no_directory _ _ _ _ _ A P). simpl. auto.
Qed.

(** X23. [set_background] never sets a background and changes no file:
    whatever it does, the desktop, the files and the log of requests are as
    they were. With a date of the right form whose record file is in the
    records directory it raises AttributeError, the configuration having no
    [path_for_media], and prints nothing; with no such file it prints that
    the date has not been fetched; with a date of another form it raises the
    ValueError of the date. *)
Theorem set_background_never_sets (config : ManagerConfiguration.t)
        (c : console) (w : world) :
  desktop (snd (fst (set_background config c w))) = desktop c
  /\ snd (set_background config c w) = w
  /\ (forall date rest,
        argv c = date :: rest ->
        (re_match APOD.APOD_DATE_FORMAT_RE (today_or date) = false ->
         set_background config c w
         = (Failed (Core (ValueError (APOD.format_message "date"))),
            set_argv c rest, w))
        /\ (forall dir,
              re_match APOD.APOD_DATE_FORMAT_RE (today_or date) = true ->
              fs w !! ManagerConfiguration.apods_path config = Some dir ->
              (is_Some (dir !! (today_or date ++ ".json")) ->
               set_background config c w
               = (Failed (Core AttributeError), set_argv c rest, w))
              /\ (dir !! (today_or date ++ ".json") = None ->
                  set_background config c w
                  = (Done tt,
                     printed (set_argv c rest)
                       ["Haven't fetched " ++ today_or date ++ " yet..."],
                     w)))).
Proof.
  assert (E : forall date rest,
             argv c = date :: rest ->
             set_background config c w
             = match ManagerConfiguration.stored_apod_file config
                       (DStr (today_or date)) w with
               | (Ok None, w') =>
                   (Done tt,
                    printed (set_argv c rest)
                      ["Haven't fetched " ++ today_or date ++ " yet..."], w')
               | (Ok (Some _), w') => (Failed (Core AttributeError), set_argv c rest, w')
               | (Raise e, w') => (Failed (Core e), set_argv c rest, w')
               end).
  { intros date rest A. unfold set_background. rewrite A.
    unfold cbind at 1, argv_pop0 at 1. rewrite A. unfold cbind, run.
    now destruct (ManagerConfiguration.stored_apod_file config _ w)
      as [[[n|]|e] w']. }
  split; [|split].
  - destruct (argv c) as [|date rest] eqn:A.
    + unfold set_background. now rewrite A.
    + rewrite (E _ _ eq_refl).
      now destruct (ManagerConfiguration.stored_apod_file config _ w)
        as [[[n|]|e] w'].
  - destruct (argv c) as [|date rest] eqn:A.
    + unfold set_background. now rewrite A.
    + rewrite (E _ _ eq_refl).
      pose proof (stored_apod_file_world config (DStr (today_or date)) w) as W.
      now destruct (ManagerConfiguration.stored_apod_file config _ w)
        as [[[n|]|e] w'].
  - intros date rest A. rewrite (E _ _ A). split.
    + intros D. unfold ManagerConfiguration.stored_apod_file.
      cbn [APOD.date_text]. now rewrite D.
    + intros dir D P.
      rewrite (stored_apod_file_listed config (DStr (today_or date)) _ _ D P).
      cbn [APOD.date_text]. split.
      * intros F. now rewrite bool_decide_eq_true_2.
      * intros F. rewrite bool_decide_eq_false_2; [reflexivity|].
        rewrite F. intros [? ?]; discriminate.
Qed.

(** The text [mkcfg] writes, and the file it writes it to. *)
Local Abbreviation blank_text := (json_dumps (config_asdict blank_configuration)).
Local Abbreviation config_file w :=
  (fs w !! default_apods_dir ≫= (.!! "apodmgr.cfg.json")).

Lemma mkcfg_create_step (c : console) (w : world) :
  valid_name "apodmgr.cfg.json" = true ->
  at_hand w default_apods_dir ->
  (let! parent_exists := run (path_exists default_apods_dir) in
   (if negb parent_exists then run (mkdir default_apods_dir) else cret tt);;
   run (write_file default_apods_dir "apodmgr.cfg.json" blank_text);;
   print ("Configuration created in "
          ++ path_text default_apods_dir "apodmgr.cfg.json"))%cmd c w
  = (Done tt,
     printed c ["Configuration created in "
                ++ path_text default_apods_dir "apodmgr.cfg.json"],
     mkWorld (<[default_apods_dir :=
                 <["apodmgr.cfg.json" := blank_text]>
                   (default ∅ (fs w !! default_apods_dir))]> (fs w))
             (net w)).
Proof.
  intros V A. unfold cbind, run, path_exists, mkdir, cret, write_file.
  destruct (fs w !! default_apods_dir) as [d|] eqn:P.
  - rewrite bool_decide_eq_true_2 by eauto. cbn [negb fst snd].
    now rewrite P, V.
  - destruct A as [A|A]; [rewrite P in A; destruct A; discriminate|].
    rewrite (bool_decide_eq_false_2 (is_Some (None : option (gmap string blob))))
      by (intros [? ?]; discriminate).
    cbn [negb fst snd]. rewrite P.
    rewrite (bool_decide_eq_false_2 (is_Some (None : option (gmap string blob))))
      by (intros [? ?]; discriminate).
    rewrite (bool_decide_eq_true_2 _ A).
    cbn [fst snd fs net]. rewrite lookup_insert_eq, V. cbn [default].
    now rewrite insert_insert_eq.
Qed.

Lemma mkcfg_create_refused (c : console) (w : world) :
  fs w !! default_apods_dir = None ->
  fs w !! parent default_apods_dir = None ->
  (let! parent_exists := run (path_exists default_apods_dir) in
   (if negb parent_exists then run (mkdir default_apods_dir) else cret tt);;
   run (write_file default_apods_dir "apodmgr.cfg.json" blank_text);;
   print ("Configuration created in "
          ++ path_text default_apods_dir "apodmgr.cfg.json"))%cmd c w
  = (Failed (Core FileNotFoundError), c, w).
Proof.
  intros P Q. unfold cbind, run, path_exists, mkdir.
  assert (P' : ~ is_Some (fs w !! default_apods_dir))
    by (intros [? ?]; congruence).
  assert (Q' : ~ is_Some (fs w !! parent default_apods_dir))
    by (intros [? ?]; congruence).
  rewrite (bool_decide_eq_false_2 _ P'). cbn [negb fst snd].
  now rewrite (bool_decide_eq_false_2 _ P'), (bool_decide_eq_false_2 _ Q').
Qed.

Lemma blank_rejected (w : world) :
  codec_round_trip ->
  config_file w = Some blank_text ->
  ManagerConfiguration.load_from default_apods_dir "apodmgr.cfg.json" w
  = (Raise (ValueError "API key must not be blank"), w).
Proof.
  intros C F. rewrite (configuration_load_read _ _ _ _ F), C.
  change (py_in "api_key" (config_asdict blank_configuration)) with (Ok true).
  cbn [negb]. unfold bind, lift. now rewrite config_asdict_of_kwargs.
Qed.

(** X24. [mkcfg], when there is no configuration file and the host
    takes its name. When its directory is missing and the parent of the
    directory is missing too, the [mkdir] raises FileNotFoundError: nothing
    is created and nothing is printed. When the directory is there, or its
    parent is, the file is created (and its directory, if missing), nothing
    else in that directory changes, no request is made and one line is
    printed. The file holds a configuration with an empty key: with a codec
    that reads back what it wrote, [load_from] of the file [mkcfg] has just
    written raises the ValueError of the blank key. *)
Theorem mkcfg_writes_blank_key (c : console) (w : world) :
  codec_round_trip ->
  valid_name "apodmgr.cfg.json" = true ->
  config_file w = None ->
  (fs w !! default_apods_dir = None ->
   fs w !! parent default_apods_dir = None ->
   mkcfg c w = (Failed (Core FileNotFoundError), c, w))
  /\ (at_hand w default_apods_dir ->
      exists w',
        mkcfg c w
        = (Done tt,
           printed c ["Configuration created in "
                      ++ path_text default_apods_dir "apodmgr.cfg.json"],
           w')
        /\ config_file w' = Some blank_text
        /\ (forall n, n <> "apodmgr.cfg.json" ->
                      fs w' !! default_apods_dir ≫= (.!! n)
                      = fs w !! default_apods_dir ≫= (.!! n))
        /\ (forall q, q <> default_apods_dir -> fs w' !! q = fs w !! q)
        /\ net w' = net w
        /\ ManagerConfiguration.load_from default_apods_dir "apodmgr.cfg.json" w'
           = (Raise (ValueError "API key must not be blank"), w')).
Proof.
  intros C V F.
  assert (E : mkcfg c w
              = (let! parent_exists := run (path_exists default_apods_dir) in
                 (if negb parent_exists then run (mkdir default_apods_dir)
                  else cret tt);;
                 run (write_file default_apods_dir "apodmgr.cfg.json" blank_text);;
                 print ("Configuration created in "
                        ++ path_text default_apods_dir "apodmgr.cfg.json"))%cmd
                  c w).
  { unfold mkcfg, default_manager_configuration_path.
    unfold cbind at 1, run at 1, is_file. rewrite F.
    now rewrite bool_decide_eq_false_2 by (intros [? ?]; discriminate). }
  rewrite E. split.
  - apply mkcfg_create_refused.
  - intros A. eexists. split; [apply (mkcfg_create_step c w V A)|].
    assert (Fw : fs (mkWorld (<[default_apods_dir :=
                                 <["apodmgr.cfg.json" := blank_text]>
                                   (default ∅ (fs w !! default_apods_dir))]> (fs w))
                             (net w)) !! default_apods_dir
                 ≫= (.!! "apodmgr.cfg.json") = Some blank_text).
    { cbn [fs]. rewrite lookup_insert_eq. simpl. apply lookup_insert_eq. }
    split; [exact Fw|]. split; [|split; [|split]].
    + intros n Ne. cbn [fs]. rewrite lookup_insert_eq. simpl.
      rewrite lookup_insert_ne by congruence.
      now destruct (fs w !! default_apods_dir).
    + intros q Ne. cbn [fs]. now apply lookup_insert_ne.
    + reflexivity.
    + now apply blank_rejected.
Qed.

(** X25. [mkcfg], when the configuration file exists, asks before it
    overwrites: at the end of the input it raises EOFError; with any answer
    other than [Y] it returns and no file has changed; with the answer [Y]
    the file is replaced by the configuration with the empty key, whatever
    key it held. In each case the question has been written and the answer
    consumed. *)
Theorem mkcfg_asks_before_overwriting (c : console) (w : world) (text : blob) :
  config_file w = Some text ->
  let question :=
    "Configuration " ++ path_text default_apods_dir "apodmgr.cfg.json"
                     ++ " already exists, overwrite? (Y/n)" in
  let asked rest := mkConsole (argv c) (stdout c ++ [question]) rest (desktop c) in
  (stdin c = [] -> mkcfg c w = (Failed EOFError, asked [], w))
  /\ (forall answer rest,
        stdin c = answer :: rest ->
        answer <> "Y" ->
        mkcfg c w = (Done tt, asked rest, w))
  /\ (forall rest,
        stdin c = "Y" :: rest ->
        valid_name "apodmgr.cfg.json" = true ->
        exists w',
          mkcfg c w
          = (Done tt,
             printed (asked rest)
               ["Configuration created in "
                ++ path_text default_apods_dir "apodmgr.cfg.json"],
             w')
          /\ config_file w' = Some blank_text).
Proof.
  intros F question asked.
  assert (E : mkcfg c w
              = match stdin c with
                | [] => (Failed EOFError, asked [], w)
                | answer :: rest =>
                    if negb (String.eqb answer "Y") then (Done tt, asked rest, w)
                    else
                      (let! parent_exists := run (path_exists default_apods_dir) in
                       (if negb parent_exists then run (mkdir default_apods_dir)
                        else cret tt);;
                       run (write_file default_apods_dir "apodmgr.cfg.json" blank_text);;
                       print ("Configuration created in "
                              ++ path_text default_apods_dir "apodmgr.cfg.json"))%cmd
                        (asked rest) w
                end).
  { unfold mkcfg, default_manager_configuration_path.
    unfold cbind at 1, run at 1, is_file. rewrite F.
    rewrite bool_decide_eq_true_2 by eauto.
    unfold cbind at 1, input. fold question.
    destruct (stdin c) as [|answer rest]; [reflexivity|].
    now destruct (negb (String.eqb answer "Y")). }
  rewrite E. split; [|split].
  - now intros ->.
  - intros answer rest -> Ne. now rewrite (proj2 (String.eqb_neq _ _) Ne).
  - intros rest -> V. cbn [String.eqb Ascii.eqb Bool.eqb andb negb].
    assert (A : at_hand w default_apods_dir).
    { left. destruct (fs w !! default_apods_dir); [eauto | discriminate]. }
    rewrite (mkcfg_create_step (asked rest) w V A). eexists.
    split; [reflexivity|].
    cbn [fs]. rewrite lookup_insert_eq. simpl. apply lookup_insert_eq.
Qed.

(** X26. [main]: with no command it says so. For every command other
    than [mkcfg], when the configuration file is absent it prints that the
    file was not found and does nothing else; when the file is there the
    configuration is loaded first, so an exception of [load_from] ends the
    command, whichever it is; and when the command is none of [fetch],
    [list], [download], [set-bg], the names of the commands are printed. *)
Theorem main_needs_configuration (prog : string) (c : console) (w : world) :
  (argv c = [prog] ->
   main c w = (Done tt, printed (set_argv c []) ["Must specify a command"], w))
  /\ (forall command rest,
        argv c = prog :: command :: rest ->
        command <> "mkcfg" ->
        (config_file w = None ->
         main c w
         = (Done tt,
            printed (set_argv c rest)
              [path_text default_apods_dir "apodmgr.cfg.json" ++ " not found"],
            w))
        /\ (is_Some (config_file w) ->
            (forall e w1,
                ManagerConfiguration.load_from default_apods_dir "apodmgr.cfg.json" w
                = (Raise e, w1) ->
                main c w = (Failed (Core e), set_argv c rest, w1))
            /\ (forall config w1,
                  ManagerConfiguration.load_from default_apods_dir "apodmgr.cfg.json" w
                  = (Ok config, w1) ->
                  command <> "fetch" -> command <> "list" ->
                  command <> "download" -> command <> "set-bg" ->
                  main c w
                  = (Done tt,
                     printed (set_argv c rest)
                       ["Must specify a valid command:"; "mkcfg"; "fetch"; "list";
                        "download"; "set-bg"],
                     w1)))).
Proof.
  split.
  - intros A. unfold main, cbind, argv_pop0. rewrite A. reflexivity.
  - intros command rest A M.
    assert (E : main c w
                = (let! there := run (is_file default_apods_dir "apodmgr.cfg.json") in
                   if negb there
                   then print (path_text default_apods_dir "apodmgr.cfg.json"
                               ++ " not found")
                   else
                     let! config := run (ManagerConfiguration.load_from
                                           default_apods_dir "apodmgr.cfg.json") in
                     if String.eqb command "fetch" then fetch config
                     else if String.eqb command "list" then list_apods config
                     else if String.eqb command "download" then download_media config
                     else if String.eqb command "set-bg" then set_background config
                     else
                       (print "Must specify a valid command:";;
                        print "mkcfg";;
                        print "fetch";;
                        print "list";;
                        print "download";;
                        print "set-bg"))%cmd (set_argv c rest) w).
    { unfold main, cbind at 1, argv_pop0 at 1. rewrite A. cbn [argv].
      unfold cbind at 1, argv_pop0 at 1. cbn [argv].
      now rewrite (proj2 (String.eqb_neq _ _) M). }
    rewrite E. clear E. split.
    + intros F. unfold cbind, run, is_file. rewrite F.
      now rewrite bool_decide_eq_false_2 by (intros [? ?]; discriminate).
    + intros F. split.
      * intros e w1 L. unfold cbind, run, is_file.
        rewrite bool_decide_eq_true_2 by exact F. cbn [negb]. now rewrite L.
      * intros config w1 L N1 N2 N3 N4. unfold cbind at 1, run at 1, is_file.
        rewrite bool_decide_eq_true_2 by exact F. cbn [negb].
        unfold cbind at 1, run at 1. rewrite L.
        rewrite (proj2 (String.eqb_neq _ _) N1), (proj2 (String.eqb_neq _ _) N2),
          (proj2 (String.eqb_neq _ _) N3), (proj2 (String.eqb_neq _ _) N4).
        unfold cbind, print, write, printed. cbn [argv stdout stdin desktop map].
        now rewrite <- !app_assoc.
Qed.

End CommandExtras.

(** ** The further properties on the sample hosts *)

Section ExtraEvaluation.
Import Sample SampleShell.

Lemma stored_apod_file_exact_witness :
  ManagerConfiguration.stored_apod_file config (DStr "2024-01-01") cached
  = (Ok (Some "2024-01-01.json"), cached)
  /\ ManagerConfiguration.stored_apod_file config (DStr "2024-01-02") cached
     = (Ok None, cached)
  /\ ManagerConfiguration.stored_apod_file config (DStr "yesterday") cached
     = (Raise (ValueError (APOD.format_message "date")), cached).
Proof.
  split; [|split].
  - apply (proj2 (proj2 (proj2 (stored_apod_file_exact config (DStr "2024-01-01") cached))
                   eq_refl)
             {["2024-01-01.json" := Document (APOD.asdict (of_the_day "2024-01-01"))]}).
    + vm_compute. reflexivity.
    + vm_compute. eauto.
  - apply (proj2 (proj2 (proj2 (stored_apod_file_exact config (DStr "2024-01-02") cached))
                   eq_refl)
             {["2024-01-01.json" := Document (APOD.asdict (of_the_day "2024-01-01"))]}).
    + vm_compute. reflexivity.
    + vm_compute. reflexivity.
  - apply (proj1 (proj2 (stored_apod_file_exact config (DStr "yesterday") cached))).
    reflexivity.
Defined.

Lemma stored_apods_exact_witness :
  exists names,
    ManagerConfiguration.stored_apods config configured = (Ok names, configured)
    /\ NoDup names
    /\ forall n,
        n ∈ names
        <-> (is_Some ((<["apodmgr.cfg.json" := Document (config_asdict config)]>
                        {["2024-01-01.json" :=
                            Document (APOD.asdict (of_the_day "2024-01-01"))]}
                      : gmap string file) !! n)
             /\ re_match ManagerConfiguration.apod_file_name_pattern n = true).
Proof.
  apply (proj2 (stored_apods_exact config configured)).
  vm_compute. reflexivity.
Defined.

Lemma store_apods_last_wins_witness :
  exists w',
    ManagerConfiguration.store_apods config
      [of_the_day "2024-01-01"; of_the_day "2024-01-02"; retitled "2024-01-01"] fresh
    = (Ok [of_the_day "2024-01-01"; of_the_day "2024-01-02"; retitled "2024-01-01"], w').
Proof.
  apply (proj2 (store_apods_last_wins config
                  [of_the_day "2024-01-01"; of_the_day "2024-01-02";
                   retitled "2024-01-01"] fresh)).
  - vm_compute. eauto.
  - repeat constructor.
Defined.

Lemma stored_after_store_witness :
  let r := of_the_day "2024-01-01" in
  let w' := snd (ManagerConfiguration.store_apod config r fresh) in
  ManagerConfiguration.stored_apod_file config (DStr "2024-01-01") w'
  = (Ok (Some "2024-01-01.json"), w')
  /\ (String.length "2024-01-01" = 10%nat ->
      exists names,
        ManagerConfiguration.stored_apods config w' = (Ok names, w')
        /\ "2024-01-01.json" ∈ names).
Proof.
  intros r w'.
  apply (stored_after_store config r fresh w').
  - apply validate_ok. reflexivity.
  - vm_compute. reflexivity.
Defined.

Lemma store_apod_replaces_witness :
  let a := of_the_day "2024-01-01" in
  let b := retitled "2024-01-01" in
  let w1 := snd (ManagerConfiguration.store_apod config a fresh) in
  let w2 := snd (ManagerConfiguration.store_apod config b w1) in
  APOD.load_from "/home/u/apods" "2024-01-01.json" w2 = (Ok b, w2)
  /\ (forall n, n <> "2024-01-01.json" ->
                record_file config w2 n = record_file config fresh n)
  /\ (forall q, q <> "/home/u/apods" -> fs w2 !! q = fs fresh !! q)
  /\ net w2 = net fresh.
Proof.
  intros a b w1 w2.
  apply (store_apod_replaces config a b fresh w1 w2 sample_codec).
  - apply validate_ok. reflexivity.
  - reflexivity.
  - vm_compute. reflexivity.
  - vm_compute. reflexivity.
Defined.

Lemma remote_fetch_single_outcomes_witness :
  @APOD.fetch_single SampleLists.down "KEY" (Some (DStr "2024-01-01"))
    SampleLists.cut_off
  = (Raise (HTTPError 503),
     @mkWorld SampleLists.down (@fs SampleLists.down SampleLists.cut_off)
       [APOD.single_request "KEY" "2024-01-01"])
  /\ @APOD.fetch_single SampleLists.odd "KEY" (Some (DStr "2024-01-01"))
       SampleLists.at_odds
     = (Ok (of_the_day "2024-01-01"),
        @mkWorld SampleLists.odd (@fs SampleLists.odd SampleLists.at_odds)
          [APOD.single_request "KEY" "2024-01-01"]).
Proof.
  split.
  - apply (proj1 (proj2 (proj2 (proj2
             (@remote_fetch_single_outcomes SampleLists.down "KEY"
                (Some (DStr "2024-01-01")) SampleLists.cut_off)
             eq_refl))
             (mkResponse 503 (Bytes "Service Unavailable")) eq_refl)).
    cbn [status_code]. lia.
  - apply (proj2 (proj2 (proj2 (proj2 (proj2
             (@remote_fetch_single_outcomes SampleLists.odd "KEY"
                (Some (DStr "2024-01-01")) SampleLists.at_odds)
             eq_refl))
             (mkResponse 600 (Document (picture "2024-01-01"))) eq_refl))
             ltac:(right; cbn [status_code]; lia)
             (picture "2024-01-01") eq_refl).
Defined.

Lemma remote_fetch_range_checks_witness :
  APOD.fetch_range "KEY" (Some (DStr "2024-01-01")) (Some (DStr "soon")) fresh
  = (Raise (ValueError (APOD.format_message "end_date")), fresh)
  /\ snd (APOD.fetch_range "KEY" (Some (DStr "2024-01-01"))
                           (Some (DStr "2024-01-05")) fresh)
     = mkWorld (fs fresh) [APOD.range_request "KEY" "2024-01-01" "2024-01-05"].
Proof.
  split.
  - apply (proj1 (proj2 (remote_fetch_range_checks "KEY" (Some (DStr "2024-01-01"))
                           (Some (DStr "soon")) fresh)));
      reflexivity.
  - apply (proj1 (proj2 (proj2 (remote_fetch_range_checks "KEY"
                                  (Some (DStr "2024-01-01"))
                                  (Some (DStr "2024-01-05")) fresh))));
      reflexivity.
Defined.

Lemma archive_fetch_random_witness :
  let out := @ManagerConfiguration.fetch_random SampleLists.host config 2
               SampleLists.fresh in
  Forall invariant [of_the_day "2024-02-01"; of_the_day "2024-02-02"]
  /\ @fs SampleLists.host (snd out) !! "/home/u/apods" ≫= (.!! "2024-02-02.json")
     = Some (Document (APOD.asdict (of_the_day "2024-02-02"))).
Proof.
  intros out.
  destruct (proj2 (proj2 (@archive_fetch_random SampleLists.host config 2
                            SampleLists.fresh))
              [of_the_day "2024-02-01"; of_the_day "2024-02-02"] (snd out))
    as (V & _ & F).
  - vm_compute. reflexivity.
  - split; [exact V|]. exact (F "2024-02-02.json").
Defined.

Lemma archive_fetch_range_witness :
  let out := @ManagerConfiguration.fetch_range SampleLists.host config
               (Some (DStr "2024-02-01")) (Some (DStr "2024-02-02"))
               SampleLists.fresh in
  @net SampleLists.host (snd out)
  = [APOD.range_request "KEY" "2024-02-01" "2024-02-02"]
  /\ Forall invariant [of_the_day "2024-02-01"; of_the_day "2024-02-02"].
Proof.
  intros out. split.
  - apply (proj1 (proj2 (@archive_fetch_range SampleLists.host config
                           (Some (DStr "2024-02-01")) (Some (DStr "2024-02-02"))
                           SampleLists.fresh)));
      reflexivity.
  - apply (proj2 (proj2 (@archive_fetch_range SampleLists.host config
                           (Some (DStr "2024-02-01")) (Some (DStr "2024-02-02"))
                           SampleLists.fresh))
             [of_the_day "2024-02-01"; of_the_day "2024-02-02"] (snd out)).
    vm_compute. reflexivity.
Defined.

Lemma archive_fetch_single_frame_witness :
  let out := @ManagerConfiguration.fetch_single SampleLists.down config
               (Some (DStr "2024-01-01")) SampleLists.cut_off in
  fst out = Raise (HTTPError 503)
  /\ @fs SampleLists.down (snd out) = @fs SampleLists.down SampleLists.cut_off.
Proof.
  intros out. split; [vm_compute; reflexivity|].
  apply (proj1 (proj2 (proj2
           (@archive_fetch_single_frame SampleLists.down config
              (Some (DStr "2024-01-01")) SampleLists.cut_off (snd out) (fst out)
              eq_refl)))
           (HTTPError 503)).
  vm_compute. reflexivity.
Defined.

Lemma configuration_validate_witness :
  ManagerConfiguration._validate_data
    (ManagerConfiguration.mk "   " "/home/u/apods" "/home/u/apods/images") nowhere
  = (Raise (ValueError "API key must not be blank"), nowhere)
  /\ ManagerConfiguration._validate_data config nowhere
     = (Raise FileNotFoundError, nowhere)
  /\ (exists w',
        ManagerConfiguration._validate_data far_media moved_in
        = (Raise FileNotFoundError, w')
        /\ is_Some (fs w' !! "/home/u/apods"))
  /\ exists w',
      ManagerConfiguration._validate_data config moved_in = (Ok config, w')
      /\ is_Some (fs w' !! "/home/u/apods")
      /\ is_Some (fs w' !! "/home/u/apods/images").
Proof.
  split; [|split; [|split]].
  - apply (proj1 (configuration_validate
                    (ManagerConfiguration.mk "   " "/home/u/apods" "/home/u/apods/images")
                    nowhere)).
    reflexivity.
  - apply (proj1 (proj2 (configuration_validate config nowhere) eq_refl));
      reflexivity.
  - destruct (proj1 (proj2 (proj2 (configuration_validate far_media moved_in)
                              eq_refl)))
      as (w' & E & _ & S1 & _).
    + right. vm_compute. eauto.
    + reflexivity.
    + reflexivity.
    + vm_compute. discriminate.
    + exists w'. split; [exact E | exact S1].
  - destruct (proj2 (proj2 (proj2 (configuration_validate config moved_in)
                              eq_refl)))
      as (w' & E & _ & S1 & S2 & _).
    + right. vm_compute. eauto.
    + right. left. reflexivity.
    + exists w'. split; [exact E|]. split; [exact S1 | exact S2].
Defined.

Lemma configuration_load_failures_witness :
  ManagerConfiguration.load_from "/home/u/apods" "apodmgr.cfg.json" fresh
  = (Raise FileNotFoundError, fresh)
  /\ ManagerConfiguration.load_from "/home/u/apods" "2024-01-01.jpg" mixed
     = (Raise JSONDecodeError, mixed).
Proof.
  split.
  - apply (proj1 (configuration_load_failures "/home/u/apods" "apodmgr.cfg.json" fresh)).
    vm_compute. reflexivity.
  - apply (proj1 (proj2 (configuration_load_failures "/home/u/apods" "2024-01-01.jpg"
                           mixed) (Bytes "JFIF") ltac:(vm_compute; reflexivity))).
    reflexivity.
Defined.

Lemma configuration_round_trip_witness :
  exists w',
    ManagerConfiguration.load_from "/home/u/apods" "apodmgr.cfg.json" configured
    = (Ok config, w')
    /\ is_Some (fs w' !! "/home/u/apods")
    /\ is_Some (fs w' !! "/home/u/apods/images")
    /\ fs w' !! "/home/u/apods" ≫= (.!! "apodmgr.cfg.json")
       = Some (Document (config_asdict config))
    /\ net w' = net configured.
Proof.
  apply (proj2 (configuration_round_trip config "/home/u/apods" "apodmgr.cfg.json"
                  configured sample_codec eq_refl
                  ltac:(vm_compute; reflexivity))).
  - left. vm_compute. eauto.
  - left. left. vm_compute. eauto.
Defined.

Lemma record_keywords_witness :
  exists k',
    In k' ["date"; "colour"] /\ ~ In k' APOD.fields
    /\ APOD.of_kwargs (JObj [("date", JStr "2024-01-01"); ("colour", JStr "red")])
       = Raise (TypeError (refused_keyword k')).
Proof.
  apply (proj1 (proj2 record_keywords)
           [("date", JStr "2024-01-01"); ("colour", JStr "red")] "colour").
  - right. left. reflexivity.
  - vm_compute. intuition discriminate.
Defined.

Lemma save_media_download_witness :
  exists w',
    ManagerConfiguration.save_media_for config (of_the_day "2024-01-01") fresh
    = (Ok tt, w')
    /\ media_file config w' "2024-01-01.jpg" = Some (Bytes "JFIF").
Proof.
  destruct (save_media_download config (of_the_day "2024-01-01") fresh "jpg"
              "https://apod.nasa.gov/apod/image/pic.jpg" ∅
              eq_refl eq_refl eq_refl
              ltac:(vm_compute; reflexivity) ltac:(vm_compute; reflexivity))
    as (_ & _ & D).
  destruct (proj2 (D (mkResponse 200 (Bytes "JFIF")) eq_refl)
              ltac:(left; reflexivity) ltac:(vm_compute; reflexivity))
    as (w' & E & F & _).
  exists w'. split; [exact E | exact F].
Defined.

Lemma fetch_one_date_witness :
  fetch config (started ["2024-01-01"]) cached
  = (Failed IndexError, started [], cached)
  /\ main (started ["apodmgr"; "fetch"; "2024-01-01"]) configured
     = (Failed IndexError, started [], configured).
Proof.
  assert (D : re_match APOD.APOD_DATE_FORMAT_RE "2024-01-01" = true) by reflexivity.
  split.
  - apply (proj1 (fetch_one_date config "2024-01-01" (started ["2024-01-01"])
                    cached D)).
    reflexivity.
  - apply (proj2 (fetch_one_date config "2024-01-01"
                    (started ["apodmgr"; "fetch"; "2024-01-01"]) configured D)
             "apodmgr" configured).
    + reflexivity.
    + vm_compute. eauto.
    + vm_compute. reflexivity.
Defined.

Lemma fetch_two_dates_witness :
  fetch config (started ["2024-01-01"; "2024-01-05"]) cached
  = (Failed IndexError, started [], cached)
  /\ fst (@fetch SampleLists.host shell config
            (started ["2024-01-01"; "2024-01-05"; "2024-02-01"; "2024-02-02"])
            SampleLists.fresh)
     = (Done tt,
        printed (started ["2024-02-01"; "2024-02-02"])
          ["2024-02-01 - image - A Picture"; "2024-02-02 - image - A Picture"]).
Proof.
  split.
  - apply (proj1 (fetch_two_dates config "2024-01-01" "2024-01-05" []
                    (started ["2024-01-01"; "2024-01-05"]) cached
                    eq_refl eq_refl eq_refl)).
    simpl. lia.
  - rewrite (proj1 (proj2 (@fetch_two_dates SampleLists.host shell config
                             "2024-01-01" "2024-01-05" ["2024-02-01"; "2024-02-02"]
                             (started ["2024-01-01"; "2024-01-05"; "2024-02-01";
                                       "2024-02-02"])
                             SampleLists.fresh eq_refl eq_refl eq_refl)
                      "2024-02-01" "2024-02-02" [] eq_refl)
               [of_the_day "2024-02-01"; of_the_day "2024-02-02"]
               (snd (@ManagerConfiguration.fetch_range SampleLists.host config
                       (Some (DStr "2024-02-01")) (Some (DStr "2024-02-02"))
                       SampleLists.fresh))
               ltac:(vm_compute; reflexivity)).
    reflexivity.
Defined.

Lemma fetch_count_or_today_witness :
  fst (fetch config (started ["today"]) cached)
  = (Done tt, printed (started []) ["2024-03-05 - image - A Picture"])
  /\ fst (@fetch SampleLists.host shell config (started ["2"]) SampleLists.fresh)
     = (Done tt,
        printed (started [])
          ["2024-02-01 - image - A Picture"; "2024-02-02 - image - A Picture"]).
Proof.
  split.
  - rewrite (proj1 (proj2 (@fetch_count_or_today host shell config "today"
                             (started ["today"]) cached eq_refl eq_refl)
                      eq_refl eq_refl)
               (of_the_day "2024-03-05")
               (snd (ManagerConfiguration.fetch_single config None cached))
               ltac:(vm_compute; reflexivity)).
    reflexivity.
  - rewrite (proj1 (proj1 (@fetch_count_or_today SampleLists.host shell config "2"
                             (started ["2"]) SampleLists.fresh eq_refl eq_refl)
                      2%Z eq_refl)
               [of_the_day "2024-02-01"; of_the_day "2024-02-02"]
               (snd (@ManagerConfiguration.fetch_random SampleLists.host config 2
                       SampleLists.fresh))
               ltac:(vm_compute; reflexivity)).
    reflexivity.
Defined.

Lemma fetch_help_witness :
  fetch config (started []) cached
  = (Done tt, printed (started []) [FETCH_HELP_MSG], cached)
  /\ fetch config (started ["tomorrow"]) cached
     = (Done tt, printed (started ["tomorrow"]) [FETCH_HELP_MSG], cached)
  /\ fetch config (started ["today"; "2024-01-01"]) cached
     = (Done tt, printed (started ["today"; "2024-01-01"]) [FETCH_HELP_MSG], cached).
Proof.
  split; [|split].
  - apply (fetch_help config (started []) cached). left. reflexivity.
  - apply (fetch_help config (started ["tomorrow"]) cached). right. left.
    exists "tomorrow". repeat split; try reflexivity. discriminate.
  - apply (fetch_help config (started ["today"; "2024-01-01"]) cached).
    right. right. exists "today", "2024-01-01", []. split; reflexivity.
Defined.

Lemma list_apods_prints_witness :
  list_apods config (started []) cached
  = (Done tt, printed (started []) ["2024-01-01 - image - A Picture"], cached).
Proof.
  apply (proj2 (proj2 (list_apods_prints config (started []) cached))
           ["2024-01-01.json"] [of_the_day "2024-01-01"]).
  - vm_compute. reflexivity.
  - repeat constructor.
Defined.

Lemma download_media_cached_only_witness :
  download_media config (started ["2024-01-02"]) cached
  = (Done tt, printed (started []) ["Haven't fetched 2024-01-02 yet..."], cached)
  /\ ManagerConfiguration.fetch_single config (Some (DStr "2024-01-01")) cached
     = (Ok (of_the_day "2024-01-01"), cached).
Proof.
  split.
  - apply (proj1 (download_media_cached_only config "2024-01-02" []
                    (started ["2024-01-02"]) cached
                    shelf
                    eq_refl ltac:(vm_compute; reflexivity))).
    left. vm_compute. reflexivity.
  - apply (proj1 (proj2 (download_media_cached_only config "2024-01-01" []
                           (started ["2024-01-01"]) cached
                           shelf
                           eq_refl ltac:(vm_compute; reflexivity))
                    (Document (APOD.asdict (of_the_day "2024-01-01")))
                    ltac:(vm_compute; reflexivity) eq_refl)).
Defined.

Lemma download_media_no_api_witness :
  net (snd (download_media config (started ["2024-01-01"]) cached))
  = [ManagerConfiguration.media_request "https://apod.nasa.gov/apod/image/pic.jpg"]
  /\ fs (snd (download_media config (started ["2024-01-01"]) cached)) !! "/home/u/apods"
     = fs cached !! "/home/u/apods".
Proof.
  split; [vm_compute; reflexivity|].
  apply (proj2 (download_media_no_api config (started ["2024-01-01"]) cached)).
  discriminate.
Defined.

Lemma set_background_never_sets_witness :
  set_background config (started ["2024-01-01"]) cached
  = (Failed (Core AttributeError), started [], cached)
  /\ set_background config (started ["2024-01-02"]) cached
     = (Done tt, printed (started []) ["Haven't fetched 2024-01-02 yet..."], cached).
Proof.
  split.
  - apply (proj1 (proj2 (proj2 (proj2 (set_background_never_sets config
                                         (started ["2024-01-01"]) cached))
                          "2024-01-01" [] eq_refl)
                   shelf
                   eq_refl ltac:(vm_compute; reflexivity))).
    vm_compute. eauto.
  - apply (proj2 (proj2 (proj2 (proj2 (set_background_never_sets config
                                         (started ["2024-01-02"]) cached))
                          "2024-01-02" [] eq_refl)
                   shelf
                   eq_refl ltac:(vm_compute; reflexivity))).
    vm_compute. reflexivity.
Defined.

Lemma mkcfg_writes_blank_key_witness :
  mkcfg (started []) nowhere
  = (Failed (Core FileNotFoundError), started [], nowhere)
  /\ exists w',
      mkcfg (started []) moved_in
      = (Done tt,
         printed (started []) ["Configuration created in /home/u/apods/apodmgr.cfg.json"],
         w')
      /\ ManagerConfiguration.load_from "/home/u/apods" "apodmgr.cfg.json" w'
         = (Raise (ValueError "API key must not be blank"), w').
Proof.
  split.
  - apply (proj1 (mkcfg_writes_blank_key (started []) nowhere sample_codec eq_refl
                    eq_refl));
      reflexivity.
  - destruct (proj2 (mkcfg_writes_blank_key (started []) moved_in sample_codec
                       eq_refl eq_refl))
      as (w' & E & _ & _ & _ & _ & L).
    + right. vm_compute. eauto.
    + exists w'. split; [exact E | exact L].
Defined.

Lemma mkcfg_asks_before_overwriting_witness :
  mkcfg (mkConsole [] [] ["n"] []) configured
  = (Done tt,
     mkConsole []
       ["Configuration /home/u/apods/apodmgr.cfg.json already exists, overwrite? (Y/n)"]
       [] [],
     configured).
Proof.
  apply (proj1 (proj2 (mkcfg_asks_before_overwriting (mkConsole [] [] ["n"] [])
                         configured (Document (config_asdict config))
                         ltac:(vm_compute; reflexivity)))
           "n" [] eq_refl).
  discriminate.
Defined.

Lemma main_needs_configuration_witness :
  main (started ["apodmgr"; "list"]) fresh
  = (Done tt, printed (started []) ["/home/u/apods/apodmgr.cfg.json not found"], fresh)
  /\ main (started ["apodmgr"; "help"]) configured
     = (Done tt,
        printed (started [])
          ["Must specify a valid command:"; "mkcfg"; "fetch"; "list"; "download";
           "set-bg"],
        configured).
Proof.
  split.
  - apply (proj1 (proj2 (main_needs_configuration "apodmgr"
                           (started ["apodmgr"; "list"]) fresh)
                    "list" [] eq_refl ltac:(discriminate))).
    vm_compute. reflexivity.
  - apply (proj2 (proj2 (proj2 (main_needs_configuration "apodmgr"
                                  (started ["apodmgr"; "help"]) configured)
                           "help" [] eq_refl ltac:(discriminate))
                    ltac:(vm_compute; eauto))
             config configured);
      [vm_compute; reflexivity | discriminate..].
Defined.

End ExtraEvaluation.
